(** * The census page codec: decoder [ParseHTML] and encoder [WriteHTML]

    A shallow embedding of the Go sources

    - [parser] package        (ParseHTML, ancestorTag),
    - [template] package      (wrapCell, headerVal, pageTmpl, WriteHTML),
    - the single-file program (wrapCell, headerVal, pageTmpl, writeHTML,
      parseHTML, ancestorTag),

    together with the library functions they call: [strings.TrimSpace],
    [html.EscapeString], [fmt.Sprintf] with [%d], the execution of an
    [html/template] template and the tree that [html.Parse] builds. *)

From Stdlib Require Import String Ascii List ZArith Lia Bool DecimalString.
From stdpp Require Import base list strings.

Local Open Scope string_scope.
Local Open Scope list_scope.

(** ** Go strings

    A Go [string] is a sequence of bytes: Rocq's [string], whose characters
    are the 256 [ascii] values. *)

Definition byte (n : nat) : ascii := ascii_of_nat n.

Definition bytes (l : list nat) : string := string_of_list_ascii (map byte l).

(** The double quote, which a string literal cannot hold directly. *)
Definition dquote : ascii := Eval cbv in byte 34.

(** [q s] is [s] with every apostrophe replaced by a double quote: the
    templates and the format strings below are written with ['] where the
    Go source has a double quote (the Go text itself holds no apostrophe). *)
Fixpoint q (s : string) : string :=
  match s with
  | EmptyString => EmptyString
  | String c s' => String (if Ascii.eqb c "'" then dquote else c) (q s')
  end.

(** strings.HasPrefix *)
Fixpoint HasPrefix (s prefix : string) {struct prefix} : bool :=
  match prefix with
  | EmptyString => true
  | String a prefix' =>
      match s with
      | String b s' => Ascii.eqb a b && HasPrefix s' prefix'
      | EmptyString => false
      end
  end.

Fixpoint concatStr (l : list string) : string :=
  match l with
  | [] => EmptyString
  | s :: l' => s +:+ concatStr l'
  end.

(** *** strings.TrimSpace

    [TrimSpace] removes leading and trailing white space "as defined by
    Unicode": the code points U+0009..U+000D, U+0020, U+0085, U+00A0,
    U+1680, U+2000..U+200A, U+2028, U+2029, U+202F, U+205F and U+3000, here
    as their UTF-8 encodings. *)

Definition whiteSpace : list (list ascii) :=
  map (map byte)
    [ [9]; [10]; [11]; [12]; [13]; [32];
      [194; 133]; [194; 160];
      [225; 154; 128];
      [226; 128; 128]; [226; 128; 129]; [226; 128; 130]; [226; 128; 131];
      [226; 128; 132]; [226; 128; 133]; [226; 128; 134]; [226; 128; 135];
      [226; 128; 136]; [226; 128; 137]; [226; 128; 138];
      [226; 128; 168]; [226; 128; 169]; [226; 128; 175];
      [226; 129; 159];
      [227; 128; 128] ].

Fixpoint stripPrefix (p s : list ascii) : option (list ascii) :=
  match p with
  | [] => Some s
  | a :: p' =>
      match s with
      | b :: s' => if Ascii.eqb a b then stripPrefix p' s' else None
      | [] => None
      end
  end.

(** The rest of [s] after one leading rune of [enc], if [s] starts with one. *)
Fixpoint dropRune (enc : list (list ascii)) (s : list ascii) : option (list ascii) :=
  match enc with
  | [] => None
  | p :: enc' =>
      match stripPrefix p s with
      | Some r => Some r
      | None => dropRune enc' s
      end
  end.

Fixpoint trimLeftFuel (enc : list (list ascii)) (fuel : nat) (s : list ascii) : list ascii :=
  match fuel with
  | O => s
  | S fuel' =>
      match dropRune enc s with
      | Some r => trimLeftFuel enc fuel' r
      | None => s
      end
  end.

(** Every rune takes at least one byte, so [length s] rounds are enough. *)
Definition trimLeft (enc : list (list ascii)) (s : list ascii) : list ascii :=
  trimLeftFuel enc (length s) s.

Definition trimSpaceBytes (s : list ascii) : list ascii :=
  rev (trimLeft (map (@rev ascii) whiteSpace) (rev (trimLeft whiteSpace s))).

Definition TrimSpace (s : string) : string :=
  string_of_list_ascii (trimSpaceBytes (list_ascii_of_string s)).

(** *** html.EscapeString

    "EscapeString escapes special characters like < to become &lt;. It
    escapes only five such characters: <, >, &, ' and double quote." *)

Definition escapeByte (c : ascii) : string :=
  if Ascii.eqb c "&" then "&amp;"
  else if Ascii.eqb c "'" then "&#39;"
  else if Ascii.eqb c "<" then "&lt;"
  else if Ascii.eqb c ">" then "&gt;"
  else if Ascii.eqb c dquote then "&#34;"
  else String c EmptyString.

Fixpoint EscapeString (s : string) : string :=
  match s with
  | EmptyString => EmptyString
  | String c s' => escapeByte c +:+ EscapeString s'
  end.

(** *** fmt.Sprintf("%d", n) *)

Definition formatInt (n : Z) : string := NilZero.string_of_int (Z.to_int n).

(** ** The document tree of golang.org/x/net/html

    [html.Node] has a type, a data string (the tag name of an element, the
    content of a text node), attributes and, through FirstChild and
    NextSibling, an ordered sequence of children.  The Parent link of a node
    is represented by the chain of its ancestors, nearest first, that every
    traversal below carries along. *)

Inductive NodeType : Set :=
  ErrorNode | TextNode | DocumentNode | ElementNode | CommentNode | DoctypeNode.

Definition NodeType_eqb (a b : NodeType) : bool :=
  match a, b with
  | ErrorNode, ErrorNode | TextNode, TextNode | DocumentNode, DocumentNode
  | ElementNode, ElementNode | CommentNode, CommentNode
  | DoctypeNode, DoctypeNode => true
  | _, _ => false
  end.

Record Attribute : Set := mkAttr { Namespace : string; Key : string; Val : string }.

#[warnings="-register-all"]
Inductive Node : Set :=
  mkNode { Type_ : NodeType; Data : string; Attr : list Attribute; Children : list Node }.

Definition element (tag : string) (attrs : list Attribute) (kids : list Node) : Node :=
  mkNode ElementNode tag attrs kids.

Definition textNode (s : string) : Node := mkNode TextNode s [] [].

Definition attr (k v : string) : Attribute := mkAttr EmptyString k v.

(** Induction over a tree and the trees below it. *)
Section NodeInd.
  Variable P : Node -> Prop.
  Hypothesis step : forall t d a kids, Forall P kids -> P (mkNode t d a kids).

Fixpoint Node_forall_ind (n : Node) : P n :=
    match n with
    | mkNode t d a kids =>
        step t d a kids
          ((fix all (l : list Node) : Forall P l :=
              match l with
              | [] => @List.Forall_nil _ P
              | k :: l' => @List.Forall_cons _ P k l' (Node_forall_ind k) (all l')
              end) kids)
    end.
End NodeInd.

(** The nodes of a tree in document order, each with its ancestor chain. *)
Fixpoint preorder (anc : list Node) (n : Node) : list (list Node * Node) :=
  (anc, n) :: flat_map (preorder (n :: anc)) (Children n).

(** ** The data model

    [type Row struct{ Col [FieldCount]string }], declared with the same shape
    by package parser and by the single-file program.  The fixed-size arrays
    [[7]string], [[12]string], [[25]Row] and [[4]string] are lists; the
    decoder builds them at these lengths (see [decodeDoc_sizes]). *)

Record Row : Set := mkRow { Col : list string }.

(** ** The decoder: package parser *)

Module Parser.

Definition RowCount : nat := 25.
Definition FieldCount : nat := 12.
Definition HeadCount : nat := 7.
Definition FootCount : nat := 4.

(** The zero values of [[HeadCount]string], [[RowCount]Row] and
    [[FootCount]string]. *)
Definition zeroHead : list string := replicate HeadCount EmptyString.
Definition zeroRow : Row := mkRow (replicate FieldCount EmptyString).
Definition zeroRows : list Row := replicate RowCount zeroRow.
Definition zeroFoot : list string := replicate FootCount EmptyString.

(** [ancestorTag] walks the Parent links of a node: [anc] is that chain. *)
Fixpoint ancestorTag (anc : list Node) (tag : string) : bool :=
  match anc with
  | [] => false
  | p :: anc' =>
      if NodeType_eqb (Type_ p) ElementNode && String.eqb (Data p) tag then true
      else ancestorTag anc' tag
  end.

(** The closure [walk] inside [text]: the text nodes of a subtree, in
    document order, written to the builder. *)
Fixpoint walk (n : Node) : string :=
  (if NodeType_eqb (Type_ n) TextNode then Data n else EmptyString)
  +:+ concatStr (map walk (Children n)).

Definition text (n : option Node) : string :=
  match n with
  | None => EmptyString
  | Some n => TrimSpace (walk n)
  end.

(** The closure [is] ([is] is a reserved word here). *)
Definition is_ (n : option Node) (tag : string) : bool :=
  match n with
  | None => false
  | Some n => NodeType_eqb (Type_ n) ElementNode && String.eqb (Data n) tag
  end.

(** *** header *)

Fixpoint collectTh (n : Node) : list Node :=
  (if is_ (Some n) "th" then [n] else []) ++ flat_map collectTh (Children n).

(** The inner loop over the children [c] of a th: at the first br, the
    value for the slot is the trimmed text of [c.NextSibling]. *)
Fixpoint scanBr (cs : list Node) : option string :=
  match cs with
  | [] => None
  | c :: rest =>
      if is_ (Some c) "br" then Some (TrimSpace (text (head rest)))
      else scanBr rest
  end.

Fixpoint headerLoop (ths : list Node) (idx : nat) (head : list string) : list string :=
  match ths with
  | [] => head
  | th :: rest =>
      if (HeadCount <=? idx)%nat then head
      else
        match scanBr (Children th) with
        | Some v => headerLoop rest (S idx) (<[idx := v]> head)
        | None => headerLoop rest idx head
        end
  end.

(** *** body *)

Fixpoint collectTr (anc : list Node) (n : Node) : list Node :=
  (if is_ (Some n) "tr" && ancestorTag anc "tbody" then [n] else [])
  ++ flat_map (collectTr (n :: anc)) (Children n).

(** The loop [for td != nil && ci < FieldCount] over the children of a row. *)
Fixpoint cellLoop (tds : list Node) (ci : nat) (row : Row) : Row :=
  match tds with
  | [] => row
  | td :: rest =>
      if (FieldCount <=? ci)%nat then row
      else if is_ (Some td) "td"
           then cellLoop rest (S ci) (mkRow (<[ci := text (Some td)]> (Col row)))
           else cellLoop rest ci row
  end.

(** The loop [for ri := 0; ri < len(trs) && ri < RowCount; ri++], with
    [trs] the rows from index [ri] on. *)
Fixpoint rowLoop (trs : list Node) (ri : nat) (rows : list Row) : list Row :=
  match trs with
  | [] => rows
  | tr :: rest =>
      if (RowCount <=? ri)%nat then rows
      else rowLoop rest (S ri) (alter (cellLoop (Children tr) 0) ri rows)
  end.

(** *** footer *)

Definition hasColspan (n : Node) : bool :=
  existsb (fun a => String.eqb (Key a) "colspan") (Attr n).

(** [walkFooter] returns the values it appends to [footvals]; at a tfoot
    cell with a colspan attribute it returns at once. *)
Fixpoint walkFooter (anc : list Node) (n : Node) : list string :=
  if is_ (Some n) "td" && ancestorTag anc "tfoot" then
    if hasColspan n then []
    else text (Some n) :: flat_map (walkFooter (n :: anc)) (Children n)
  else flat_map (walkFooter (n :: anc)) (Children n).

(** The loop [for i := 0; i < len(footvals) && i < FootCount; i++], with
    [vals] the values from index [i] on. *)
Fixpoint footLoop (vals : list string) (i : nat) (foot : list string) : list string :=
  match vals with
  | [] => foot
  | v :: rest =>
      if (FootCount <=? i)%nat then foot
      else footLoop rest (S i) (<[i := v]> foot)
  end.

(** What [ParseHTML] computes from the parsed document. *)
Definition decodeDoc (doc : Node) : list string * list Row * list string :=
  (headerLoop (collectTh doc) 0 zeroHead,
   rowLoop (collectTr [] doc) 0 zeroRows,
   footLoop (walkFooter [] doc) 0 zeroFoot).

(** [ParseHTML] reads the file through [os.Open] and parses it with
    [html.Parse]; both may fail.  The result is Go's four-tuple: the three
    aggregates and the error, [None] for nil. *)
Section ParseHTML.
  Context {error : Type}.
  Variable filepathClean : string -> string.
  Variable osOpen : string -> string + error.
  Variable htmlParse : string -> Node + error.

Definition ParseHTML (path : string)
    : list string * list Row * list string * option error :=
    match osOpen (filepathClean path) with
    | inr err => (zeroHead, zeroRows, zeroFoot, Some err)
    | inl file =>
        match htmlParse file with
        | inr err => (zeroHead, zeroRows, zeroFoot, Some err)
        | inl doc => (decodeDoc doc, None)
        end
    end.
End ParseHTML.

End Parser.

(** ** Template execution: html/template

    A parsed template is a sequence of text nodes and actions; the two
    templates of the repository use the actions below and no others. *)

Inductive CellAction : Set :=
  | CText (s : string)
  | CWrapCell.                     (* {{wrapCell $val $ri $ci}} *)

Inductive RowAction : Set :=
  | RText (s : string)
  | RRangeCol (body : list CellAction).   (* {{range $ci, $val := $row.Col}} *)

Inductive Action : Set :=
  | AText (s : string)
  | AHeaderVal (i : nat)           (* {{headerVal (index .Header i)}} *)
  | AFooter (i : nat)              (* {{index .Footer i}} *)
  | ARangeRows (body : list RowAction).   (* {{range $ri, $row := .Rows}} *)

Record pageData : Set :=
  mkPageData { Header : list string; Rows : list Row; Footer : list string }.

(** html/template leaves out the HTML comments of the template text. *)
Fixpoint elideFrom (skip : nat) (inComment : bool) (s : string) : string :=
  match s with
  | EmptyString => EmptyString
  | String c s' =>
      match skip with
      | S k => elideFrom k inComment s'
      | O =>
          if inComment then
            if HasPrefix s "-->" then elideFrom 2 false s'
            else elideFrom 0 true s'
          else if HasPrefix s "<!--" then elideFrom 3 true s'
          else String c (elideFrom 0 false s')
      end
  end.

Definition elideComments (s : string) : string := elideFrom 0 false s.

(** The escaper html/template applies to a plain string in element content
    (its replacement table: NUL, double quote, &, ', +, <, >). *)
Definition htmlReplacement (c : ascii) : string :=
  if Ascii.eqb c (byte 0) then bytes [239; 191; 189]
  else if Ascii.eqb c dquote then "&#34;"
  else if Ascii.eqb c "&" then "&amp;"
  else if Ascii.eqb c "'" then "&#39;"
  else if Ascii.eqb c "+" then "&#43;"
  else if Ascii.eqb c "<" then "&lt;"
  else if Ascii.eqb c ">" then "&gt;"
  else String c EmptyString.

Fixpoint htmlEscaper (s : string) : string :=
  match s with
  | EmptyString => EmptyString
  | String c s' => htmlReplacement c +:+ htmlEscaper s'
  end.

(** Execution with a FuncMap holding [wrapCell] and [headerVal]: both return
    [template.HTML], which is written as it is; the plain string of
    [index .Footer i] goes through [htmlEscaper].  The constant indices 0..6
    and 0..3 are in range of the fixed-size arrays. *)
Section Execute.
  Variable wrapCell : string -> Z -> Z -> string.
  Variable headerVal : string -> string.

Definition execCell (val : string) (ri ci : Z) (a : CellAction) : string :=
    match a with
    | CText s => elideComments s
    | CWrapCell => wrapCell val ri ci
    end.

Fixpoint rangeCols (body : list CellAction) (ri : Z) (ci : nat) (cols : list string) : string :=
    match cols with
    | [] => EmptyString
    | val :: rest =>
        concatStr (map (execCell val ri (Z.of_nat ci)) body)
        +:+ rangeCols body ri (S ci) rest
    end.

Definition execRow (row : Row) (ri : Z) (a : RowAction) : string :=
    match a with
    | RText s => elideComments s
    | RRangeCol body => rangeCols body ri 0 (Col row)
    end.

Fixpoint rangeRows (body : list RowAction) (ri : nat) (rows : list Row) : string :=
    match rows with
    | [] => EmptyString
    | row :: rest =>
        concatStr (map (execRow row (Z.of_nat ri)) body)
        +:+ rangeRows body (S ri) rest
    end.

Definition execAction (data : pageData) (a : Action) : string :=
    match a with
    | AText s => elideComments s
    | AHeaderVal i => headerVal (nth i (Header data) EmptyString)
    | AFooter i => htmlEscaper (nth i (Footer data) EmptyString)
    | ARangeRows body => rangeRows body 0 (Rows data)
    end.

Definition Execute (tmpl : list Action) (data : pageData) : string :=
    concatStr (map (execAction data) tmpl).
End Execute.

(** *** fmt.Sprintf with the verbs %d and %s *)

Inductive Arg : Set := ArgInt (n : Z) | ArgStr (s : string).

Fixpoint Sprintf (format : string) (args : list Arg) : string :=
  match format with
  | EmptyString => EmptyString
  | String c rest =>
      if Ascii.eqb c "%" then
        match rest, args with
        | String v rest', a :: args' =>
            match a with
            | ArgInt n =>
                if Ascii.eqb v "d" then formatInt n +:+ Sprintf rest' args'
                else String c (Sprintf rest args)
            | ArgStr s =>
                if Ascii.eqb v "s" then s +:+ Sprintf rest' args'
                else String c (Sprintf rest args)
            end
        | _, _ => String c (Sprintf rest args)
        end
      else String c (Sprintf rest args)
  end.

(** Go's [int] addition, 64 bits wide, two's complement. *)
Definition intAdd (a b : Z) : Z := ((a + b + 2 ^ 63) mod 2 ^ 64 - 2 ^ 63)%Z.

(** ** The encoder: package template *)

Module Template.

Definition wrapCell (v : string) (row col : Z) : string :=
  if String.eqb v EmptyString then EmptyString
  else
    let esc := EscapeString v in
    let r := intAdd row 1 in
    let c := intAdd col 1 in
    if (col =? 4)%Z then
      Sprintf (q "<PersonRef detlnk='dpR%dC%d'>%s</PersonRef>") [ArgInt r; ArgInt c; ArgStr esc]
    else if (col =? 1)%Z || (col =? 10)%Z then
      Sprintf (q "<PlaceRef detlnk='dwR%dC%d'>%s</PlaceRef>") [ArgInt r; ArgInt c; ArgStr esc]
    else
      Sprintf (q "<Mark ref='R%dC%d'>%s</Mark>") [ArgInt r; ArgInt c; ArgStr esc].

Definition headerVal (v : string) : string :=
  if String.eqb v EmptyString then EmptyString
  else "<br>" +:+ EscapeString v.

Definition pageTmpl : list Action :=
  [ AText (q "<!DOCTYPE html>
<html lang='en'>
<head><meta charset='UTF-8'><title>1861 Census</title>
<style>
  .smaller-header { font-size: 8px; }
  .small-header   { font-size: 10px; }
  table, th, td   { border: 1px solid black; border-collapse: collapse; }
  th, td          { padding: 4px; font-size: 12px; }
  thead th        { background-color: #f0f0f0; }
</style>
</head>
<body>
<!-- HEADER -->
<table border='1' cellspacing='0' cellpadding='0'>
  <colgroup><col style='width:8.33%' span='7'></colgroup>
  <thead>
    <tr><th colspan='7' align='center'>
      The undermentioned Houses are situate within the Boundaries of the
    </th></tr>
    <tr>
      <th style='line-height:5em; padding-bottom:2em;'>Parish [or Township] of");
    AHeaderVal 0;
    AText (q "</th>
      <th style='line-height:5em; padding-bottom:2em;'>City or Municipal Borough of");
    AHeaderVal 1;
    AText (q "</th>
      <th style='line-height:5em; padding-bottom:2em;'>Municipal Ward of");
    AHeaderVal 2;
    AText (q "</th>
      <th style='line-height:5em; padding-bottom:2em;'>Parliamentary Borough of");
    AHeaderVal 3;
    AText (q "</th>
      <th style='line-height:5em; padding-bottom:2em;'>Town of");
    AHeaderVal 4;
    AText (q "</th>
      <th style='line-height:5em; padding-bottom:2em;'>Village or Hamlet of");
    AHeaderVal 5;
    AText (q "</th>
      <th style='line-height:5em; padding-bottom:2em;'>Ecclesiastical District of");
    AHeaderVal 6;
    AText (q "</th>
    </tr>
    <tr>
      <th class='small-header'>Sched. No.</th>
      <th class='small-header'>Road, Street, &amp; No. or Name of House</th>
      <th class='small-header'>Houses</th>
      <th class='smaller-header'>Name &amp; Surname of each Person</th>
      <th class='smaller-header'>Relation to Head of Family</th>
      <th class='smaller-header'>Condition</th>
      <th class='smaller-header'>Age of</th>
      <th class='small-header'>Age of</th>
      <th class='small-header'>Rank, Profession, or Occupation</th>
      <th class='small-header'>Where Born</th>
      <th class='small-header'>Whether Blind or Deaf-and-Dumb</th>
      <th class='small-header'></th>
    </tr>
  </thead>
  <tbody>
    ");
    ARangeRows
      [RText (q "
    <tr>");
       RRangeCol [CText (q "<td>"); CWrapCell; CText (q "</td>")];
       RText (q "</tr>
    ")];
    AText (q "
  </tbody>
  <!-- FOOTER -->
  <tfoot>
    <tr>
      <td colspan='2' align='right'>Total of Houses...</td>
      <td>");
    AFooter 0;
    AText (q "</td>
      <td>");
    AFooter 1;
    AText (q "</td>
      <td colspan='3' align='right'>Total of Males and Females...</td>
      <td>");
    AFooter 2;
    AText (q "</td>
      <td>");
    AFooter 3;
    AText (q "</td>
      <td colspan='2'></td><td></td>
    </tr>
  </tfoot>
</table>
</body>
</html>") ].

(** The bytes [WriteHTML] hands to [os.WriteFile]. *)
Definition render (header : list string) (rows : list Row) (footer : list string) : string :=
  Execute wrapCell headerVal pageTmpl (mkPageData header rows footer).

(** [WriteHTML] returns what [os.WriteFile] returns ([t.Execute] does not
    fail on this template and data); [result] is the type of that outcome,
    an error or nil, together with whatever effect the call has. *)
Section WriteHTML.
  Context {result : Type}.
  Variable osWriteFile : string -> string -> result.

Definition WriteHTML (header : list string) (rows : list Row) (footer : list string)
      (filename : string) : result :=
    osWriteFile filename (render header rows footer).
End WriteHTML.

End Template.

(** ** The single-file program: its own copy of encoder and decoder *)

Module Main.

Definition rowCount : nat := 25.
Definition fieldCount : nat := 12.
Definition headCount : nat := 7.
Definition footCount : nat := 4.

Definition wrapCell (v : string) (row col : Z) : string :=
  if String.eqb v EmptyString then EmptyString
  else
    let esc := EscapeString v in
    let r := intAdd row 1 in
    let c := intAdd col 1 in
    if (col =? 4)%Z then
      Sprintf (q "<PersonRef detlnk='dpR%dC%d'>%s</PersonRef>") [ArgInt r; ArgInt c; ArgStr esc]
    else if (col =? 1)%Z || (col =? 10)%Z then
      Sprintf (q "<PlaceRef detlnk='dwR%dC%d'>%s</PlaceRef>") [ArgInt r; ArgInt c; ArgStr esc]
    else
      Sprintf (q "<Mark ref='R%dC%d'>%s</Mark>") [ArgInt r; ArgInt c; ArgStr esc].

Definition headerVal (v : string) : string :=
  if String.eqb v EmptyString then EmptyString
  else "<br>" +:+ EscapeString v.

Definition pageTmpl : list Action :=
  [ AText (q "<!DOCTYPE html>
<html lang='en'>
<head><meta charset='UTF-8'><title>1861 Census</title>
<style>
  .smaller-header { font-size: 8px; }
  .small-header   { font-size: 10px; }
  table, th, td   { border: 1px solid black; border-collapse: collapse; }
  th, td          { padding: 4px; font-size: 12px; }
  thead th        { background-color: #f0f0f0; }
</style>
</head>
<body>
<!-- HEADER -->
<table border='1' cellspacing='0' cellpadding='0'>
  <colgroup><col style='width:8.33%' span='7'></colgroup>
  <thead>
    <tr><th colspan='7' align='center'>
      The undermentioned Houses are situate within the Boundaries of the
    </th></tr>
    <tr>
      <th style='line-height:5em; padding-bottom:2em;'>Parish [or Township] of");
    AHeaderVal 0;
    AText (q "</th>
      <th style='line-height:5em; padding-bottom:2em;'>City or Municipal Borough of");
    AHeaderVal 1;
    AText (q "</th>
      <th style='line-height:5em; padding-bottom:2em;'>Municipal Ward of");
    AHeaderVal 2;
    AText (q "</th>
      <th style='line-height:5em; padding-bottom:2em;'>Parliamentary Borough of");
    AHeaderVal 3;
    AText (q "</th>
      <th style='line-height:5em; padding-bottom:2em;'>Town of");
    AHeaderVal 4;
    AText (q "</th>
      <th style='line-height:5em; padding-bottom:2em;'>Hamlet or Tything, &amp;c., of");
    AHeaderVal 5;
    AText (q "</th>
      <th style='line-height:5em; padding-bottom:2em;'>Ecclesiastical District of");
    AHeaderVal 6;
    AText (q "</th>
    </tr>
  </thead>
</table>

<!-- BODY -->
<table>
  <colgroup>
    <col style='width:1%'><col style='width:8%'><col style='width:.5%'><col style='width:.5%'>
    <col style='width:15%'><col style='width:8%'><col style='width:2%'>
    <col style='width:1.5%'><col style='width:1.5%'><col style='width:20%'>
    <col style='width:15%'><col style='width:4%'>
  </colgroup>
  <thead>
    <tr>
      <th class='smaller-header' rowspan='2'>No.<br>Schedule</th>
      <th class='small-header'   rowspan='2'>Road, Street, &amp;c;<br>&amp; No. or Name of House</th>
      <th class='smaller-header' colspan='2'>HOUSES</th>
      <th class='small-header'   rowspan='2'>Name and Surname of each Person</th>
      <th rowspan='2'>Relation</th><th rowspan='2'>Condition</th>
      <th colspan='2'>Age of</th>
      <th rowspan='2'>Rank, Profession, or Occupation</th>
      <th rowspan='2'>Where Born</th>
      <th class='smaller-header' rowspan='2'>Blind or Deaf-Dumb</th>
    </tr>
    <tr>
      <th class='smaller-header'>In-habited</th><th class='smaller-header'>Un-inhabited or Bldg.</th>
      <th class='smaller-header'>Males</th><th class='smaller-header'>Females</th>
    </tr>
  </thead>
  <tbody>
    ");
    ARangeRows
      [RText (q "
    <tr>");
       RRangeCol [CText (q "<td>"); CWrapCell; CText (q "</td>")];
       RText (q "</tr>
    ")];
    AText (q "
  </tbody>
  <!-- FOOTER -->
  <tfoot>
    <tr>
      <td colspan='2' align='right'>Total of Houses...</td>
      <td>");
    AFooter 0;
    AText (q "</td>
      <td>");
    AFooter 1;
    AText (q "</td>
      <td colspan='3' align='right'>Total of Males and Females...</td>
      <td>");
    AFooter 2;
    AText (q "</td>
      <td>");
    AFooter 3;
    AText (q "</td>
      <td colspan='2'></td><td></td>
    </tr>
  </tfoot>
</table>
</body>
</html>") ].

Definition render (header : list string) (rows : list Row) (footer : list string) : string :=
  Execute wrapCell headerVal pageTmpl (mkPageData header rows footer).

Section writeHTML.
  Context {result : Type}.
  Variable osWriteFile : string -> string -> result.

Definition writeHTML (header : list string) (rows : list Row) (footer : list string)
      (filename : string) : result :=
    osWriteFile filename (render header rows footer).
End writeHTML.

(** *** parseHTML and ancestorTag, as the single-file program declares them *)

Definition zeroHead : list string := replicate headCount EmptyString.
Definition zeroRow : Row := mkRow (replicate fieldCount EmptyString).
Definition zeroRows : list Row := replicate rowCount zeroRow.
Definition zeroFoot : list string := replicate footCount EmptyString.

Fixpoint ancestorTag (anc : list Node) (tag : string) : bool :=
  match anc with
  | [] => false
  | p :: anc' =>
      if NodeType_eqb (Type_ p) ElementNode && String.eqb (Data p) tag then true
      else ancestorTag anc' tag
  end.

Fixpoint walk (n : Node) : string :=
  (if NodeType_eqb (Type_ n) TextNode then Data n else EmptyString)
  +:+ concatStr (map walk (Children n)).

Definition text (n : option Node) : string :=
  match n with
  | None => EmptyString
  | Some n => TrimSpace (walk n)
  end.

Definition is_ (n : option Node) (tag : string) : bool :=
  match n with
  | None => false
  | Some n => NodeType_eqb (Type_ n) ElementNode && String.eqb (Data n) tag
  end.

Fixpoint collectTh (n : Node) : list Node :=
  (if is_ (Some n) "th" then [n] else []) ++ flat_map collectTh (Children n).

Fixpoint scanBr (cs : list Node) : option string :=
  match cs with
  | [] => None
  | c :: rest =>
      if is_ (Some c) "br" then Some (TrimSpace (text (head rest)))
      else scanBr rest
  end.

Fixpoint headerLoop (ths : list Node) (idx : nat) (head : list string) : list string :=
  match ths with
  | [] => head
  | th :: rest =>
      if (headCount <=? idx)%nat then head
      else
        match scanBr (Children th) with
        | Some v => headerLoop rest (S idx) (<[idx := v]> head)
        | None => headerLoop rest idx head
        end
  end.

Fixpoint collectTr (anc : list Node) (n : Node) : list Node :=
  (if is_ (Some n) "tr" && ancestorTag anc "tbody" then [n] else [])
  ++ flat_map (collectTr (n :: anc)) (Children n).

Fixpoint cellLoop (tds : list Node) (ci : nat) (row : Row) : Row :=
  match tds with
  | [] => row
  | td :: rest =>
      if (fieldCount <=? ci)%nat then row
      else if is_ (Some td) "td"
           then cellLoop rest (S ci) (mkRow (<[ci := text (Some td)]> (Col row)))
           else cellLoop rest ci row
  end.

Fixpoint rowLoop (trs : list Node) (ri : nat) (rows : list Row) : list Row :=
  match trs with
  | [] => rows
  | tr :: rest =>
      if (rowCount <=? ri)%nat then rows
      else rowLoop rest (S ri) (alter (cellLoop (Children tr) 0) ri rows)
  end.

Definition hasColspan (n : Node) : bool :=
  existsb (fun a => String.eqb (Key a) "colspan") (Attr n).

Fixpoint walkFooter (anc : list Node) (n : Node) : list string :=
  if is_ (Some n) "td" && ancestorTag anc "tfoot" then
    if hasColspan n then []
    else text (Some n) :: flat_map (walkFooter (n :: anc)) (Children n)
  else flat_map (walkFooter (n :: anc)) (Children n).

Fixpoint footLoop (vals : list string) (i : nat) (foot : list string) : list string :=
  match vals with
  | [] => foot
  | v :: rest =>
      if (footCount <=? i)%nat then foot
      else footLoop rest (S i) (<[i := v]> foot)
  end.

Definition decodeDoc (doc : Node) : list string * list Row * list string :=
  (headerLoop (collectTh doc) 0 zeroHead,
   rowLoop (collectTr [] doc) 0 zeroRows,
   footLoop (walkFooter [] doc) 0 zeroFoot).

Section parseHTML.
  Context {error : Type}.
  Variable filepathClean : string -> string.
  Variable osOpen : string -> string + error.
  Variable htmlParse : string -> Node + error.

Definition parseHTML (path : string)
    : list string * list Row * list string * option error :=
    match osOpen (filepathClean path) with
    | inr err => (zeroHead, zeroRows, zeroFoot, Some err)
    | inl file =>
        match htmlParse file with
        | inr err => (zeroHead, zeroRows, zeroFoot, Some err)
        | inl doc => (decodeDoc doc, None)
        end
    end.
End parseHTML.

End Main.

(** ** The terminal program: package ui

    The model of the Bubble Tea program and its [Update].  The single-file
    program holds the same code, with its own [writeHTML] and [parseHTML]
    in place of [tpl.WriteHTML] and [parser.ParseHTML].

    The libraries the program runs on (bubbletea, bubbles/textinput,
    bubbles/filepicker, os, path/filepath, x/net/html) are a [Platform]:
    their types, and the functions the program calls.  A method that
    changes its receiver returns the new value; a [tea.Cmd] that may be nil
    is an [option].  A run-time panic (an index out of range) is [None]. *)

Module Ui.

Inductive editMode : Set :=
  | modeYearSelect
  | modeHeader
  | modeBody
  | modeFooter
  | modePickFile.

Definition editMode_eqb (a b : editMode) : bool :=
  match a, b with
  | modeYearSelect, modeYearSelect | modeHeader, modeHeader | modeBody, modeBody
  | modeFooter, modeFooter | modePickFile, modePickFile => true
  | _, _ => false
  end.

Definition censusYears : list string :=
  ["1841"; "1851"; "1861"; "1871"; "1881"; "1891"; "1901"; "1911"; "1921"].

(** The key types [Update] tells apart; every other [tea.KeyType] is
    [KeyOther].  (The constants named in one switch are different values:
    Go rejects a switch with duplicate cases.) *)
Inductive KeyType : Set :=
  | KeyEsc | KeyCtrlC | KeyUp | KeyDown | KeyEnter
  | KeyCtrlH | KeyCtrlB | KeyCtrlF | KeyCtrlO
  | KeyTab | KeyShiftTab | KeyCtrlN | KeyCtrlW
  | KeyOther.

(** A [tea.Msg]: a [tea.KeyMsg] or a message of another type. *)
Inductive Msg (K O : Type) : Type :=
  | KeyPress (k : K)
  | Other (o : O).

Arguments KeyPress {K O} k.
Arguments Other {K O} o.

Record Platform : Type := {
  (* bubbletea *)
  KeyMsg : Type;
  OtherMsg : Type;
  Cmd : Type;
  keyType : KeyMsg -> KeyType;                          (* km.Type *)
  teaQuit : Cmd;
  (* bubbles/textinput: ti.Model *)
  Input : Type;
  tiNew : Input;
  tiPlaceholder : string -> Input -> Input;             (* in.Placeholder = ph *)
  tiCharLimit : Z -> Input -> Input;                    (* in.CharLimit = n *)
  tiValue : Input -> string;
  tiSetValue : string -> Input -> Input;
  tiFocus : Input -> Input;
  tiBlur : Input -> Input;
  tiUpdate : KeyMsg -> Input -> Input;
  (* bubbles/filepicker: fp.Model *)
  Picker : Type;
  fpNew : Picker;
  fpAllowedTypes : list string -> Picker -> Picker;     (* p.AllowedTypes = ... *)
  fpInit : Picker -> option Cmd;
  fpUpdate : Msg KeyMsg OtherMsg -> Picker -> Picker * option Cmd;
  fpDidSelectFile : Msg KeyMsg OtherMsg -> Picker -> option string;
  (* os, path/filepath, x/net/html, fmt's %v of an error *)
  Disk : Type;
  Error : Type;
  osWriteFile : string -> string -> Disk -> Disk * option Error;
  osOpen : Disk -> string -> string + Error;
  filepathClean : string -> string;
  htmlParse : string -> Node + Error;
  errorString : Error -> string
}.

(** Indexing an array with an [int]: out of range is a panic. *)
Definition index {A : Type} (l : list A) (i : Z) : option A :=
  if (i <? 0)%Z then None else l !! Z.to_nat i.

Definition store {A : Type} (l : list A) (i : Z) (x : A) : option (list A) :=
  if (0 <=? i)%Z && (i <? Z.of_nat (length l))%Z then Some (<[Z.to_nat i := x]> l)
  else None.

Section Program.
  Variable P : Platform.

  (** The encoder the program calls: [tpl.WriteHTML] in package ui,
      [writeHTML] in the single-file program. *)
  Variable writeHTML :
    list string -> list Row -> list string -> string -> Disk P -> Disk P * option (Error P).

(** What the program acts on outside its model: the files, and the lines
    it has written to standard error. *)
Record World : Type := mkWorld { disk : Disk P; stderr : list string }.

Record model : Type := mkModel {
  (* persistent data *)
  header : list string;
  rows : list Row;
  footer : list string;
  (* year selection *)
  year : string;
  yearIdx : Z;
  (* editing state *)
  mode : editMode;
  currRow : Z;
  currCol : Z;
  justWrote : bool;
  justRead : bool;
  (* widgets *)
  headIn : list (Input P);
  bodyIn : list (Input P);
  footIn : list (Input P);
  picker : Picker P
}.

Definition setHeader (v : list string) (m : model) : model :=
  mkModel v (rows m) (footer m) (year m) (yearIdx m) (mode m) (currRow m) (currCol m)
    (justWrote m) (justRead m) (headIn m) (bodyIn m) (footIn m) (picker m).

Definition setRows (v : list Row) (m : model) : model :=
  mkModel (header m) v (footer m) (year m) (yearIdx m) (mode m) (currRow m) (currCol m)
    (justWrote m) (justRead m) (headIn m) (bodyIn m) (footIn m) (picker m).

Definition setFooter (v : list string) (m : model) : model :=
  mkModel (header m) (rows m) v (year m) (yearIdx m) (mode m) (currRow m) (currCol m)
    (justWrote m) (justRead m) (headIn m) (bodyIn m) (footIn m) (picker m).

Definition setYear (v : string) (m : model) : model :=
  mkModel (header m) (rows m) (footer m) v (yearIdx m) (mode m) (currRow m) (currCol m)
    (justWrote m) (justRead m) (headIn m) (bodyIn m) (footIn m) (picker m).

Definition setYearIdx (v : Z) (m : model) : model :=
  mkModel (header m) (rows m) (footer m) (year m) v (mode m) (currRow m) (currCol m)
    (justWrote m) (justRead m) (headIn m) (bodyIn m) (footIn m) (picker m).

Definition setMode (v : editMode) (m : model) : model :=
  mkModel (header m) (rows m) (footer m) (year m) (yearIdx m) v (currRow m) (currCol m)
    (justWrote m) (justRead m) (headIn m) (bodyIn m) (footIn m) (picker m).

Definition setCurrRow (v : Z) (m : model) : model :=
  mkModel (header m) (rows m) (footer m) (year m) (yearIdx m) (mode m) v (currCol m)
    (justWrote m) (justRead m) (headIn m) (bodyIn m) (footIn m) (picker m).

Definition setCurrCol (v : Z) (m : model) : model :=
  mkModel (header m) (rows m) (footer m) (year m) (yearIdx m) (mode m) (currRow m) v
    (justWrote m) (justRead m) (headIn m) (bodyIn m) (footIn m) (picker m).

Definition setJustWrote (v : bool) (m : model) : model :=
  mkModel (header m) (rows m) (footer m) (year m) (yearIdx m) (mode m) (currRow m) (currCol m)
    v (justRead m) (headIn m) (bodyIn m) (footIn m) (picker m).

Definition setJustRead (v : bool) (m : model) : model :=
  mkModel (header m) (rows m) (footer m) (year m) (yearIdx m) (mode m) (currRow m) (currCol m)
    (justWrote m) v (headIn m) (bodyIn m) (footIn m) (picker m).

Definition setHeadIn (v : list (Input P)) (m : model) : model :=
  mkModel (header m) (rows m) (footer m) (year m) (yearIdx m) (mode m) (currRow m) (currCol m)
    (justWrote m) (justRead m) v (bodyIn m) (footIn m) (picker m).

Definition setBodyIn (v : list (Input P)) (m : model) : model :=
  mkModel (header m) (rows m) (footer m) (year m) (yearIdx m) (mode m) (currRow m) (currCol m)
    (justWrote m) (justRead m) (headIn m) v (footIn m) (picker m).

Definition setFootIn (v : list (Input P)) (m : model) : model :=
  mkModel (header m) (rows m) (footer m) (year m) (yearIdx m) (mode m) (currRow m) (currCol m)
    (justWrote m) (justRead m) (headIn m) (bodyIn m) v (picker m).

Definition setPicker (v : Picker P) (m : model) : model :=
  mkModel (header m) (rows m) (footer m) (year m) (yearIdx m) (mode m) (currRow m) (currCol m)
    (justWrote m) (justRead m) (headIn m) (bodyIn m) (footIn m) v.

Definition newInput (ph : string) : Input P :=
  tiCharLimit P 64 (tiPlaceholder P ph (tiNew P)).

Definition headLbl : list string :=
  ["Parish"; "City"; "Ward"; "Parl Borough"; "Town"; "Hamlet"; "Ecc District"].

Definition bodyLbl : list string :=
  [ "Sched#"; "Road / House"; "Inhab."; "Uninh.";
    "Name & Surname"; "Relation"; "Condition";
    "Age♂"; "Age♀"; "Occupation"; "Where born"; "Blind/Deaf" ].

Definition footLbl : list string :=
  ["Houses Inhab"; "Houses Uninh"; "Total Males"; "Total Females"].

(** [NewModel]: the zero model, one input per label (7, 12 and 4 labels
    for the arrays of 7, 12 and 4 inputs), the first header input focused,
    the year menu on 1861. *)
Definition NewModel : model :=
  mkModel Parser.zeroHead Parser.zeroRows Parser.zeroFoot
    EmptyString 2 modeYearSelect 0 0 false false
    (alter (tiFocus P) 0 (map newInput headLbl))
    (map newInput bodyLbl)
    (map newInput footLbl)
    (fpAllowedTypes P [".html"; ".htm"] (fpNew P)).

(** *** commitCurrent *)

(** [for i := range ins { arr[i] = ins[i].Value() }] *)
Fixpoint commitLoop (ins : list (Input P)) (i : nat) (arr : list string) : list string :=
  match ins with
  | [] => arr
  | inp :: rest => commitLoop rest (S i) (<[i := tiValue P inp]> arr)
  end.

(** [for i := range m.bodyIn { m.rows[m.currRow].Col[i] = m.bodyIn[i].Value() }] *)
Fixpoint commitRowLoop (ins : list (Input P)) (i : nat) (r : Z) (rs : list Row)
    : option (list Row) :=
  match ins with
  | [] => Some rs
  | inp :: rest =>
      match index rs r with
      | None => None
      | Some row =>
          match store rs r (mkRow (<[i := tiValue P inp]> (Col row))) with
          | None => None
          | Some rs' => commitRowLoop rest (S i) r rs'
          end
      end
  end.

Definition commitCurrent (m : model) : option model :=
  match mode m with
  | modeHeader => Some (setHeader (commitLoop (headIn m) 0 (header m)) m)
  | modeBody =>
      match commitRowLoop (bodyIn m) 0 (currRow m) (rows m) with
      | None => None
      | Some rs => Some (setRows rs m)
      end
  | modeFooter => Some (setFooter (commitLoop (footIn m) 0 (footer m)) m)
  | _ => Some m
  end.

(** *** setFocus *)

(** One of the three loops of [setFocus]; [active] is the test on the mode. *)
Fixpoint focusLoop (active : bool) (col : Z) (ins : list (Input P)) (i : nat)
    : list (Input P) :=
  match ins with
  | [] => []
  | inp :: rest =>
      (if active && (Z.of_nat i =? col)%Z then tiFocus P inp else tiBlur P inp)
      :: focusLoop active col rest (S i)
  end.

Definition setFocus (m : model) : model :=
  let m := setHeadIn (focusLoop (editMode_eqb (mode m) modeHeader) (currCol m) (headIn m) 0) m in
  let m := setBodyIn (focusLoop (editMode_eqb (mode m) modeBody) (currCol m) (bodyIn m) 0) m in
  setFootIn (focusLoop (editMode_eqb (mode m) modeFooter) (currCol m) (footIn m) 0) m.

(** *** loadCurrent *)

(** [for i := range ins { ins[i].SetValue(arr[i]) }]; [arr] is as long as
    [ins]. *)
Fixpoint loadLoop (ins : list (Input P)) (i : nat) (arr : list string) : list (Input P) :=
  match ins with
  | [] => []
  | inp :: rest => tiSetValue P (nth i arr EmptyString) inp :: loadLoop rest (S i) arr
  end.

(** [for i := range m.bodyIn { m.bodyIn[i].SetValue(m.rows[m.currRow].Col[i]) }] *)
Fixpoint loadRowLoop (ins : list (Input P)) (i : nat) (r : Z) (rs : list Row)
    : option (list (Input P)) :=
  match ins with
  | [] => Some []
  | inp :: rest =>
      match index rs r with
      | None => None
      | Some row =>
          match loadRowLoop rest (S i) r rs with
          | None => None
          | Some rest' => Some (tiSetValue P (nth i (Col row) EmptyString) inp :: rest')
          end
      end
  end.

Definition loadCurrent (m : model) : option model :=
  match mode m with
  | modeHeader => Some (setFocus (setHeadIn (loadLoop (headIn m) 0 (header m)) m))
  | modeBody =>
      match loadRowLoop (bodyIn m) 0 (currRow m) (rows m) with
      | None => None
      | Some ins => Some (setFocus (setBodyIn ins m))
      end
  | modeFooter => Some (setFocus (setFootIn (loadLoop (footIn m) 0 (footer m)) m))
  | _ => Some (setFocus m)
  end.

(** *** switchMode and wrapCol *)

Definition switchMode (next : editMode) (m : model) : option model :=
  match commitCurrent m with
  | None => None
  | Some m => loadCurrent (setCurrCol 0 (setMode next m))
  end.

(** Go's [%] on [int]: the remainder of the division truncated to zero. *)
Definition wrapCol (m : model) : model :=
  match mode m with
  | modeHeader =>
      setCurrCol (Z.rem (intAdd (currCol m) (Z.of_nat Parser.HeadCount))
                    (Z.of_nat Parser.HeadCount)) m
  | modeBody =>
      setCurrCol (Z.rem (intAdd (currCol m) (Z.of_nat Parser.FieldCount))
                    (Z.of_nat Parser.FieldCount)) m
  | modeFooter =>
      setCurrCol (Z.rem (intAdd (currCol m) (Z.of_nat Parser.FootCount))
                    (Z.of_nat Parser.FootCount)) m
  | _ => m
  end.

(** *** loadFromHTML *)

Definition loadFromHTML (path : string) (m : model) (d : Disk P)
    : option (model * option (Error P)) :=
  match Parser.ParseHTML (filepathClean P) (osOpen P d) (htmlParse P) path with
  | (_, _, _, Some err) => Some (m, Some err)
  | (h, r, f, None) =>
      match loadCurrent (setCurrCol 0 (setCurrRow 0 (setFooter f (setRows r (setHeader h m))))) with
      | None => None
      | Some m => Some (m, None)
      end
  end.

(** *** Update *)

(** [fmt.Fprintf(os.Stderr, "... error: %v\n", err)]: the line written. *)
Definition errorLine (what : string) (err : Error P) : string :=
  what +:+ errorString P err +:+ String (byte 10) EmptyString.

(** The last switch of [Update]: the key goes to the input at [currCol] of
    the current mode. *)
Definition passKey (k : KeyMsg P) (m : model) : option model :=
  match mode m with
  | modeHeader =>
      match index (headIn m) (currCol m) with
      | None => None
      | Some inp =>
          match store (headIn m) (currCol m) (tiUpdate P k inp) with
          | None => None
          | Some ins => Some (setHeadIn ins m)
          end
      end
  | modeBody =>
      match index (bodyIn m) (currCol m) with
      | None => None
      | Some inp =>
          match store (bodyIn m) (currCol m) (tiUpdate P k inp) with
          | None => None
          | Some ins => Some (setBodyIn ins m)
          end
      end
  | modeFooter =>
      match index (footIn m) (currCol m) with
      | None => None
      | Some inp =>
          match store (footIn m) (currCol m) (tiUpdate P k inp) with
          | None => None
          | Some ins => Some (setFootIn ins m)
          end
      end
  | _ => Some m
  end.

(** The year menu. *)
Definition updateYear (msg : Msg (KeyMsg P) (OtherMsg P)) (m : model)
    : option (model * option (Cmd P)) :=
  match msg with
  | KeyPress km =>
      match keyType P km with
      | KeyEsc | KeyCtrlC => Some (m, Some (teaQuit P))
      | KeyUp =>
          Some (setYearIdx
                  (Z.rem (intAdd (intAdd (yearIdx m) (-1)) (Z.of_nat (length censusYears)))
                     (Z.of_nat (length censusYears))) m,
                None)
      | KeyDown =>
          Some (setYearIdx
                  (Z.rem (intAdd (yearIdx m) 1) (Z.of_nat (length censusYears))) m,
                None)
      | KeyEnter =>
          match index censusYears (yearIdx m) with
          | None => None
          | Some y =>
              match loadCurrent (setMode modeHeader (setYear y m)) with
              | None => None
              | Some m => Some (m, None)
              end
          end
      | _ => Some (m, None)
      end
  | Other _ => Some (m, None)
  end.

(** The file picker. *)
Definition updatePicker (msg : Msg (KeyMsg P) (OtherMsg P)) (m : model) (w : World)
    : option (model * option (Cmd P) * World) :=
  let (p, cmd) := fpUpdate P msg (picker m) in
  let m := setPicker p m in
  match fpDidSelectFile P msg (picker m) with
  | Some path =>
      match loadFromHTML path m (disk w) with
      | None => None
      | Some (m, None) => Some (setMode modeHeader (setJustRead true m), None, w)
      | Some (m, Some err) =>
          Some (setMode modeHeader m, None,
                mkWorld (disk w) (stderr w ++ [errorLine "load error: " err]))
      end
  | None =>
      match msg with
      | KeyPress km =>
          match keyType P km with
          | KeyEsc | KeyCtrlC => Some (setMode modeHeader m, None, w)
          | _ => Some (m, cmd, w)
          end
      | Other _ => Some (m, cmd, w)
      end
  end.

(** The switch on the key type in the editing modes: [inl] is a return
    from inside the switch, [inr] goes on to [passKey]. *)
Definition editKey (km : KeyMsg P) (m : model) (w : World)
    : option ((model * option (Cmd P) * World) + (model * World)) :=
  match keyType P km with
  | KeyEsc | KeyCtrlC => Some (inl (m, Some (teaQuit P), w))
  | KeyCtrlH =>
      match switchMode modeHeader m with None => None | Some m => Some (inr (m, w)) end
  | KeyCtrlB =>
      match switchMode modeBody m with None => None | Some m => Some (inr (m, w)) end
  | KeyCtrlF =>
      match switchMode modeFooter m with None => None | Some m => Some (inr (m, w)) end
  | KeyCtrlO =>
      match commitCurrent m with
      | None => None
      | Some m => Some (inl (setMode modePickFile m, fpInit P (picker m), w))
      end
  | KeyTab => Some (inr (setFocus (wrapCol (setCurrCol (intAdd (currCol m) 1) m)), w))
  | KeyShiftTab => Some (inr (setFocus (wrapCol (setCurrCol (intAdd (currCol m) (-1)) m)), w))
  | KeyUp =>
      if editMode_eqb (mode m) modeBody && (0 <? currRow m)%Z then
        match commitCurrent m with
        | None => None
        | Some m =>
            match loadCurrent (setCurrRow (intAdd (currRow m) (-1)) m) with
            | None => None
            | Some m => Some (inr (m, w))
            end
        end
      else Some (inr (m, w))
  | KeyDown =>
      if editMode_eqb (mode m) modeBody
         && (currRow m <? Z.of_nat Parser.RowCount - 1)%Z then
        match commitCurrent m with
        | None => None
        | Some m =>
            match loadCurrent (setCurrRow (intAdd (currRow m) 1) m) with
            | None => None
            | Some m => Some (inr (m, w))
            end
        end
      else Some (inr (m, w))
  | KeyCtrlN =>
      if editMode_eqb (mode m) modeBody
      then Some (inr (setBodyIn (map (tiSetValue P EmptyString) (bodyIn m)) m, w))
      else Some (inr (m, w))
  | KeyCtrlW =>
      match commitCurrent m with
      | None => None
      | Some m =>
          match writeHTML (header m) (rows m) (footer m) "census.html" (disk w) with
          | (d, None) => Some (inr (setJustWrote true m, mkWorld d (stderr w)))
          | (d, Some err) =>
              Some (inr (m, mkWorld d (stderr w ++ [errorLine "save error: " err])))
          end
      end
  | _ => Some (inr (m, w))
  end.

Definition Update (msg : Msg (KeyMsg P) (OtherMsg P)) (m : model) (w : World)
    : option (model * option (Cmd P) * World) :=
  let m := setJustRead false (setJustWrote false m) in
  match mode m with
  | modeYearSelect =>
      match updateYear msg m with
      | None => None
      | Some (m, cmd) => Some (m, cmd, w)
      end
  | modePickFile => updatePicker msg m w
  | _ =>
      match msg with
      | KeyPress k =>
          match editKey k m w with
          | None => None
          | Some (inl r) => Some r
          | Some (inr (m, w)) =>
              match passKey k m with
              | None => None
              | Some m => Some (m, None, w)
              end
          end
      | Other _ => Some (m, None, w)
      end
  end.

(** The messages [msgs] handled in turn, as the Bubble Tea loop hands them
    to [Update]; the commands returned are left to the runtime. *)
Fixpoint handle (msgs : list (Msg (KeyMsg P) (OtherMsg P))) (m : model) (w : World)
    : option (model * World) :=
  match msgs with
  | [] => Some (m, w)
  | msg :: rest =>
      match Update msg m w with
      | None => None
      | Some (m, _, w) => handle rest m w
      end
  end.

End Program.

Arguments header {P} m.
Arguments rows {P} m.
Arguments footer {P} m.
Arguments year {P} m.
Arguments yearIdx {P} m.
Arguments mode {P} m.
Arguments currRow {P} m.
Arguments currCol {P} m.
Arguments justWrote {P} m.
Arguments justRead {P} m.
Arguments headIn {P} m.
Arguments bodyIn {P} m.
Arguments footIn {P} m.
Arguments picker {P} m.
Arguments disk {P} w.
Arguments stderr {P} w.

(** The program of package ui, and that of the single-file program. *)
Definition uiUpdate (P : Platform) := Update P (Template.WriteHTML (osWriteFile P)).
Definition mainUpdate (P : Platform) := Update P (Main.writeHTML (osWriteFile P)).

End Ui.

(** ** The tree html.Parse builds: a reference parser

    [Html.parse] follows the HTML tokenizer and tree construction of
    golang.org/x/net/html on the documents the encoders write: a doctype,
    start and end tags with double-quoted attribute values, void elements,
    and text in which every ampersand starts one of the character references
    that [EscapeString] and [htmlEscaper] emit.  On such a document it builds
    the tree [html.Parse] returns.  The decoder itself ([Parser.decodeDoc]) is
    defined on every tree. *)

Module Html.

Inductive Token : Set :=
  | TDoctype (name : string)
  | TStart (name : string) (attrs : list Attribute)
  | TEnd (name : string)
  | TText (data : string)
  | TComment (data : string).

(** *** Text: character references, newlines *)

Definition entity (s : string) : option (string * nat) :=
  if HasPrefix s "amp;" then Some ("&", 4)
  else if HasPrefix s "lt;" then Some ("<", 3)
  else if HasPrefix s "gt;" then Some (">", 3)
  else if HasPrefix s "#34;" then Some (String dquote EmptyString, 4)
  else if HasPrefix s "#39;" then Some ("'", 4)
  else if HasPrefix s "#43;" then Some ("+", 4)
  else None.

(** [unescapeFrom skip s]: [s] with its character references replaced;
    the first [skip] bytes belong to a reference already replaced. *)
Fixpoint unescapeFrom (skip : nat) (s : string) : string :=
  match s with
  | EmptyString => EmptyString
  | String c s' =>
      match skip with
      | S k => unescapeFrom k s'
      | O =>
          if Ascii.eqb c "&" then
            match entity s' with
            | Some (r, n) => r +:+ unescapeFrom n s'
            | None => String c (unescapeFrom 0 s')
            end
          else String c (unescapeFrom 0 s')
      end
  end.

Definition unescape (s : string) : string := unescapeFrom 0 s.

Definition CR : ascii := Eval cbv in byte 13.
Definition LF : ascii := Eval cbv in byte 10.
Definition NUL : ascii := Eval cbv in byte 0.

(** CR LF and a lone CR become LF. *)
Fixpoint convertNewlines (s : string) : string :=
  match s with
  | EmptyString => EmptyString
  | String c s' =>
      if Ascii.eqb c CR then
        String LF
          match s' with
          | String d s'' => if Ascii.eqb d LF then convertNewlines s'' else convertNewlines s'
          | EmptyString => EmptyString
          end
      else String c (convertNewlines s')
  end.

Fixpoint dropNUL (s : string) : string :=
  match s with
  | EmptyString => EmptyString
  | String c s' => if Ascii.eqb c NUL then dropNUL s' else String c (dropNUL s')
  end.

(** The data of the text node for the raw bytes [raw] of the document. *)
Definition decodeText (raw : string) : string :=
  dropNUL (unescape (convertNewlines raw)).

(** *** The tokenizer, one byte at a time *)

Definition isLetter (c : ascii) : bool :=
  let n := nat_of_ascii c in
  ((65 <=? n) && (n <=? 90) || (97 <=? n) && (n <=? 122))%nat.

Definition isBlank (c : ascii) : bool :=
  let n := nat_of_ascii c in
  ((n =? 32) || (n =? 9) || (n =? 10) || (n =? 12) || (n =? 13))%nat.

Definition lower (c : ascii) : ascii :=
  let n := nat_of_ascii c in
  if ((65 <=? n) && (n <=? 90))%nat then ascii_of_nat (n + 32) else c.

Definition snoc (s : string) (c : ascii) : string := s +:+ String c EmptyString.

Inductive TState : Set :=
  | SData (raw : string)
  | STagOpen (raw : string)
  | SEndTagOpen (raw : string)
  | STagName (closing : bool) (name : string)
  | SBeforeAttr (closing : bool) (name : string) (attrs : list Attribute)
  | SAttrName (closing : bool) (name : string) (attrs : list Attribute) (key : string)
  | SAfterAttrName (closing : bool) (name : string) (attrs : list Attribute) (key : string)
  | SBeforeValue (closing : bool) (name : string) (attrs : list Attribute) (key : string)
  | SValue (quote : option ascii) (closing : bool) (name : string)
      (attrs : list Attribute) (key val : string)
  | SMarkup (body : string).

(** The text token for the raw bytes read since the last tag.  For no
    bytes at all it holds the empty string, which adds nothing to the tree
    (see [mergeText]). *)
Definition textToken (raw : string) : list Token :=
  [TText (unescape (convertNewlines raw))].

Definition tagToken (closing : bool) (name : string) (attrs : list Attribute) : list Token :=
  if closing then [TEnd name] else [TStart name attrs].

Fixpoint lowerStr (s : string) : string :=
  match s with
  | EmptyString => EmptyString
  | String c s' => String (lower c) (lowerStr s')
  end.

Fixpoint dropBlanks (s : string) : string :=
  match s with
  | EmptyString => EmptyString
  | String c s' => if isBlank c then dropBlanks s' else s
  end.

(** <!...>: a doctype ([<!DOCTYPE name>]) or a comment. *)
Definition markupToken (body : string) : list Token :=
  if HasPrefix (lowerStr body) "doctype"
  then [TDoctype (lowerStr (dropBlanks (String.substring 7 (String.length body - 7) body)))]
  else [TComment body].

Definition tstep (st : TState) (c : ascii) : TState * list Token :=
  match st with
  | SData raw =>
      if Ascii.eqb c "<" then (STagOpen raw, []) else (SData (snoc raw c), [])
  | STagOpen raw =>
      if isLetter c then (STagName false (String (lower c) EmptyString), textToken raw)
      else if Ascii.eqb c "/" then (SEndTagOpen raw, [])
      else if Ascii.eqb c "!" then (SMarkup EmptyString, textToken raw)
      else if Ascii.eqb c "<" then (STagOpen (snoc raw "<"), [])
      else (SData (snoc (snoc raw "<") c), [])
  | SEndTagOpen raw =>
      if isLetter c then (STagName true (String (lower c) EmptyString), textToken raw)
      else (SData (snoc (snoc (snoc raw "<") "/") c), [])
  | STagName cl name =>
      if isBlank c || Ascii.eqb c "/" then (SBeforeAttr cl name [], [])
      else if Ascii.eqb c ">" then (SData EmptyString, tagToken cl name [])
      else (STagName cl (snoc name (lower c)), [])
  | SBeforeAttr cl name attrs =>
      if isBlank c || Ascii.eqb c "/" then (st, [])
      else if Ascii.eqb c ">" then (SData EmptyString, tagToken cl name attrs)
      else (SAttrName cl name attrs (String (lower c) EmptyString), [])
  | SAttrName cl name attrs key =>
      if Ascii.eqb c "=" then (SBeforeValue cl name attrs key, [])
      else if isBlank c then (SAfterAttrName cl name attrs key, [])
      else if Ascii.eqb c ">"
           then (SData EmptyString, tagToken cl name (attrs ++ [attr key EmptyString]))
      else (SAttrName cl name attrs (snoc key (lower c)), [])
  | SAfterAttrName cl name attrs key =>
      if isBlank c then (st, [])
      else if Ascii.eqb c "=" then (SBeforeValue cl name attrs key, [])
      else if Ascii.eqb c ">"
           then (SData EmptyString, tagToken cl name (attrs ++ [attr key EmptyString]))
      else (SAttrName cl name (attrs ++ [attr key EmptyString]) (String (lower c) EmptyString), [])
  | SBeforeValue cl name attrs key =>
      if isBlank c then (st, [])
      else if Ascii.eqb c dquote || Ascii.eqb c "'"
           then (SValue (Some c) cl name attrs key EmptyString, [])
      else if Ascii.eqb c ">"
           then (SData EmptyString, tagToken cl name (attrs ++ [attr key EmptyString]))
      else (SValue None cl name attrs key (String c EmptyString), [])
  | SValue (Some qc) cl name attrs key val =>
      if Ascii.eqb c qc then (SBeforeAttr cl name (attrs ++ [attr key (unescape val)]), [])
      else (SValue (Some qc) cl name attrs key (snoc val c), [])
  | SValue None cl name attrs key val =>
      if isBlank c then (SBeforeAttr cl name (attrs ++ [attr key (unescape val)]), [])
      else if Ascii.eqb c ">"
           then (SData EmptyString, tagToken cl name (attrs ++ [attr key (unescape val)]))
      else (SValue None cl name attrs key (snoc val c), [])
  | SMarkup body =>
      if Ascii.eqb c ">" then (SData EmptyString, markupToken body)
      else (SMarkup (snoc body c), [])
  end.

(** *** Tree construction: the stack of open elements

    A frame is an open node with the children it has so far, the last one
    first. *)

Record Frame : Set :=
  mkFrame { fType : NodeType; fData : string; fAttr : list Attribute; fKids : list Node }.

Definition closeFrame (f : Frame) : Node :=
  mkNode (fType f) (fData f) (fAttr f) (rev (fKids f)).

Definition withKids (f : Frame) (kids : list Node) : Frame :=
  mkFrame (fType f) (fData f) (fAttr f) kids.

Definition addKid (n : Node) (stk : list Frame) : list Frame :=
  match stk with
  | [] => []
  | f :: rest => withKids f (n :: fKids f) :: rest
  end.

(** Text joins a text node that ends the children; empty text adds nothing. *)
Definition mergeText (kids : list Node) (d : string) : list Node :=
  if String.eqb d EmptyString then kids
  else
    match kids with
    | k :: rest =>
        if NodeType_eqb (Type_ k) TextNode then textNode (Data k +:+ d) :: rest
        else textNode d :: kids
    | [] => [textNode d]
    end.

(** White space before the html element and before the head is ignored. *)
Definition ignoresText (f : Frame) : bool :=
  match fType f with
  | DocumentNode => true
  | ElementNode =>
      String.eqb (fData f) "html" && match fKids f with [] => true | _ => false end
  | _ => false
  end.

Definition addText (d : string) (stk : list Frame) : list Frame :=
  match stk with
  | [] => []
  | f :: rest =>
      if ignoresText f then stk else withKids f (mergeText (fKids f) (dropNUL d)) :: rest
  end.

Definition isVoid (name : string) : bool :=
  existsb (String.eqb name)
    ["area"; "base"; "br"; "col"; "embed"; "hr"; "img"; "input"; "link";
     "meta"; "param"; "source"; "track"; "wbr"].

Definition opens (name : string) (f : Frame) : bool :=
  NodeType_eqb (fType f) ElementNode && String.eqb (fData f) name.

(** Pop the stack down to and including the nearest open [name]; [kid] is a
    node just closed, to be added to the frame below it. *)
Fixpoint popTo (name : string) (kid : option Node) (stk : list Frame) : list Frame :=
  match stk with
  | [] => []
  | f :: rest =>
      let f' := match kid with Some k => withKids f (k :: fKids f) | None => f end in
      if opens name f then addKid (closeFrame f') rest
      else popTo name (Some (closeFrame f')) rest
  end.

(** The body and html elements stay open until the end of the input. *)
Definition bstep (stk : list Frame) (t : Token) : list Frame :=
  match t with
  | TDoctype name => addKid (mkNode DoctypeNode name [] []) stk
  | TComment d => addKid (mkNode CommentNode d [] []) stk
  | TText d => addText d stk
  | TStart name attrs =>
      if isVoid name then addKid (element name attrs []) stk
      else mkFrame ElementNode name attrs [] :: stk
  | TEnd name =>
      if String.eqb name "body" || String.eqb name "html" then stk
      else if existsb (opens name) stk then popTo name None stk
      else stk
  end.

Fixpoint closeAll (kid : option Node) (stk : list Frame) : option Node :=
  match stk with
  | [] => kid
  | f :: rest =>
      let f' := match kid with Some k => withKids f (k :: fKids f) | None => f end in
      closeAll (Some (closeFrame f')) rest
  end.

(** *** The parser: tokenizer and tree construction, byte by byte *)

Definition PState : Set := TState * list Frame.

Definition feed (p : PState) (c : ascii) : PState :=
  let '(st', toks) := tstep (fst p) c in (st', fold_left bstep toks (snd p)).

Fixpoint run (p : PState) (s : string) : PState :=
  match s with
  | EmptyString => p
  | String c s' => run (feed p c) s'
  end.

Definition start : PState := (SData EmptyString, [mkFrame DocumentNode EmptyString [] []]).

(** At the end of the input, text still pending becomes a last text node. *)
Definition finish (p : PState) : Node :=
  let stk :=
    match fst p with
    | SData raw => fold_left bstep (textToken raw) (snd p)
    | _ => snd p
    end in
  default (mkNode DocumentNode EmptyString [] []) (closeAll None stk).

Definition parse (s : string) : Node := finish (run start s).

End Html.

(** ** The extraction, described over the document order

    What each part of the decoder is to compute, in terms of [preorder]:
    the nodes in document order, each with its ancestors. *)

Definition isElem (tag : string) (n : Node) : bool :=
  NodeType_eqb (Type_ n) ElementNode && String.eqb (Data n) tag.

(** [l] cut or filled with [z] to exactly [n] entries. *)
Definition padTo {A : Type} (n : nat) (z : A) (l : list A) : list A :=
  take n l ++ replicate (n - length l) z.

(** The value a th contributes: [None] when it has no br child. *)
Definition brValue (th : Node) : option string := Parser.scanBr (Children th).

(** The th elements of a document, in document order. *)
Definition thCells (doc : Node) : list Node :=
  List.filter (isElem "th") (map snd (preorder [] doc)).

(** The tr elements below a tbody, in document order. *)
Definition bodyRows (doc : Node) : list Node :=
  map snd
    (List.filter (fun an => isElem "tr" (snd an) && Parser.ancestorTag (fst an) "tbody")
       (preorder [] doc)).

(** The row decoded from a tr: the texts of its td children. *)
Definition rowOf (tr : Node) : Row :=
  mkRow (padTo Parser.FieldCount EmptyString
           (map (fun td => Parser.text (Some td)) (List.filter (isElem "td") (Children tr)))).

(** A td below a tfoot. *)
Definition tfootCell (an : list Node * Node) : bool :=
  isElem "td" (snd an) && Parser.ancestorTag (fst an) "tfoot".

(** The cells C6 speaks of: every td below a tfoot that has no colspan. *)
Definition valueCell (an : list Node * Node) : bool :=
  tfootCell an && negb (Parser.hasColspan (snd an)).

(** Some ancestor is a tfoot cell with a colspan attribute. *)
Fixpoint inLabelCell (anc : list Node) : bool :=
  match anc with
  | [] => false
  | a :: anc' => tfootCell (anc', a) && Parser.hasColspan a || inLabelCell anc'
  end.

(** The cells [walkFooter] reaches: value cells outside every label cell. *)
Definition reachedCell (an : list Node * Node) : bool :=
  valueCell an && negb (inLabelCell (fst an)).

(** What the decoder is to find for the slots, in document order: the
    values of the th cells that have a br, the texts of the td children of
    the [i]-th body row (none when the document has no such row), and the
    texts of the footer cells reached. *)
Definition headerTexts (doc : Node) : list string := omap brValue (thCells doc).

Definition rowTexts (doc : Node) (i : nat) : list string :=
  match bodyRows doc !! i with
  | Some tr => map (fun td => Parser.text (Some td)) (List.filter (isElem "td") (Children tr))
  | None => []
  end.

Definition footerTexts (doc : Node) : list string :=
  map (fun an => Parser.text (Some (snd an))) (List.filter reachedCell (preorder [] doc)).

(** The [i]-th of the values found, or the empty string when fewer than
    [i + 1] were found. *)
Definition foundOrEmpty (found : list string) (i : nat) : string :=
  default EmptyString (found !! i).

Definition trimmed (s : string) : Prop := TrimSpace s = s.

(** ** Markup of one element

    [<tag name="value">body</tag>], as the per-cell rule of the encoder
    describes the wrapping of a value. *)
Definition elementMarkup (tag name value body : string) : string :=
  "<" +:+ tag +:+ " " +:+ name +:+ "=" +:+ String dquote value
  +:+ String dquote ">" +:+ body +:+ "</" +:+ tag +:+ ">".

(** The decimal numeral of a 1-based index. *)
Definition oneBased (i : Z) : string := formatInt (i + 1).

(** ** The tree of an encoded page

    The document that [html.Parse] builds from what the template package
    writes for a header, a list of rows and a footer: [Html.parse] of the
    rendering is proved equal to it ([parse_render]). *)

Fixpoint spaces (n : nat) : string :=
  match n with
  | O => EmptyString
  | S n' => String " " (spaces n')
  end.

(** A line break and the indentation that follows it. *)
Definition ws (n : nat) : string := String (byte 10) (spaces n).

(** The text nodes of the raw bytes [raw]: one node, or none when no text
    is left after decoding. *)
Definition textNodes (raw : string) : list Node :=
  Html.mergeText [] (Html.decodeText raw).

Definition headerLabels : list string :=
  ["Parish [or Township] of"; "City or Municipal Borough of"; "Municipal Ward of";
   "Parliamentary Borough of"; "Town of"; "Village or Hamlet of";
   "Ecclesiastical District of"].

Definition headerCell (label v : string) : Node :=
  element "th" [attr "style" "line-height:5em; padding-bottom:2em;"]
    (textNode label
     :: if String.eqb v EmptyString then []
        else element "br" [] [] :: textNodes (EscapeString v)).

(** The header cells of the second row of the thead, each after its
    indentation. *)
Fixpoint headerCells (labels : list string) (i : nat) (header : list string) : list Node :=
  match labels with
  | [] => []
  | label :: rest =>
      textNode (ws 6) :: headerCell label (nth i header EmptyString)
      :: headerCells rest (S i) header
  end.

Definition columnHead (class label : string) : Node :=
  element "th" [attr "class" class]
    (if String.eqb label EmptyString then [] else [textNode label]).

Definition columnHeads : list Node :=
  [ textNode (ws 6); columnHead "small-header" "Sched. No.";
    textNode (ws 6); columnHead "small-header" "Road, Street, & No. or Name of House";
    textNode (ws 6); columnHead "small-header" "Houses";
    textNode (ws 6); columnHead "smaller-header" "Name & Surname of each Person";
    textNode (ws 6); columnHead "smaller-header" "Relation to Head of Family";
    textNode (ws 6); columnHead "smaller-header" "Condition";
    textNode (ws 6); columnHead "smaller-header" "Age of";
    textNode (ws 6); columnHead "small-header" "Age of";
    textNode (ws 6); columnHead "small-header" "Rank, Profession, or Occupation";
    textNode (ws 6); columnHead "small-header" "Where Born";
    textNode (ws 6); columnHead "small-header" "Whether Blind or Deaf-and-Dumb";
    textNode (ws 6); columnHead "small-header" EmptyString;
    textNode (ws 4) ].

Definition titleCell : Node :=
  element "th" [attr "colspan" "7"; attr "align" "center"]
    [textNode (ws 6
               +:+ "The undermentioned Houses are situate within the Boundaries of the"
               +:+ ws 4)].

Definition titleRow : Node := element "tr" [] [titleCell].

Definition theadTree (header : list string) : Node :=
  element "thead" []
    [ textNode (ws 4);
      titleRow;
      textNode (ws 4);
      element "tr" [] (headerCells headerLabels 0 header ++ [textNode (ws 4)]);
      textNode (ws 4);
      element "tr" [] columnHeads;
      textNode (ws 2) ].

(** The wrapping element of a body cell: its (lower-cased) tag, and the
    name and value of its attribute. *)
Definition wrapper (ri ci : Z) (kids : list Node) : Node :=
  let rc := formatInt (intAdd ri 1) +:+ "C" +:+ formatInt (intAdd ci 1) in
  if (ci =? 4)%Z then element "personref" [attr "detlnk" ("dpR" +:+ rc)] kids
  else if ((ci =? 1) || (ci =? 10))%Z then element "placeref" [attr "detlnk" ("dwR" +:+ rc)] kids
  else element "mark" [attr "ref" ("R" +:+ rc)] kids.

Definition bodyCell (v : string) (ri ci : Z) : Node :=
  element "td" []
    (if String.eqb v EmptyString then []
     else [wrapper ri ci (textNodes (EscapeString v))]).

Fixpoint bodyCells (ri : Z) (ci : nat) (cols : list string) : list Node :=
  match cols with
  | [] => []
  | v :: rest => bodyCell v ri (Z.of_nat ci) :: bodyCells ri (S ci) rest
  end.

Definition bodyRow (ri : nat) (row : Row) : Node :=
  element "tr" [] (bodyCells (Z.of_nat ri) 0 (Col row)).

Fixpoint bodyRowNodes (ri : nat) (rows : list Row) : list Node :=
  match rows with
  | [] => []
  | row :: rest => textNode (ws 4 +:+ ws 4) :: bodyRow ri row :: bodyRowNodes (S ri) rest
  end.

Definition tbodyTree (rows : list Row) : Node :=
  element "tbody" [] (bodyRowNodes 0 rows ++ [textNode (ws 4 +:+ ws 2)]).

Definition footCell (v : string) : Node := element "td" [] (textNodes (htmlEscaper v)).

Definition housesLabel : Node :=
  element "td" [attr "colspan" "2"; attr "align" "right"] [textNode "Total of Houses..."].

Definition personsLabel : Node :=
  element "td" [attr "colspan" "3"; attr "align" "right"]
    [textNode "Total of Males and Females..."].

Definition tfootRow (footer : list string) : Node :=
  element "tr" []
    [ textNode (ws 6); housesLabel;
      textNode (ws 6); footCell (nth 0 footer EmptyString);
      textNode (ws 6); footCell (nth 1 footer EmptyString);
      textNode (ws 6); personsLabel;
      textNode (ws 6); footCell (nth 2 footer EmptyString);
      textNode (ws 6); footCell (nth 3 footer EmptyString);
      textNode (ws 6);
      element "td" [attr "colspan" "2"] [];
      element "td" [] [];
      textNode (ws 4) ].

Definition tfootTree (footer : list string) : Node :=
  element "tfoot" [] [textNode (ws 4); tfootRow footer; textNode (ws 2)].

Definition styleSheet : string :=
  "
  .smaller-header { font-size: 8px; }
  .small-header   { font-size: 10px; }
  table, th, td   { border: 1px solid black; border-collapse: collapse; }
  th, td          { padding: 4px; font-size: 12px; }
  thead th        { background-color: #f0f0f0; }
".

Definition headTree : Node :=
  element "head" []
    [ element "meta" [attr "charset" "UTF-8"] [];
      element "title" [] [textNode "1861 Census"];
      textNode (ws 0);
      element "style" [] [textNode styleSheet];
      textNode (ws 0) ].

Definition tableAttrs : list Attribute :=
  [attr "border" "1"; attr "cellspacing" "0"; attr "cellpadding" "0"].

Definition colgroupTree : Node :=
  element "colgroup" [] [element "col" [attr "style" "width:8.33%"; attr "span" "7"] []].

Definition tableTree (header : list string) (rows : list Row) (footer : list string) : Node :=
  element "table" tableAttrs
    [ textNode (ws 2);
      colgroupTree;
      textNode (ws 2);
      theadTree header;
      textNode (ws 2);
      tbodyTree rows;
      textNode (ws 2 +:+ ws 2);
      tfootTree footer;
      textNode (ws 0) ].

Definition doctypeNode : Node := mkNode DoctypeNode "html" [] [].

Definition pageTree (header : list string) (rows : list Row) (footer : list string) : Node :=
  mkNode DocumentNode EmptyString []
    [ doctypeNode;
      element "html" [attr "lang" "en"]
        [ headTree;
          textNode (ws 0);
          element "body" []
            [textNode (ws 0 +:+ ws 0); tableTree header rows footer; textNode (ws 0 +:+ ws 0)] ] ].

(** The text of the template between two actions, as it is written out. *)
Definition litAt (tmpl : list Action) (i : nat) : string :=
  match nth i tmpl (AText EmptyString) with
  | AText s => elideComments s
  | _ => EmptyString
  end.

Definition rowsBody (tmpl : list Action) (i : nat) : list RowAction :=
  match nth i tmpl (AText EmptyString) with
  | ARangeRows body => body
  | _ => []
  end.

(** Every byte of [s] satisfies [P]. *)
Fixpoint strAll (P : ascii -> bool) (s : string) : bool :=
  match s with
  | EmptyString => true
  | String c s' => P c && strAll P s'
  end.

Definition isNot (x : ascii) (c : ascii) : bool := negb (Ascii.eqb c x).

(** *** The template, piece by piece *)

(** The text after header value [i] (and before the next action). *)
Definition headerLit (i : nat) : string := litAt Template.pageTmpl (2 * S i).

(** The text after footer value [i]. *)
Definition footerLit (i : nat) : string := litAt Template.pageTmpl (18 + 2 * i).

Definition openElem (tag : string) (attrs : list Attribute) (kids : list Node) : Html.Frame :=
  Html.mkFrame ElementNode tag attrs kids.

Definition thFrame : Html.Frame :=
  openElem "th" [attr "style" "line-height:5em; padding-bottom:2em;"] [].

(** The frames open around the table: body, html and the document. *)
Definition bodyCtx : list Html.Frame :=
  [ openElem "body" [] [textNode (ws 0 +:+ ws 0)];
    openElem "html" [attr "lang" "en"] [textNode (ws 0); headTree];
    Html.mkFrame DocumentNode EmptyString [] [doctypeNode] ].

(** The text of one body row around its cells, and of one cell around its
    content. *)
Definition rowOpen : string := ws 4 +:+ "<tr>".
Definition rowClose : string := "</tr>" +:+ ws 4.
Definition cellBody : list CellAction := [CText "<td>"; CWrapCell; CText "</td>"].

(** No text node ends the children [kids] (last child first). *)
Definition elemOnTop (kids : list Node) : Prop :=
  match kids with
  | [] => True
  | k :: _ => NodeType_eqb (Type_ k) TextNode = false
  end.

(** ** The tree of a page encoded by the single-file program

    Its template writes two tables: the header cells in the first, and in
    the second the column heads (two rows, two of the heads with a line
    break), the body rows and the tfoot. *)

Definition mainHeaderLabels : list string :=
  ["Parish [or Township] of"; "City or Municipal Borough of"; "Municipal Ward of";
   "Parliamentary Borough of"; "Town of"; "Hamlet or Tything, &c., of";
   "Ecclesiastical District of"].

Definition mainHeaderTable (header : list string) : Node :=
  element "table" tableAttrs
    [ textNode (ws 2);
      colgroupTree;
      textNode (ws 2);
      element "thead" []
        [ textNode (ws 4);
          titleRow;
          textNode (ws 4);
          element "tr" [] (headerCells mainHeaderLabels 0 header ++ [textNode (ws 4)]);
          textNode (ws 2) ];
      textNode (ws 0) ].

Definition colWidth (width : string) : Node :=
  element "col" [attr "style" ("width:" +:+ width)] [].

Definition mainColgroup : Node :=
  element "colgroup" []
    [ textNode (ws 4); colWidth "1%"; colWidth "8%"; colWidth ".5%"; colWidth ".5%";
      textNode (ws 4); colWidth "15%"; colWidth "8%"; colWidth "2%";
      textNode (ws 4); colWidth "1.5%"; colWidth "1.5%"; colWidth "20%";
      textNode (ws 4); colWidth "15%"; colWidth "4%";
      textNode (ws 2) ].

Definition smaller : Attribute := attr "class" "smaller-header".
Definition small : Attribute := attr "class" "small-header".
Definition rowspan2 : Attribute := attr "rowspan" "2".
Definition colspan2 : Attribute := attr "colspan" "2".

(** The two column heads with a line break: label, br, label. *)
Definition scheduleHead : Node :=
  element "th" [smaller; rowspan2]
    [textNode "No."; element "br" [] []; textNode "Schedule"].

Definition houseHead : Node :=
  element "th" [small; rowspan2]
    [textNode "Road, Street, &c;"; element "br" [] []; textNode "& No. or Name of House"].

Definition mainColumnHeads : list Node :=
  [ textNode (ws 6); scheduleHead;
    textNode (ws 6); houseHead;
    textNode (ws 6); element "th" [smaller; colspan2] [textNode "HOUSES"];
    textNode (ws 6); element "th" [small; rowspan2] [textNode "Name and Surname of each Person"];
    textNode (ws 6); element "th" [rowspan2] [textNode "Relation"];
    element "th" [rowspan2] [textNode "Condition"];
    textNode (ws 6); element "th" [colspan2] [textNode "Age of"];
    textNode (ws 6); element "th" [rowspan2] [textNode "Rank, Profession, or Occupation"];
    textNode (ws 6); element "th" [rowspan2] [textNode "Where Born"];
    textNode (ws 6); element "th" [smaller; rowspan2] [textNode "Blind or Deaf-Dumb"];
    textNode (ws 4) ].

Definition mainSubHeads : list Node :=
  [ textNode (ws 6); element "th" [smaller] [textNode "In-habited"];
    element "th" [smaller] [textNode "Un-inhabited or Bldg."];
    textNode (ws 6); element "th" [smaller] [textNode "Males"];
    element "th" [smaller] [textNode "Females"];
    textNode (ws 4) ].

Definition mainThead : Node :=
  element "thead" []
    [ textNode (ws 4);
      element "tr" [] mainColumnHeads;
      textNode (ws 4);
      element "tr" [] mainSubHeads;
      textNode (ws 2) ].

Definition mainBodyTable (rows : list Row) (footer : list string) : Node :=
  element "table" []
    [ textNode (ws 2);
      mainColgroup;
      textNode (ws 2);
      mainThead;
      textNode (ws 2);
      tbodyTree rows;
      textNode (ws 2 +:+ ws 2);
      tfootTree footer;
      textNode (ws 0) ].

Definition mainPageTree (header : list string) (rows : list Row) (footer : list string) : Node :=
  mkNode DocumentNode EmptyString []
    [ doctypeNode;
      element "html" [attr "lang" "en"]
        [ headTree;
          textNode (ws 0);
          element "body" []
            [ textNode (ws 0 +:+ ws 0);
              mainHeaderTable header;
              textNode (ws 0 +:+ ws 0 +:+ ws 0);
              mainBodyTable rows footer;
              textNode (ws 0 +:+ ws 0) ] ] ].

(** The frames below the body of the document. *)
Definition htmlCtx : list Html.Frame :=
  [ openElem "html" [attr "lang" "en"] [textNode (ws 0); headTree];
    Html.mkFrame DocumentNode EmptyString [] [doctypeNode] ].

(** The nodes between footer value [i] and the next one, last first. *)
Definition footerBetween (i : nat) : list Node :=
  if (i =? 1)%nat then [textNode (ws 6); personsLabel; textNode (ws 6)]
  else [textNode (ws 6)].

(** ** Values that survive the trip through the document *)

(** What decode reads back of a value written through [escape]: the text
    node of the escaped bytes, trimmed. *)
Definition readBack (escape : string -> string) (v : string) : string :=
  TrimSpace (Html.decodeText (escape v)).

(** No NUL and no carriage return: the bytes the tokenizer does not keep. *)
Definition keptByte (c : ascii) : bool := isNot Html.NUL c && isNot Html.CR c.

(** A field value that decode returns as it was written: no leading or
    trailing white space, no NUL, no carriage return. *)
Definition stable (v : string) : Prop := TrimSpace v = v /\ strAll keptByte v = true.

(** The value a header slot receives from a written header value: none
    for the empty value, which writes no line break. *)
Definition headerValue (v : string) : option string :=
  if String.eqb v EmptyString then None else Some (readBack EscapeString v).

(** The first [n] entries of a fixed-size array, as the template reads
    them with [index]. *)
Definition firstN (n : nat) (l : list string) : list string :=
  map (fun i => nth i l EmptyString) (seq 0 n).

(** The row decoded from a written row. *)
Definition rowValue (row : Row) : Row :=
  mkRow (padTo Parser.FieldCount EmptyString (map (readBack EscapeString) (Col row))).

Fixpoint bodyRowList (ri : nat) (rows : list Row) : list Node :=
  match rows with
  | [] => []
  | row :: rest => bodyRow ri row :: bodyRowList (S ri) rest
  end.

Definition stableb (v : string) : bool :=
  String.eqb (TrimSpace v) v && strAll keptByte v.

(** ** Files

    [os.WriteFile] and [os.Open] act on the files of the machine.  The
    round trip uses one fact about them: a file written without error is
    opened, under its cleaned name, with the bytes written.  [Files] is a
    store with that property: the files by name, the newest first. *)

Definition Files : Type := list (string * string).

Definition writeFile (name data : string) (fs : Files) : Files * option unit :=
  ((name, data) :: fs, None).

Fixpoint openFile (fs : Files) (name : string) : string + unit :=
  match fs with
  | [] => inr tt
  | (n, data) :: fs' => if String.eqb n name then inl data else openFile fs' name
  end.

(** [html.Parse] as the reference parser, which reports no error. *)
Definition parseDoc {error : Type} (file : string) : Node + error := inl (Html.parse file).

(** ** The tfoot of a document *)

(** The elements named [tag] among the children of the nodes [ns]. *)
Definition below (tag : string) (ns : list Node) : list Node :=
  flat_map (fun n => List.filter (isElem tag) (Children n)) ns.

(** The tables of the body of a document, their tfoot elements, the rows
    of these and their cells. *)
Definition tables (doc : Node) : list Node := below "table" (below "body" (below "html" [doc])).
Definition tfoots (doc : Node) : list Node := below "tfoot" (tables doc).
Definition tfootRows (doc : Node) : list Node := below "tr" (tfoots doc).
Definition tfootCells (doc : Node) : list Node := below "td" (tfootRows doc).

Definition noColspan (n : Node) : bool := negb (Parser.hasColspan n).

(** ** The two templates side by side *)

(** What the actions before action [n] write, and what the others write. *)
Definition front (wrapCell : string -> Z -> Z -> string) (headerVal : string -> string)
    (tmpl : list Action) (n : nat) (data : pageData) : string :=
  Execute wrapCell headerVal (take n tmpl) data.

Definition back (wrapCell : string -> Z -> Z -> string) (headerVal : string -> string)
    (tmpl : list Action) (n : nat) (data : pageData) : string :=
  Execute wrapCell headerVal (drop n tmpl) data.

(** ** Example documents *)

(** A tfoot whose first cell is a label cell (colspan) holding a nested
    table, followed by one value cell. *)
Definition nestedLabelDoc : Node :=
  mkNode DocumentNode EmptyString []
    [element "html" []
       [element "head" [] [];
        element "body" []
          [element "table" []
             [element "tfoot" []
                [element "tr" []
                   [element "td" [attr "colspan" "2"]
                      [element "table" []
                         [element "tbody" []
                            [element "tr" [] [element "td" [] [textNode "X"]]]]];
                    element "td" [] [textNode "Y"]]]]]]].

(** A body of [n] rows; row [i] holds 14 cells, the first with the text
    [i], the others with a letter. *)
Definition numberedRow (i : nat) : Node :=
  element "tr" []
    (element "td" [] [textNode (formatInt (Z.of_nat i))]
     :: map (fun c => element "td" [] [textNode c])
          ["b"; "c"; "d"; "e"; "f"; "g"; "h"; "i"; "j"; "k"; "l"; "m"; "n"]).

Definition rowsDoc (n : nat) : Node :=
  mkNode DocumentNode EmptyString []
    [element "html" []
       [element "head" [] [];
        element "body" []
          [element "table" [] [element "tbody" [] (map numberedRow (seq 1 n))]]]].

(** 30 body rows, and a tfoot whose first cell is a label cell (colspan)
    holding a nested table of four cells, followed by four value cells. *)
Definition nestedCellsDoc : Node :=
  mkNode DocumentNode EmptyString []
    [element "html" []
       [element "head" [] [];
        element "body" []
          [element "table" []
             [element "tbody" [] (map numberedRow (seq 1 30));
              element "tfoot" []
                [element "tr" []
                   [element "td" [attr "colspan" "2"]
                      [element "table" []
                         [element "tbody" []
                            [element "tr" []
                               (map (fun c => element "td" [] [textNode c])
                                  ["X1"; "X2"; "X3"; "X4"])]]];
                    element "td" [] [textNode "Y1"];
                    element "td" [] [textNode "Y2"];
                    element "td" [] [textNode "Y3"];
                    element "td" [] [textNode "Y4"]]]]]]].

(** A page with every field set: 7 header fields, 25 rows of 12 and 4
    footer fields, all different, some with the characters that HTML
    escapes. *)
Definition sampleHeader : list string :=
  [ "O'Brien & Sons <Ltd>"; "Leeds"; "North Ward"; q "the 'Old' Borough"; "Hunslet";
    "Stourton"; "St. Mary > St. Jude" ].

Definition sampleCell (r c : nat) : string :=
  if (r =? 0)%nat && (c =? 4)%nat then "O'Brien & Sons <Ltd>"
  else "r" +:+ formatInt (Z.of_nat r) +:+ "c" +:+ formatInt (Z.of_nat c).

Definition sampleRows : list Row :=
  map (fun r => mkRow (map (sampleCell r) (seq 0 12))) (seq 0 25).

Definition sampleFooter : list string := ["12"; "3 + 1"; "40 & 1"; "<38>"].

(** The same page with a space before the first header value. *)
Definition paddedHeader : list string := " O'Brien & Sons <Ltd>" :: tail sampleHeader.

(** The page with every field empty. *)
Definition blankHeader : list string := replicate 7 EmptyString.
Definition blankRows : list Row := replicate 25 (mkRow (replicate 12 EmptyString)).
Definition blankFooter : list string := replicate 4 EmptyString.

(** ** The model of the terminal program: what holds of its states *)

(** The arrays of a model have their declared lengths. *)
Definition sized {P : Ui.Platform} (m : Ui.model P) : Prop :=
  length (Ui.header m) = 7 /\ length (Ui.rows m) = 25
  /\ Forall (fun r => length (Col r) = 12) (Ui.rows m)
  /\ length (Ui.footer m) = 4
  /\ length (Ui.headIn m) = 7 /\ length (Ui.bodyIn m) = 12 /\ length (Ui.footIn m) = 4.

(** The number of inputs of a mode; the picker is entered from any editing
    mode with the column as it is. *)
Definition width (md : Ui.editMode) : Z :=
  match md with
  | Ui.modeYearSelect => 1
  | Ui.modeHeader => 7
  | Ui.modeBody => 12
  | Ui.modeFooter => 4
  | Ui.modePickFile => 12
  end.

(** Year, row and column are indices of the year list, of the rows and of
    the inputs of the mode. *)
Definition cursorOK {P : Ui.Platform} (m : Ui.model P) : Prop :=
  (0 <= Ui.yearIdx m < 9)%Z /\ (0 <= Ui.currRow m < 25)%Z
  /\ (0 <= Ui.currCol m < width (Ui.mode m))%Z.

(** The one key that opens the file picker. *)
Definition isCtrlO (t : Ui.KeyType) : bool :=
  match t with
  | Ui.KeyCtrlO => true
  | _ => false
  end.

Definition opensPicker {P : Ui.Platform} (msg : Ui.Msg (Ui.KeyMsg P) (Ui.OtherMsg P)) : bool :=
  match msg with
  | Ui.KeyPress k => isCtrlO (Ui.keyType P k)
  | Ui.Other _ => false
  end.

(** The values the inputs of the current mode hold. *)
Definition values {P : Ui.Platform} (ins : list (Ui.Input P)) : list string :=
  map (Ui.tiValue P) ins.

(** *** A platform to run the program on

    Inputs that hold a value and a focus flag and append the runes of a key
    when focused; a picker that selects the path a message names; the files
    of [Files]; the reference parser.  A key is its type and its runes. *)
Definition toy : Ui.Platform :=
  {| Ui.KeyMsg := Ui.KeyType * string;
     Ui.OtherMsg := string;
     Ui.Cmd := unit;
     Ui.keyType := fst;
     Ui.teaQuit := tt;
     Ui.Input := string * bool;
     Ui.tiNew := (EmptyString, false);
     Ui.tiPlaceholder := fun _ i => i;
     Ui.tiCharLimit := fun _ i => i;
     Ui.tiValue := fst;
     Ui.tiSetValue := fun v i => (v, snd i);
     Ui.tiFocus := fun i => (fst i, true);
     Ui.tiBlur := fun i => (fst i, false);
     Ui.tiUpdate := fun k i =>
       match fst k with
       | Ui.KeyOther => if snd i then (fst i +:+ snd k, true) else i
       | _ => i
       end;
     Ui.Picker := unit;
     Ui.fpNew := tt;
     Ui.fpAllowedTypes := fun _ p => p;
     Ui.fpInit := fun _ => None;
     Ui.fpUpdate := fun _ p => (p, None);
     Ui.fpDidSelectFile := fun msg _ =>
       match msg with
       | Ui.Other path => Some path
       | Ui.KeyPress _ => None
       end;
     Ui.Disk := Files;
     Ui.Error := unit;
     Ui.osWriteFile := writeFile;
     Ui.osOpen := openFile;
     Ui.filepathClean := fun p => p;
     Ui.htmlParse := parseDoc;
     Ui.errorString := fun _ => "error" |}.

(** A key without runes, and the typing of a text. *)
Definition key (t : Ui.KeyType) : Ui.Msg (Ui.KeyType * string) string :=
  Ui.KeyPress (t, EmptyString).

Definition typed (s : string) : Ui.Msg (Ui.KeyType * string) string :=
  Ui.KeyPress (Ui.KeyOther, s).

Definition emptyWorld : Ui.World toy := Ui.mkWorld toy [] [].

(** *** commitCurrent and loadCurrent in closed form *)

Section Closed.
  Context {P : Ui.Platform}.

(** The model after [commitCurrent]: the values of the inputs of the
    current mode are the header, the current row or the footer. *)
Definition committed (m : Ui.model P) : Ui.model P :=
  match Ui.mode m with
  | Ui.modeHeader => Ui.setHeader P (values (Ui.headIn m)) m
  | Ui.modeBody =>
      Ui.setRows P (<[Z.to_nat (Ui.currRow m) := mkRow (values (Ui.bodyIn m))]> (Ui.rows m)) m
  | Ui.modeFooter => Ui.setFooter P (values (Ui.footIn m)) m
  | _ => m
  end.

(** The model after [loadCurrent]: the inputs of the current mode are set
    to the header, the current row or the footer; then [setFocus]. *)
Definition loaded (m : Ui.model P) : Ui.model P :=
  Ui.setFocus P
    match Ui.mode m with
    | Ui.modeHeader =>
        Ui.setHeadIn P (zip_with (Ui.tiSetValue P) (Ui.header m) (Ui.headIn m)) m
    | Ui.modeBody =>
        Ui.setBodyIn P
          (zip_with (Ui.tiSetValue P)
             (Col (nth (Z.to_nat (Ui.currRow m)) (Ui.rows m) Parser.zeroRow))
             (Ui.bodyIn m)) m
    | Ui.modeFooter =>
        Ui.setFootIn P (zip_with (Ui.tiSetValue P) (Ui.footer m) (Ui.footIn m)) m
    | _ => m
    end.

(** An editing mode: header, body or footer. *)
Definition editing (md : Ui.editMode) : bool :=
  match md with
  | Ui.modeHeader | Ui.modeBody | Ui.modeFooter => true
  | _ => false
  end.

(** The persistent data of a model. *)
Definition data (m : Ui.model P) : list string * list Row * list string :=
  (Ui.header m, Ui.rows m, Ui.footer m).

End Closed.

(** The key that saves, and the keys that store the inputs in the data. *)
Definition isCtrlW (t : Ui.KeyType) : bool :=
  match t with
  | Ui.KeyCtrlW => true
  | _ => false
  end.

Definition storesKey (t : Ui.KeyType) : bool :=
  match t with
  | Ui.KeyCtrlH | Ui.KeyCtrlB | Ui.KeyCtrlF | Ui.KeyCtrlO | Ui.KeyCtrlW
  | Ui.KeyUp | Ui.KeyDown => true
  | _ => false
  end.

(** [msg] is a key whose type satisfies [p]. *)
Definition onKey {P : Ui.Platform} (p : Ui.KeyType -> bool)
    (msg : Ui.Msg (Ui.KeyMsg P) (Ui.OtherMsg P)) : bool :=
  match msg with
  | Ui.KeyPress k => p (Ui.keyType P k)
  | Ui.Other _ => false
  end.

(** ** Pages that are partly filled *)

Definition nonEmpty (v : string) : bool := negb (String.eqb v EmptyString).

(** The empty fields of [h] come after all the others. *)
Definition emptyLast (h : list string) : Prop :=
  exists l k, h = l ++ replicate k EmptyString /\ Forall (fun v => v <> EmptyString) l.

(** A page of the declared sizes whose values are all stable. *)
Definition stablePage (h : list string) (rows : list Row) (f : list string) : Prop :=
  length h = 7 /\ length rows = 25 /\ Forall (fun r => length (Col r) = 12) rows
  /\ length f = 4
  /\ Forall stable h /\ Forall (fun r => Forall stable (Col r)) rows /\ Forall stable f.

(** A page with one header field empty, and not the last. *)
Definition gapHeader : list string :=
  ["Leeds"; EmptyString; "North Ward"; EmptyString; EmptyString; EmptyString; EmptyString].

(** *** Sessions on that platform *)

(** The model and the world after the messages [msgs], from [NewModel] and
    no files, in package ui and in the single-file program. *)
Definition after (msgs : list (Ui.Msg (Ui.KeyType * string) string))
    : Ui.model toy * Ui.World toy :=
  match Ui.handle toy (Template.WriteHTML writeFile) msgs (Ui.NewModel toy) emptyWorld with
  | Some r => r
  | None => (Ui.NewModel toy, emptyWorld)
  end.

Definition afterMain (msgs : list (Ui.Msg (Ui.KeyType * string) string))
    : Ui.model toy * Ui.World toy :=
  match Ui.handle toy (Main.writeHTML writeFile) msgs (Ui.NewModel toy) emptyWorld with
  | Some r => r
  | None => (Ui.NewModel toy, emptyWorld)
  end.

(** 1861 is taken; Leeds and North Ward go to the first and the third
    header field; the body is opened and 12 typed into the first field of
    the first row. *)
Definition typing : list (Ui.Msg (Ui.KeyType * string) string) :=
  [ key Ui.KeyEnter; typed "Leeds"; key Ui.KeyTab; key Ui.KeyTab; typed "North Ward";
    key Ui.KeyCtrlB; typed "12" ].

(** The same, then the page is saved and the picker opened. *)
Definition saved : list (Ui.Msg (Ui.KeyType * string) string) :=
  typing ++ [key Ui.KeyCtrlW; key Ui.KeyCtrlO].

(** The picker opened from the eighth field of the body. *)
Definition eighthField : list (Ui.Msg (Ui.KeyType * string) string) :=
  [key Ui.KeyEnter; key Ui.KeyCtrlB] ++ replicate 7 (key Ui.KeyTab) ++ [key Ui.KeyCtrlO].

(** * Properties *)

(** ** TrimSpace *)

Lemma stripPrefix_Some (p s r : list ascii) :
  stripPrefix p s = Some r <-> s = p ++ r.
Proof.
  revert s; induction p as [|a p IH]; intros s; simpl.
  - split; [intros [= ->]; reflexivity | intros ->; reflexivity].
  - destruct s as [|b s]; [split; discriminate|].
    destruct (Ascii.eqb_spec a b) as [->|Hne].
    + rewrite IH. split; [intros ->; reflexivity | intros [= ->]; reflexivity].
    + split; [discriminate | intros [= <- _]; contradiction].
Qed.

Lemma dropRune_Some (enc : list (list ascii)) (s r : list ascii) :
  dropRune enc s = Some r -> exists p, In p enc /\ s = p ++ r.
Proof.
  induction enc as [|p enc IH]; simpl; [discriminate|].
  destruct (stripPrefix p s) as [r'|] eqn:E.
  - intros [= ->]. exists p. split; [now left | now apply stripPrefix_Some].
  - intros H. destruct (IH H) as (p' & Hin & Hs). exists p'. split; [now right | exact Hs].
Qed.

Lemma dropRune_None (enc : list (list ascii)) (s : list ascii) :
  dropRune enc s = None -> forall p r, In p enc -> s <> p ++ r.
Proof.
  induction enc as [|p enc IH]; simpl; [intros _ ? ? []|].
  destruct (stripPrefix p s) as [r'|] eqn:E; [discriminate|].
  intros H q r [<-|Hin] Hs.
  - apply stripPrefix_Some in Hs. congruence.
  - exact (IH H q r Hin Hs).
Qed.

Lemma dropRune_is_Some (enc : list (list ascii)) (p r : list ascii) :
  In p enc -> exists r', dropRune enc (p ++ r) = Some r'.
Proof.
  induction enc as [|p0 enc IH]; simpl; [intros []|].
  intros Hin. destruct (stripPrefix p0 (p ++ r)) as [r'|] eqn:E; [eauto|].
  destruct Hin as [->|Hin]; [|auto].
  assert (stripPrefix p (p ++ r) = Some r) by now apply stripPrefix_Some.
  congruence.
Qed.

(** A string that starts with no rune of [enc] has no prefix that does. *)
Lemma dropRune_None_prefix (enc : list (list ascii)) (t x : list ascii) :
  dropRune enc (t ++ x) = None -> dropRune enc t = None.
Proof.
  intros H. destruct (dropRune enc t) as [r|] eqn:E; [|reflexivity].
  destruct (dropRune_Some _ _ _ E) as (p & Hin & ->).
  destruct (dropRune_is_Some enc p (r ++ x) Hin) as [r' Hr'].
  rewrite <- app_assoc in H. congruence.
Qed.

Section TrimLeft.
  Variable enc : list (list ascii).
  Hypothesis enc_nonempty : forall p, In p enc -> p <> [].

Lemma dropRune_shorter (s r : list ascii) :
    dropRune enc s = Some r -> length r < length s.
  Proof.
    intros H. destruct (dropRune_Some _ _ _ H) as (p & Hin & ->).
    specialize (enc_nonempty p Hin). rewrite length_app.
    destruct p; [contradiction | simpl; lia].
  Qed.

Lemma trimLeftFuel_done (fuel : nat) (s : list ascii) :
    length s <= fuel -> dropRune enc (trimLeftFuel enc fuel s) = None.
  Proof.
    revert s; induction fuel as [|fuel IH]; intros s Hlen; simpl.
    - destruct s; [|simpl in Hlen; lia].
      destruct (dropRune enc []) as [r|] eqn:E; [|reflexivity].
      apply dropRune_shorter in E. simpl in E. lia.
    - destruct (dropRune enc s) as [r|] eqn:E; [|exact E].
      apply IH. apply dropRune_shorter in E. lia.
  Qed.

  (** The fuel of [trimLeft] is enough: the result starts with no rune. *)
Lemma trimLeft_done (s : list ascii) : dropRune enc (trimLeft enc s) = None.
  Proof. apply trimLeftFuel_done. lia. Qed.
End TrimLeft.

Lemma trimLeftFuel_fixed (enc : list (list ascii)) (fuel : nat) (s : list ascii) :
  dropRune enc s = None -> trimLeftFuel enc fuel s = s.
Proof. intros H. destruct fuel; simpl; [reflexivity | now rewrite H]. Qed.

Lemma trimLeft_fixed (enc : list (list ascii)) (s : list ascii) :
  dropRune enc s = None -> trimLeft enc s = s.
Proof. apply trimLeftFuel_fixed. Qed.

Lemma trimLeftFuel_suffix (enc : list (list ascii)) (fuel : nat) (s : list ascii) :
  exists p, s = p ++ trimLeftFuel enc fuel s.
Proof.
  revert s; induction fuel as [|fuel IH]; intros s; simpl; [now exists []|].
  destruct (dropRune enc s) as [r|] eqn:E; [|now exists []].
  destruct (dropRune_Some _ _ _ E) as (p & _ & ->).
  destruct (IH r) as [p' Hp']. exists (p ++ p').
  rewrite <- app_assoc. now rewrite <- Hp'.
Qed.

Lemma whiteSpace_nonempty (p : list ascii) : In p whiteSpace -> p <> [].
Proof.
  intros Hin ->. revert Hin. unfold whiteSpace. rewrite in_map_iff.
  intros (l & Hl & Hin). destruct l; [|discriminate].
  revert Hin. cbv. intuition discriminate.
Qed.

Lemma whiteSpace_rev_nonempty (p : list ascii) :
  In p (map (@rev ascii) whiteSpace) -> p <> [].
Proof.
  rewrite in_map_iff. intros (l & <- & Hin) Hrev.
  apply (whiteSpace_nonempty l Hin).
  apply (f_equal (@rev ascii)) in Hrev. now rewrite rev_involutive in Hrev.
Qed.

Lemma trimSpaceBytes_idempotent (s : list ascii) :
  trimSpaceBytes (trimSpaceBytes s) = trimSpaceBytes s.
Proof.
  unfold trimSpaceBytes.
  set (u := trimLeft whiteSpace s).
  set (w := trimLeft (map (@rev ascii) whiteSpace) (rev u)).
  assert (Hu : dropRune whiteSpace u = None)
    by (apply trimLeft_done, whiteSpace_nonempty).
  assert (Hw : dropRune (map (@rev ascii) whiteSpace) w = None)
    by (apply trimLeft_done, whiteSpace_rev_nonempty).
  destruct (trimLeftFuel_suffix (map (@rev ascii) whiteSpace) (length (rev u)) (rev u))
    as [p Hp]. fold (trimLeft (map (@rev ascii) whiteSpace) (rev u)) in Hp. fold w in Hp.
  assert (Hrw : dropRune whiteSpace (rev w) = None).
  { apply (dropRune_None_prefix whiteSpace (rev w) (rev p)).
    rewrite <- rev_app_distr, <- Hp, rev_involutive. exact Hu. }
  rewrite (trimLeft_fixed whiteSpace (rev w) Hrw), rev_involutive.
  now rewrite (trimLeft_fixed _ w Hw).
Qed.

(** [TrimSpace] returns a string that [TrimSpace] leaves as it is. *)
Lemma TrimSpace_idempotent (s : string) : TrimSpace (TrimSpace s) = TrimSpace s.
Proof.
  unfold TrimSpace. rewrite list_ascii_of_string_of_list_ascii.
  now rewrite trimSpaceBytes_idempotent.
Qed.

Lemma trimmed_empty : trimmed EmptyString.
Proof. reflexivity. Qed.

Lemma trimmed_TrimSpace (s : string) : trimmed (TrimSpace s).
Proof. apply TrimSpace_idempotent. Qed.

(** ** The decoder on an arbitrary tree *)

Arguments Parser.HeadCount : simpl never.
Arguments Parser.FieldCount : simpl never.
Arguments Parser.RowCount : simpl never.
Arguments Parser.FootCount : simpl never.
Arguments Nat.leb : simpl never.

Lemma padTo_nil {A : Type} (n : nat) (z : A) : padTo n z [] = replicate n z.
Proof. unfold padTo. now rewrite take_nil, Nat.sub_0_r. Qed.

Lemma padTo_cons {A : Type} (n : nat) (z x : A) (l : list A) :
  padTo (S n) z (x :: l) = x :: padTo n z l.
Proof. reflexivity. Qed.

Lemma padTo_0 {A : Type} (z : A) (l : list A) : padTo 0 z l = [].
Proof. unfold padTo. now rewrite take_0. Qed.

Lemma length_padTo {A : Type} (n : nat) (z : A) (l : list A) : length (padTo n z l) = n.
Proof. unfold padTo. rewrite length_app, length_take, length_replicate. lia. Qed.

Lemma padTo_long {A : Type} (n : nat) (z : A) (l : list A) :
  n <= length l -> padTo n z l = take n l.
Proof.
  intros H. unfold padTo. replace (n - length l) with 0 by lia. apply app_nil_r.
Qed.

Lemma padTo_take {A : Type} (n : nat) (z : A) (l : list A) :
  padTo n z (take n l) = padTo n z l.
Proof.
  unfold padTo. rewrite take_take, Nat.min_id, length_take.
  f_equal. f_equal. lia.
Qed.

Lemma lookup_padTo {A : Type} (n : nat) (z : A) (l : list A) (i : nat) :
  i < n -> padTo n z l !! i = Some (default z (l !! i)).
Proof.
  intros Hi. unfold padTo. destruct (l !! i) as [x|] eqn:E.
  - pose proof (lookup_lt_Some _ _ _ E) as Hlt.
    rewrite lookup_app_l by (rewrite length_take; lia).
    rewrite lookup_take_lt by lia. exact E.
  - apply lookup_ge_None in E. rewrite lookup_app_r by (rewrite length_take; lia).
    rewrite length_take. apply lookup_replicate_2. lia.
Qed.

Lemma Forall_padTo {A : Type} (P : A -> Prop) (n : nat) (z : A) (l : list A) :
  P z -> Forall P l -> Forall P (padTo n z l).
Proof.
  intros Hz Hl. unfold padTo. apply Forall_app. split.
  - now apply Forall_take.
  - now apply Forall_replicate.
Qed.

(** Writing slot [length pre] of an array whose later slots are still zero. *)
Lemma insert_next {A : Type} (pre : list A) (k : nat) (z v : A) :
  <[length pre := v]> (pre ++ replicate (S k) z) = (pre ++ [v]) ++ replicate k z.
Proof.
  replace (length pre) with (length pre + 0) at 1 by lia.
  rewrite insert_app_r. simpl. now rewrite <- app_assoc.
Qed.

Lemma alter_next {A : Type} (f : A -> A) (pre : list A) (k : nat) (z : A) :
  alter f (length pre) (pre ++ replicate (S k) z) = (pre ++ [f z]) ++ replicate k z.
Proof.
  replace (length pre) with (length pre + 0) at 1 by lia.
  rewrite alter_app_r. simpl. now rewrite <- app_assoc.
Qed.

Lemma headerLoop_closed (ths : list Node) (pre : list string) :
  length pre <= Parser.HeadCount ->
  Parser.headerLoop ths (length pre)
    (pre ++ replicate (Parser.HeadCount - length pre) EmptyString)
  = pre ++ padTo (Parser.HeadCount - length pre) EmptyString (omap brValue ths).
Proof.
  revert pre. induction ths as [|th ths IH]; intros pre Hlen; simpl.
  - now rewrite padTo_nil.
  - destruct (Nat.leb_spec Parser.HeadCount (length pre)) as [Hge|Hlt].
    + replace (Parser.HeadCount - length pre) with 0 by lia.
      now rewrite padTo_0.
    + unfold brValue at 1. destruct (Parser.scanBr (Children th)) as [v|]; [|now apply IH].
      destruct (Parser.HeadCount - length pre) as [|k] eqn:Ek; [lia|].
      rewrite insert_next, padTo_cons.
      specialize (IH (pre ++ [v])). rewrite length_app in IH. simpl in IH.
      replace (length pre + 1) with (S (length pre)) in IH by lia.
      replace (Parser.HeadCount - S (length pre)) with k in IH by lia.
      rewrite IH by lia. now rewrite <- app_assoc.
Qed.

Lemma cellLoop_closed (tds : list Node) (pre : list string) :
  length pre <= Parser.FieldCount ->
  Parser.cellLoop tds (length pre)
    (mkRow (pre ++ replicate (Parser.FieldCount - length pre) EmptyString))
  = mkRow (pre ++ padTo (Parser.FieldCount - length pre) EmptyString
             (map (fun td => Parser.text (Some td)) (List.filter (isElem "td") tds))).
Proof.
  revert pre. induction tds as [|td tds IH]; intros pre Hlen; simpl.
  - now rewrite padTo_nil.
  - destruct (Nat.leb_spec Parser.FieldCount (length pre)) as [Hge|Hlt].
    + replace (Parser.FieldCount - length pre) with 0 by lia.
      now rewrite padTo_0.
    + fold (isElem "td" td). destruct (isElem "td" td); [|now apply IH].
      simpl. destruct (Parser.FieldCount - length pre) as [|k] eqn:Ek; [lia|].
      rewrite insert_next, padTo_cons.
      specialize (IH (pre ++ [Parser.text (Some td)])). rewrite length_app in IH. simpl in IH.
      replace (length pre + 1) with (S (length pre)) in IH by lia.
      replace (Parser.FieldCount - S (length pre)) with k in IH by lia.
      rewrite IH by lia. now rewrite <- app_assoc.
Qed.

Lemma cellLoop_rowOf (tr : Node) : Parser.cellLoop (Children tr) 0 Parser.zeroRow = rowOf tr.
Proof. exact (cellLoop_closed (Children tr) [] (Nat.le_0_l _)). Qed.

Lemma rowLoop_closed (trs : list Node) (pre : list Row) :
  length pre <= Parser.RowCount ->
  Parser.rowLoop trs (length pre)
    (pre ++ replicate (Parser.RowCount - length pre) Parser.zeroRow)
  = pre ++ padTo (Parser.RowCount - length pre) Parser.zeroRow (map rowOf trs).
Proof.
  revert pre. induction trs as [|tr trs IH]; intros pre Hlen; simpl.
  - now rewrite padTo_nil.
  - destruct (Nat.leb_spec Parser.RowCount (length pre)) as [Hge|Hlt].
    + replace (Parser.RowCount - length pre) with 0 by lia.
      now rewrite padTo_0.
    + destruct (Parser.RowCount - length pre) as [|k] eqn:Ek; [lia|].
      rewrite alter_next, padTo_cons, cellLoop_rowOf.
      specialize (IH (pre ++ [rowOf tr])). rewrite length_app in IH. simpl in IH.
      replace (length pre + 1) with (S (length pre)) in IH by lia.
      replace (Parser.RowCount - S (length pre)) with k in IH by lia.
      rewrite IH by lia. now rewrite <- app_assoc.
Qed.

Lemma footLoop_closed (vals : list string) (pre : list string) :
  length pre <= Parser.FootCount ->
  Parser.footLoop vals (length pre)
    (pre ++ replicate (Parser.FootCount - length pre) EmptyString)
  = pre ++ padTo (Parser.FootCount - length pre) EmptyString vals.
Proof.
  revert pre. induction vals as [|v vals IH]; intros pre Hlen; simpl.
  - now rewrite padTo_nil.
  - destruct (Nat.leb_spec Parser.FootCount (length pre)) as [Hge|Hlt].
    + replace (Parser.FootCount - length pre) with 0 by lia.
      now rewrite padTo_0.
    + destruct (Parser.FootCount - length pre) as [|k] eqn:Ek; [lia|].
      rewrite insert_next, padTo_cons.
      specialize (IH (pre ++ [v])). rewrite length_app in IH. simpl in IH.
      replace (length pre + 1) with (S (length pre)) in IH by lia.
      replace (Parser.FootCount - S (length pre)) with k in IH by lia.
      rewrite IH by lia. now rewrite <- app_assoc.
Qed.

(** The three aggregates in closed form. *)
Lemma decodeDoc_closed (doc : Node) :
  Parser.decodeDoc doc =
  (padTo Parser.HeadCount EmptyString (omap brValue (Parser.collectTh doc)),
   padTo Parser.RowCount Parser.zeroRow (map rowOf (Parser.collectTr [] doc)),
   padTo Parser.FootCount EmptyString (Parser.walkFooter [] doc)).
Proof.
  unfold Parser.decodeDoc. f_equal; [f_equal|].
  - exact (headerLoop_closed _ [] (Nat.le_0_l _)).
  - exact (rowLoop_closed _ [] (Nat.le_0_l _)).
  - exact (footLoop_closed _ [] (Nat.le_0_l _)).
Qed.

(** *** Document order *)

Lemma flat_map_via {A B C : Type} (f : A -> list C) (g : A -> list B)
    (h : list B -> list C) (l : list A) :
  h [] = [] -> (forall x y, h (x ++ y) = h x ++ h y) ->
  Forall (fun a => f a = h (g a)) l ->
  flat_map f l = h (flat_map g l).
Proof.
  intros Hnil Happ Hall. induction Hall as [|a l Ha _ IH]; simpl.
  - now rewrite Hnil.
  - now rewrite Happ, Ha, IH.
Qed.

Lemma filter_map_snd_app {A B : Type} (P : B -> bool) (x y : list (A * B)) :
  List.filter P (map snd (x ++ y)) = List.filter P (map snd x) ++ List.filter P (map snd y).
Proof. now rewrite map_app, List.filter_app. Qed.

Lemma map_filter_app {A B : Type} (f : A -> B) (P : A -> bool) (x y : list A) :
  map f (List.filter P (x ++ y)) = map f (List.filter P x) ++ map f (List.filter P y).
Proof. now rewrite List.filter_app, map_app. Qed.

Lemma collectTh_preorder (n : Node) (anc : list Node) :
  Parser.collectTh n = List.filter (isElem "th") (map snd (preorder anc n)).
Proof.
  revert anc. induction n as [t d a kids IH] using Node_forall_ind. intros anc.
  cbn [Parser.collectTh preorder Children map snd List.filter].
  change (Parser.is_ (Some (mkNode t d a kids)) "th") with (isElem "th" (mkNode t d a kids)).
  rewrite (flat_map_via Parser.collectTh (preorder (mkNode t d a kids :: anc))
             (fun l => List.filter (isElem "th") (map snd l)) kids);
    [ | reflexivity | apply filter_map_snd_app | ].
  - now destruct (isElem "th" (mkNode t d a kids)).
  - eapply Forall_impl; [exact IH|]. intros k Hk. apply Hk.
Qed.

Lemma collectTr_preorder (n : Node) (anc : list Node) :
  Parser.collectTr anc n =
  map snd
    (List.filter (fun an => isElem "tr" (snd an) && Parser.ancestorTag (fst an) "tbody")
       (preorder anc n)).
Proof.
  revert anc. induction n as [t d a kids IH] using Node_forall_ind. intros anc.
  cbn [Parser.collectTr preorder Children List.filter fst snd].
  change (Parser.is_ (Some (mkNode t d a kids)) "tr") with (isElem "tr" (mkNode t d a kids)).
  rewrite (flat_map_via (Parser.collectTr (mkNode t d a kids :: anc))
             (preorder (mkNode t d a kids :: anc))
             (fun l => map snd (List.filter
                (fun an => isElem "tr" (snd an) && Parser.ancestorTag (fst an) "tbody") l)) kids);
    [ | reflexivity | intros; apply map_filter_app | ].
  - now destruct (isElem "tr" (mkNode t d a kids) && Parser.ancestorTag anc "tbody").
  - eapply Forall_impl; [exact IH|]. intros k Hk. apply Hk.
Qed.

Lemma preorder_eq (anc : list Node) (n : Node) :
  preorder anc n = (anc, n) :: flat_map (preorder (n :: anc)) (Children n).
Proof. now destruct n. Qed.

Lemma walkFooter_eq (anc : list Node) (n : Node) :
  Parser.walkFooter anc n =
  if tfootCell (anc, n) then
    if Parser.hasColspan n then []
    else Parser.text (Some n) :: flat_map (Parser.walkFooter (n :: anc)) (Children n)
  else flat_map (Parser.walkFooter (n :: anc)) (Children n).
Proof. now destruct n. Qed.

(** Below a label cell [walkFooter] reaches nothing. *)
Lemma reachedCell_below_label (n : Node) (anc : list Node) :
  inLabelCell anc = true -> List.filter reachedCell (preorder anc n) = [].
Proof.
  revert anc. induction n as [t d a kids IH] using Node_forall_ind. intros anc Hanc.
  cbn [preorder Children List.filter].
  unfold reachedCell at 1. cbn [fst snd]. rewrite Hanc, andb_false_r.
  assert (Hin : inLabelCell (mkNode t d a kids :: anc) = true)
    by (cbn [inLabelCell]; rewrite Hanc; apply orb_true_r).
  revert Hin. generalize (mkNode t d a kids :: anc). intros anc' Hin.
  induction IH as [|k kids' Hk _ IHkids]; [reflexivity|].
  cbn [flat_map]. rewrite List.filter_app, (Hk _ Hin). exact IHkids.
Qed.

Lemma reachedCell_below_label_all (kids anc : list Node) :
  inLabelCell anc = true -> List.filter reachedCell (flat_map (preorder anc) kids) = [].
Proof.
  intros Hin. induction kids as [|k kids IH]; [reflexivity|].
  cbn [flat_map]. rewrite List.filter_app, (reachedCell_below_label k _ Hin). exact IH.
Qed.

Lemma walkFooter_preorder (n : Node) (anc : list Node) :
  inLabelCell anc = false ->
  Parser.walkFooter anc n =
  map (fun an => Parser.text (Some (snd an))) (List.filter reachedCell (preorder anc n)).
Proof.
  revert anc. induction n as [t d a kids IH] using Node_forall_ind. intros anc Hanc.
  set (n := mkNode t d a kids) in *.
  rewrite walkFooter_eq, preorder_eq. cbn [List.filter].
  unfold reachedCell at 1, valueCell. cbn [fst snd]. rewrite Hanc, andb_true_r.
  change (Children n) with kids.
  destruct (tfootCell (anc, n)) eqn:Hcell; cbn [andb].
  - destruct (Parser.hasColspan n) eqn:Hspan; cbn [negb].
    + assert (Hin : inLabelCell (n :: anc) = true)
        by (cbn [inLabelCell]; now rewrite Hcell, Hspan).
      now rewrite (reachedCell_below_label_all kids _ Hin).
    + assert (Hin : inLabelCell (n :: anc) = false)
        by (cbn [inLabelCell]; now rewrite Hcell, Hspan).
      cbn [map snd]. f_equal.
      apply (flat_map_via (Parser.walkFooter (n :: anc)) (preorder (n :: anc))
               (fun l => map (fun an => Parser.text (Some (snd an))) (List.filter reachedCell l)));
        [reflexivity | intros; apply map_filter_app |].
      eapply Forall_impl; [exact IH|]. intros k Hk. now apply Hk.
  - assert (Hin : inLabelCell (n :: anc) = false)
      by (cbn [inLabelCell]; now rewrite Hcell).
    apply (flat_map_via (Parser.walkFooter (n :: anc)) (preorder (n :: anc))
             (fun l => map (fun an => Parser.text (Some (snd an))) (List.filter reachedCell l)));
      [reflexivity | intros; apply map_filter_app |].
    eapply Forall_impl; [exact IH|]. intros k Hk. now apply Hk.
Qed.

(** *** The sizes of the aggregates *)

Lemma decodeDoc_sizes (doc : Node) :
  match Parser.decodeDoc doc with
  | (h, rows, f) =>
      length h = Parser.HeadCount /\ length rows = Parser.RowCount
      /\ Forall (fun r => length (Col r) = Parser.FieldCount) rows
      /\ length f = Parser.FootCount
  end.
Proof.
  rewrite decodeDoc_closed. repeat split; try apply length_padTo.
  apply Forall_padTo.
  - apply length_replicate.
  - apply List.Forall_map, Forall_forall. intros tr _. apply length_padTo.
Qed.

Lemma zero_sizes :
  length Parser.zeroHead = Parser.HeadCount /\ length Parser.zeroRows = Parser.RowCount
  /\ Forall (fun r => length (Col r) = Parser.FieldCount) Parser.zeroRows
  /\ length Parser.zeroFoot = Parser.FootCount.
Proof.
  repeat split; try apply length_replicate.
  apply Forall_replicate, length_replicate.
Qed.

(** Slot by slot: every slot holds the value found for it in the document,
    or the empty string when the document has none. *)
Lemma decodeDoc_slots (doc : Node) :
  match Parser.decodeDoc doc with
  | (h, rows, f) =>
      (forall i, i < 7 -> h !! i = Some (foundOrEmpty (headerTexts doc) i))
      /\ (forall i j, i < 25 -> j < 12 ->
            exists row, rows !! i = Some row
                        /\ Col row !! j = Some (foundOrEmpty (rowTexts doc i) j))
      /\ (forall i, i < 4 -> f !! i = Some (foundOrEmpty (footerTexts doc) i))
  end.
Proof.
  rewrite decodeDoc_closed.
  rewrite (collectTh_preorder doc []), (collectTr_preorder doc []),
    (walkFooter_preorder doc [] eq_refl).
  fold (thCells doc) (bodyRows doc) (footerTexts doc) (headerTexts doc).
  split; [|split].
  - intros i Hi. apply (lookup_padTo Parser.HeadCount). exact Hi.
  - intros i j Hi Hj.
    exists (default Parser.zeroRow (map rowOf (bodyRows doc) !! i)).
    split; [apply (lookup_padTo Parser.RowCount); exact Hi|].
    rewrite list_lookup_fmap. unfold rowTexts.
    destruct (bodyRows doc !! i) as [tr|]; cbn [fmap option_fmap option_map default].
    + unfold rowOf. cbn [Col]. apply (lookup_padTo Parser.FieldCount). exact Hj.
    + unfold foundOrEmpty. rewrite lookup_nil. cbn [default Parser.zeroRow Col].
      apply lookup_replicate_2. exact Hj.
  - intros i Hi. apply (lookup_padTo Parser.FootCount). exact Hi.
Qed.

(** C3. Decode fails exactly when the file cannot be opened or the content
    cannot be parsed into a tree; a failure comes with the zero aggregates
    (every field empty), never with decoded fields; in every case the
    aggregates have 7 header fields, 25 rows of 12 fields and 4 footer
    fields.  When the file opens and parses there is no error and every
    slot holds what the document has for it, or the empty string when the
    document has nothing for it: header slot i the i-th value of the th
    cells with a br, slot j of row i the text of the j-th td child of the
    i-th body row, footer slot i the text of the i-th footer cell reached;
    so on a document in which nothing is found every field is empty. *)
Theorem C3_decode_error_handling :
  forall (error : Type) (filepathClean : string -> string)
         (osOpen : string -> string + error) (htmlParse : string -> Node + error)
         (path : string),
    match Parser.ParseHTML filepathClean osOpen htmlParse path with
    | (h, rows, f, err) =>
        (err <> None <->
           (exists e, osOpen (filepathClean path) = inr e)
           \/ (exists file e, osOpen (filepathClean path) = inl file /\ htmlParse file = inr e))
        /\ (err <> None ->
              h = replicate 7 EmptyString
              /\ rows = replicate 25 (mkRow (replicate 12 EmptyString))
              /\ f = replicate 4 EmptyString)
        /\ (length h = 7 /\ length rows = 25
             /\ Forall (fun r => length (Col r) = 12) rows /\ length f = 4)
        /\ (forall file doc,
               osOpen (filepathClean path) = inl file -> htmlParse file = inl doc ->
               Parser.collectTh doc = [] -> Parser.collectTr [] doc = [] ->
               Parser.walkFooter [] doc = [] ->
               h = replicate 7 EmptyString
               /\ rows = replicate 25 (mkRow (replicate 12 EmptyString))
               /\ f = replicate 4 EmptyString)
        /\ (forall file doc,
               osOpen (filepathClean path) = inl file -> htmlParse file = inl doc ->
               err = None
               /\ (forall i, i < 7 -> h !! i = Some (foundOrEmpty (headerTexts doc) i))
               /\ (forall i j, i < 25 -> j < 12 ->
                     exists row, rows !! i = Some row
                                 /\ Col row !! j = Some (foundOrEmpty (rowTexts doc i) j))
               /\ (forall i, i < 4 -> f !! i = Some (foundOrEmpty (footerTexts doc) i)))
    end.
Proof.
  intros error clean osOpen htmlParse path. unfold Parser.ParseHTML.
  destruct (osOpen (clean path)) as [file|e] eqn:Hopen.
  - destruct (htmlParse file) as [doc|e] eqn:Hparse.
    + pose proof (decodeDoc_sizes doc) as Hsz.
      pose proof (decodeDoc_closed doc) as Hcl.
      pose proof (decodeDoc_slots doc) as Hsl.
      destruct (Parser.decodeDoc doc) as [[h rows] f].
      split; [|split; [|split; [|split]]].
      * split; [intros H; now contradiction H|].
        intros [[e He]|(file' & e & Hf & He)]; [discriminate|].
        injection Hf as <-. congruence.
      * intros H; now contradiction H.
      * exact Hsz.
      * intros file' doc' [= <-] Hp Hth Htr Hft.
        rewrite Hparse in Hp. injection Hp as <-.
        rewrite Hth, Htr, Hft in Hcl. injection Hcl as -> -> ->.
        now rewrite !padTo_nil.
      * intros file' doc' [= <-] Hp.
        rewrite Hparse in Hp. injection Hp as <-.
        exact (conj eq_refl Hsl).
    + split; [|split; [|split; [|split]]].
      * split; [intros _; right; eauto | discriminate].
      * intros _. repeat split.
      * exact zero_sizes.
      * intros file' doc' [= <-] Hp. congruence.
      * intros file' doc' [= <-] Hp. congruence.
  - split; [|split; [|split; [|split]]].
    + split; [intros _; left; eauto | discriminate].
    + intros _. repeat split.
    + exact zero_sizes.
    + discriminate.
    + discriminate.
Qed.

(** *** Header *)

Lemma scanBr_none (cs : list Node) :
  Forall (fun c => isElem "br" c = false) cs -> Parser.scanBr cs = None.
Proof.
  induction 1 as [|c cs Hc _ IH]; [reflexivity|].
  cbn [Parser.scanBr]. change (Parser.is_ (Some c) "br") with (isElem "br" c).
  now rewrite Hc.
Qed.

Lemma scanBr_first (pre : list Node) (br : Node) (post : list Node) :
  Forall (fun c => isElem "br" c = false) pre -> isElem "br" br = true ->
  Parser.scanBr (pre ++ br :: post) = Some (TrimSpace (Parser.text (head post))).
Proof.
  intros Hpre Hbr. induction Hpre as [|c cs Hc _ IH]; cbn [app Parser.scanBr].
  - change (Parser.is_ (Some br) "br") with (isElem "br" br). now rewrite Hbr.
  - change (Parser.is_ (Some c) "br") with (isElem "br" c). now rewrite Hc.
Qed.

Lemma header_closed (doc : Node) :
  (Parser.decodeDoc doc).1.1 = padTo Parser.HeadCount EmptyString (omap brValue (thCells doc)).
Proof.
  rewrite decodeDoc_closed. cbn [fst]. unfold thCells.
  now rewrite <- (collectTh_preorder doc []).
Qed.

(** C5. The header cells are the th elements in document order.  A th
    without a br child contributes no value and consumes no slot, whatever
    text it holds; a th with a br child contributes the trimmed text of the
    sibling right after its first br; the values fill the header slots in
    document order, and only the first 7 are used. *)
Theorem C5_header_line_break_gating :
  forall doc : Node,
    Parser.collectTh doc = thCells doc
    /\ (Parser.decodeDoc doc).1.1
        = padTo 7 EmptyString (omap brValue (thCells doc))
    /\ (forall th, Forall (fun c => isElem "br" c = false) (Children th) ->
                   brValue th = None)
    /\ (forall th pre br post,
           Children th = pre ++ br :: post ->
           Forall (fun c => isElem "br" c = false) pre -> isElem "br" br = true ->
           brValue th = Some (TrimSpace (Parser.text (head post))))
    /\ (forall before th after idx slots,
           Forall (fun c => isElem "br" c = false) (Children th) ->
           Parser.headerLoop (th :: after) idx slots = Parser.headerLoop after idx slots
           /\ omap brValue (before ++ th :: after) = omap brValue (before ++ after)).
Proof.
  intros doc. split; [|split; [|split; [|split]]].
  - apply collectTh_preorder.
  - apply header_closed.
  - intros th Hth. now apply scanBr_none.
  - intros th pre br post Hkids Hpre Hbr. unfold brValue. rewrite Hkids.
    now apply scanBr_first.
  - intros before th after idx slots Hth. split.
    + cbn [Parser.headerLoop]. rewrite (scanBr_none _ Hth).
      destruct (Parser.HeadCount <=? idx)%nat eqn:E; [|reflexivity].
      destruct after; cbn [Parser.headerLoop]; [reflexivity | now rewrite E].
    + rewrite !omap_app. f_equal. cbn. unfold brValue at 1. now rewrite (scanBr_none _ Hth).
Qed.

(** *** Body rows and footer *)

Lemma rows_closed (doc : Node) :
  (Parser.decodeDoc doc).1.2 = padTo Parser.RowCount Parser.zeroRow (map rowOf (bodyRows doc)).
Proof.
  rewrite decodeDoc_closed. cbn [fst snd]. unfold bodyRows.
  now rewrite <- (collectTr_preorder doc []).
Qed.

Lemma footer_closed (doc : Node) :
  (Parser.decodeDoc doc).2 =
  padTo Parser.FootCount EmptyString
    (map (fun an => Parser.text (Some an.2)) (List.filter reachedCell (preorder [] doc))).
Proof.
  rewrite decodeDoc_closed. cbn [snd].
  now rewrite (walkFooter_preorder doc [] eq_refl).
Qed.

(** Where no tfoot cell lies in a label cell, the cells reached are the
    tfoot cells without colspan. *)
Lemma footer_value_cells (doc : Node) :
  (forall an, In an (preorder [] doc) -> tfootCell an = true -> inLabelCell an.1 = false) ->
  List.filter reachedCell (preorder [] doc) = List.filter valueCell (preorder [] doc).
Proof.
  intros Hno. apply List.filter_ext_in. intros an Hin.
  unfold reachedCell, valueCell.
  destruct (tfootCell an) eqn:Hcell; [|reflexivity].
  rewrite (Hno an Hin Hcell). apply andb_true_r.
Qed.

(** C6, as amended.  The footer slots receive, in document order, the text
    of the first 4 cells that [walkFooter] reaches: the td elements below a
    tfoot that carry no colspan attribute and lie in no tfoot cell that
    carries one.  A tfoot cell with a colspan attribute is never among them,
    wherever it stands; and in a document where no colspan cell of the tfoot
    contains further cells (no td below a tfoot lies in a tfoot td with a
    colspan), these are the first 4 tfoot cells without colspan. *)
Theorem C6_footer_colspan_exclusion :
  forall doc : Node,
    (Parser.decodeDoc doc).2
    = padTo 4 EmptyString
        (map (fun an => Parser.text (Some an.2))
           (take 4 (List.filter reachedCell (preorder [] doc))))
    /\ (forall an, reachedCell an = true ->
                  tfootCell an = true /\ Parser.hasColspan an.2 = false)
    /\ (forall an, tfootCell an = true -> Parser.hasColspan an.2 = true ->
                  reachedCell an = false)
    /\ ((forall an, In an (preorder [] doc) -> tfootCell an = true ->
                    inLabelCell an.1 = false) ->
        (Parser.decodeDoc doc).2
        = padTo 4 EmptyString
            (map (fun an => Parser.text (Some an.2))
               (take 4 (List.filter valueCell (preorder [] doc))))).
Proof.
  intros doc. split; [|split; [|split]].
  - rewrite footer_closed, <- (padTo_take Parser.FootCount).
    now rewrite <- fmap_take.
  - intros an. unfold reachedCell, valueCell.
    destruct (tfootCell an), (Parser.hasColspan an.2); cbn; intuition discriminate.
  - intros an Hcell Hspan. unfold reachedCell, valueCell. now rewrite Hcell, Hspan.
  - intros Hno. rewrite footer_closed, <- (padTo_take Parser.FootCount), <- fmap_take.
    now rewrite (footer_value_cells doc Hno).
Qed.

Lemma no_nested_cells (doc : Node) :
  forallb (fun an => implb (tfootCell an) (negb (inLabelCell an.1))) (preorder [] doc) = true ->
  forall an, In an (preorder [] doc) -> tfootCell an = true -> inLabelCell an.1 = false.
Proof.
  intros H an Hin Hcell. rewrite forallb_forall in H. specialize (H an Hin).
  rewrite Hcell in H. now apply negb_true_iff in H.
Qed.

(** The sample page as the encoder writes it: its label cells hold text and
    no cells, and its three cells with a colspan attribute, the first of the
    row among them, are passed over: the footer slots are the texts of the
    first 4 tfoot cells without colspan, the footer values written. *)
Lemma C6_sample_page_witness :
  (Parser.decodeDoc (Html.parse (Template.render sampleHeader sampleRows sampleFooter))).2
  = padTo 4 EmptyString
      (map (fun an => Parser.text (Some an.2))
         (take 4 (List.filter valueCell
                    (preorder []
                       (Html.parse (Template.render sampleHeader sampleRows sampleFooter))))))
  /\ padTo 4 EmptyString
       (map (fun an => Parser.text (Some an.2))
          (take 4 (List.filter valueCell
                     (preorder []
                        (Html.parse (Template.render sampleHeader sampleRows sampleFooter))))))
     = sampleFooter
  /\ map (fun an => Parser.hasColspan an.2)
       (List.filter tfootCell
          (preorder [] (Html.parse (Template.render sampleHeader sampleRows sampleFooter))))
     = [true; false; false; true; false; false; true; false].
Proof.
  split; [|split; vm_compute; reflexivity].
  apply (proj2 (proj2 (proj2 (C6_footer_colspan_exclusion
                               (Html.parse (Template.render sampleHeader sampleRows
                                              sampleFooter)))))).
  apply no_nested_cells. vm_compute. reflexivity.
Defined.

(** C6 as stated fails: in [nestedLabelDoc] the first tfoot cell without a
    colspan attribute is the cell X inside the label cell, and it is not
    what footer slot 0 receives. *)
Lemma C6_nested_label_counterexample :
  map (fun an => Parser.text (Some an.2))
    (take 4 (List.filter valueCell (preorder [] nestedLabelDoc)))
  = ["X"; "Y"]
  /\ (Parser.decodeDoc nestedLabelDoc).2 = ["Y"; EmptyString; EmptyString; EmptyString]
  /\ (Parser.decodeDoc nestedLabelDoc).2
     <> padTo 4 EmptyString
          (map (fun an => Parser.text (Some an.2))
             (take 4 (List.filter valueCell (preorder [] nestedLabelDoc)))).
Proof.
  split; [|split]; [vm_compute; reflexivity | vm_compute; reflexivity |].
  vm_compute. discriminate.
Qed.

Lemma rowOf_first_cells (tr : Node) :
  Col (rowOf tr)
  = padTo 12 EmptyString
      (map (fun td => Parser.text (Some td)) (take 12 (List.filter (isElem "td") (Children tr)))).
Proof.
  unfold rowOf. cbn [Col]. rewrite <- (padTo_take Parser.FieldCount).
  now rewrite <- fmap_take.
Qed.

(** C7, as amended.  The body rows are the tr elements below a tbody, in
    document order; only the first 25 are decoded, into Row slots 0..24, and
    a document with more of them decodes without an error; of each row only
    the first 12 td children are used.  The footer slots hold the texts of
    the first 4 footer cells reached, in document order: the td elements
    below a tfoot that carry no colspan attribute and lie in no tfoot cell
    that carries one; in a document where no colspan cell of the tfoot
    contains further cells these are the first 4 tfoot cells without
    colspan. *)
Theorem C7_truncation_policy :
  forall doc : Node,
    Parser.collectTr [] doc = bodyRows doc
    /\ (Parser.decodeDoc doc).1.2
       = padTo 25 (mkRow (replicate 12 EmptyString)) (map rowOf (take 25 (bodyRows doc)))
    /\ (25 < length (bodyRows doc) ->
        (Parser.decodeDoc doc).1.2 = map rowOf (take 25 (bodyRows doc)))
    /\ (forall tr,
          Parser.cellLoop (Children tr) 0 Parser.zeroRow = rowOf tr
          /\ Col (rowOf tr)
             = padTo 12 EmptyString
                 (map (fun td => Parser.text (Some td))
                    (take 12 (List.filter (isElem "td") (Children tr)))))
    /\ (Parser.decodeDoc doc).2
       = padTo 4 EmptyString
           (map (fun an => Parser.text (Some an.2))
              (take 4 (List.filter reachedCell (preorder [] doc))))
    /\ (forall an, reachedCell an = true <->
                   tfootCell an = true /\ Parser.hasColspan an.2 = false
                   /\ inLabelCell an.1 = false)
    /\ ((forall an, In an (preorder [] doc) -> tfootCell an = true ->
                    inLabelCell an.1 = false) ->
        (Parser.decodeDoc doc).2
        = padTo 4 EmptyString
            (map (fun an => Parser.text (Some an.2))
               (take 4 (List.filter valueCell (preorder [] doc)))))
    /\ (4 < length (List.filter reachedCell (preorder [] doc)) ->
        (Parser.decodeDoc doc).2
        = map (fun an => Parser.text (Some an.2))
            (take 4 (List.filter reachedCell (preorder [] doc))))
    /\ (forall (error : Type) (filepathClean : string -> string)
               (osOpen : string -> string + error) (htmlParse : string -> Node + error)
               (path file : string),
          osOpen (filepathClean path) = inl file -> htmlParse file = inl doc ->
          Parser.ParseHTML filepathClean osOpen htmlParse path = (Parser.decodeDoc doc, None)).
Proof.
  intros doc.
  assert (Hrows : (Parser.decodeDoc doc).1.2
                  = padTo 25 (mkRow (replicate 12 EmptyString))
                      (map rowOf (take 25 (bodyRows doc)))).
  { rewrite rows_closed, <- (padTo_take Parser.RowCount). now rewrite <- fmap_take. }
  assert (Hfoot : (Parser.decodeDoc doc).2
                  = padTo 4 EmptyString
                      (map (fun an => Parser.text (Some an.2))
                         (take 4 (List.filter reachedCell (preorder [] doc))))).
  { rewrite footer_closed, <- (padTo_take Parser.FootCount). now rewrite <- fmap_take. }
  split; [|split; [|split; [|split; [|split; [|split; [|split; [|split]]]]]]].
  - unfold bodyRows. apply collectTr_preorder.
  - exact Hrows.
  - intros Hlong. rewrite Hrows. rewrite padTo_long.
    + apply take_ge. rewrite length_map, length_take. lia.
    + rewrite length_map, length_take. lia.
  - intros tr. split; [apply cellLoop_rowOf | apply rowOf_first_cells].
  - exact Hfoot.
  - intros an. unfold reachedCell, valueCell.
    destruct (tfootCell an), (Parser.hasColspan an.2), (inLabelCell an.1); cbn;
      intuition discriminate.
  - intros Hno. rewrite Hfoot. now rewrite (footer_value_cells doc Hno).
  - intros Hlong. rewrite Hfoot. rewrite padTo_long.
    + apply take_ge. rewrite length_map, length_take. lia.
    + rewrite length_map, length_take. lia.
  - intros error clean osOpen htmlParse path file Hopen Hparse.
    unfold Parser.ParseHTML. now rewrite Hopen, Hparse.
Qed.

(** A document with 30 body rows of 14 cells each: slots 0..24 hold rows 1
    to 25, cut to 12 cells; rows 26 to 30 are ignored. *)
Lemma C7_thirty_rows_witness :
  25 < length (bodyRows (rowsDoc 30))
  /\ (Parser.decodeDoc (rowsDoc 30)).1.2 = map rowOf (take 25 (bodyRows (rowsDoc 30)))
  /\ map (fun r => head (Col r)) (Parser.decodeDoc (rowsDoc 30)).1.2
     = map (fun i => Some (formatInt (Z.of_nat i))) (seq 1 25)
  /\ Forall (fun r => tail (Col r) = ["b"; "c"; "d"; "e"; "f"; "g"; "h"; "i"; "j"; "k"; "l"])
       (Parser.decodeDoc (rowsDoc 30)).1.2.
Proof.
  assert (Hlong : 25 < length (bodyRows (rowsDoc 30))) by (vm_compute; lia).
  split; [exact Hlong|]. split.
  - exact (proj1 (proj2 (proj2 (C7_truncation_policy (rowsDoc 30)))) Hlong).
  - split; [vm_compute; reflexivity|].
    vm_compute. repeat constructor.
Defined.

(** C7 as stated fails on its footer clause.  [nestedCellsDoc] has 30 body
    rows; the first 4 tfoot cells without a colspan attribute are the cells
    X1 to X4 inside the label cell, and the footer slots receive Y1 to Y4,
    the 4 cells after it. *)
Lemma C7_nested_cells_counterexample :
  25 < length (bodyRows nestedCellsDoc)
  /\ map (fun an => Parser.text (Some an.2))
       (take 4 (List.filter valueCell (preorder [] nestedCellsDoc)))
     = ["X1"; "X2"; "X3"; "X4"]
  /\ (Parser.decodeDoc nestedCellsDoc).2 = ["Y1"; "Y2"; "Y3"; "Y4"]
  /\ (Parser.decodeDoc nestedCellsDoc).2
     <> padTo 4 EmptyString
          (map (fun an => Parser.text (Some an.2))
             (take 4 (List.filter valueCell (preorder [] nestedCellsDoc))))
  /\ map (fun r => head (Col r)) (Parser.decodeDoc nestedCellsDoc).1.2
     = map (fun i => Some (formatInt (Z.of_nat i))) (seq 1 25).
Proof.
  split; [vm_compute; lia|].
  split; [vm_compute; reflexivity|].
  split; [vm_compute; reflexivity|].
  split; [vm_compute; discriminate | vm_compute; reflexivity].
Qed.

(** *** Trimmed fields *)

Lemma scanBr_trimmed (cs : list Node) (v : string) :
  Parser.scanBr cs = Some v -> trimmed v.
Proof.
  induction cs as [|c cs IH]; cbn [Parser.scanBr]; [discriminate|].
  destruct (Parser.is_ (Some c) "br"); [|exact IH].
  intros [= <-]. apply trimmed_TrimSpace.
Qed.

Lemma text_trimmed (n : option Node) : trimmed (Parser.text n).
Proof. destruct n; [apply trimmed_TrimSpace | apply trimmed_empty]. Qed.

Lemma Forall_omap_brValue (ths : list Node) : Forall trimmed (omap brValue ths).
Proof.
  induction ths as [|th ths IH]; [constructor|].
  cbn. destruct (brValue th) as [v|] eqn:E; [|exact IH].
  constructor; [|exact IH]. now apply (scanBr_trimmed (Children th)).
Qed.

Lemma decodeDoc_trimmed (doc : Node) :
  match Parser.decodeDoc doc with
  | (h, rows, f) =>
      Forall trimmed h /\ Forall (fun r => Forall trimmed (Col r)) rows /\ Forall trimmed f
  end.
Proof.
  rewrite decodeDoc_closed. split; [|split].
  - apply Forall_padTo; [apply trimmed_empty | apply Forall_omap_brValue].
  - apply Forall_padTo.
    + apply Forall_replicate, trimmed_empty.
    + apply List.Forall_map, Forall_forall. intros tr _.
      apply Forall_padTo; [apply trimmed_empty|].
      apply List.Forall_map, Forall_forall. intros td _. apply text_trimmed.
  - apply Forall_padTo; [apply trimmed_empty|].
    rewrite (walkFooter_preorder doc [] eq_refl).
    apply List.Forall_map, Forall_forall. intros an _. apply text_trimmed.
Qed.

(** C10. Every header, body and footer field that decode returns is left
    unchanged by TrimSpace: it has no leading or trailing white space.  A
    value that TrimSpace would change is therefore never among the fields
    returned. *)
Theorem C10_decoded_fields_trimmed :
  forall (error : Type) (filepathClean : string -> string)
         (osOpen : string -> string + error) (htmlParse : string -> Node + error)
         (path : string),
    match Parser.ParseHTML filepathClean osOpen htmlParse path with
    | (h, rows, f, err) =>
        (Forall (fun v => TrimSpace v = v) h
         /\ Forall (fun r => Forall (fun v => TrimSpace v = v) (Col r)) rows
         /\ Forall (fun v => TrimSpace v = v) f)
        /\ (forall v, TrimSpace v <> v ->
              ~ In v h /\ (forall r, In r rows -> ~ In v (Col r)) /\ ~ In v f)
    end.
Proof.
  intros error clean osOpen htmlParse path.
  assert (Hall : match Parser.ParseHTML clean osOpen htmlParse path with
                 | (h, rows, f, err) =>
                     Forall trimmed h /\ Forall (fun r => Forall trimmed (Col r)) rows
                     /\ Forall trimmed f
                 end).
  { unfold Parser.ParseHTML.
    assert (Hzero : Forall trimmed Parser.zeroHead
                    /\ Forall (fun r => Forall trimmed (Col r)) Parser.zeroRows
                    /\ Forall trimmed Parser.zeroFoot).
    { repeat split; repeat apply Forall_replicate; apply trimmed_empty. }
    destruct (osOpen (clean path)) as [file|e]; [|exact Hzero].
    destruct (htmlParse file) as [doc|e]; [|exact Hzero].
    pose proof (decodeDoc_trimmed doc) as H.
    now destruct (Parser.decodeDoc doc) as [[h rows] f]. }
  destruct (Parser.ParseHTML clean osOpen htmlParse path) as [[[h rows] f] err].
  destruct Hall as (Hh & Hrows & Hf). split; [now repeat split|].
  intros v Hv. rewrite !Forall_forall in *. repeat split.
  - intros Hin. apply Hv. rewrite <- list_elem_of_In in Hin. exact (Hh v Hin).
  - intros r Hr Hin. apply Hv.
    rewrite <- list_elem_of_In in Hr. rewrite <- list_elem_of_In in Hin.
    specialize (Hrows r Hr). rewrite Forall_forall in Hrows. exact (Hrows v Hin).
  - intros Hin. apply Hv. rewrite <- list_elem_of_In in Hin. exact (Hf v Hin).
Qed.

(** ** Strings *)

Lemma append_cons (x : ascii) (a b : string) : String x a +:+ b = String x (a +:+ b).
Proof. reflexivity. Qed.

Lemma append_nil_l (a : string) : EmptyString +:+ a = a.
Proof. reflexivity. Qed.

Lemma append_assoc (a b c : string) : (a +:+ b) +:+ c = a +:+ (b +:+ c).
Proof.
  induction a as [|x a IH]; [reflexivity|].
  now rewrite !append_cons, IH.
Qed.

Lemma append_nil_r (a : string) : a +:+ EmptyString = a.
Proof.
  induction a as [|x a IH]; [reflexivity|].
  now rewrite append_cons, IH.
Qed.

Create Rewrite HintDb strnorm.
#[local] Hint Rewrite append_cons append_nil_l append_assoc append_nil_r : strnorm.

(** ** The encoder's cell markup *)

Lemma intAdd_small (a b : Z) :
  (- 2 ^ 63 <= a + b < 2 ^ 63)%Z -> intAdd a b = (a + b)%Z.
Proof.
  intros H. unfold intAdd. rewrite Z.mod_small; lia.
Qed.

Lemma eqb_nonempty (v : string) : v <> EmptyString -> String.eqb v EmptyString = false.
Proof. intros H. now apply String.eqb_neq. Qed.

(** C2. For a row index 0..24, a column index 0..11 and a non-empty value,
    wrapCell wraps the escaped value in PersonRef with detlnk dpR{r+1}C5 at
    column 4, in PlaceRef with detlnk dwR{r+1}C{c+1} at columns 1 and 10,
    and in Mark with ref R{r+1}C{c+1} at every other column; an empty value
    gives an empty cell content.  Both copies of wrapCell agree. *)
Theorem C2_column_markup_selection :
  forall (v : string) (r c : Z),
    (0 <= r <= 24)%Z -> (0 <= c <= 11)%Z -> v <> EmptyString ->
    Template.wrapCell v r c
    = (if (c =? 4)%Z
       then elementMarkup "PersonRef" "detlnk" ("dpR" +:+ oneBased r +:+ "C5") (EscapeString v)
       else if ((c =? 1) || (c =? 10))%Z
       then elementMarkup "PlaceRef" "detlnk"
              ("dwR" +:+ oneBased r +:+ "C" +:+ oneBased c) (EscapeString v)
       else elementMarkup "Mark" "ref"
              ("R" +:+ oneBased r +:+ "C" +:+ oneBased c) (EscapeString v))
    /\ Template.wrapCell EmptyString r c = EmptyString
    /\ Main.wrapCell v r c = Template.wrapCell v r c.
Proof.
  intros v r c Hr Hc Hv. split; [|split; reflexivity].
  unfold Template.wrapCell, oneBased. rewrite (eqb_nonempty v Hv).
  rewrite !intAdd_small by lia. cbv zeta.
  assert (Hcases : (c = 0 \/ c = 1 \/ c = 2 \/ c = 3 \/ c = 4 \/ c = 5 \/ c = 6
                    \/ c = 7 \/ c = 8 \/ c = 9 \/ c = 10 \/ c = 11)%Z) by lia.
  unfold elementMarkup.
  repeat (destruct Hcases as [-> | Hcases]); try subst c;
    cbv -[String.append formatInt EscapeString Z.add];
    autorewrite with strnorm; reflexivity.
Qed.

(** Row 24, column 4, and a value with HTML-special characters. *)
Lemma C2_name_cell_witness :
  Template.wrapCell "O'Brien & Sons <Ltd>" 24 4
  = q "<PersonRef detlnk='dpR25C5'>O&#39;Brien &amp; Sons &lt;Ltd&gt;</PersonRef>".
Proof.
  refine (eq_trans (proj1 (C2_column_markup_selection "O'Brien & Sons <Ltd>" 24 4 _ _ _)) _).
  - lia.
  - lia.
  - discriminate.
  - reflexivity.
Defined.

(** ** The reference parser on an encoded page *)

Lemma run_app (p : Html.PState) (a b : string) :
  Html.run p (a +:+ b) = Html.run (Html.run p a) b.
Proof.
  revert p. induction a as [|c a IH]; intros p; [reflexivity|].
  rewrite append_cons. cbn [Html.run]. apply IH.
Qed.

Lemma strAll_app (P : ascii -> bool) (a b : string) :
  strAll P (a +:+ b) = strAll P a && strAll P b.
Proof.
  induction a as [|c a IH]; [reflexivity|].
  rewrite append_cons. cbn [strAll]. now rewrite IH, andb_assoc.
Qed.

(** Text without [<] is read into the pending text. *)
Lemma run_data (raw : string) (stk : list Html.Frame) (s : string) :
  strAll (isNot "<") s = true ->
  Html.run (Html.SData raw, stk) s = (Html.SData (raw +:+ s), stk).
Proof.
  revert raw. induction s as [|c s IH]; intros raw H.
  - now rewrite append_nil_r.
  - cbn [strAll] in H. apply andb_true_iff in H as [Hc Hs].
    cbn [Html.run]. unfold Html.feed. cbn [fst snd Html.tstep].
    unfold isNot in Hc. apply negb_true_iff in Hc. rewrite Hc.
    cbn [fold_left]. rewrite (IH _ Hs). unfold Html.snoc.
    now rewrite append_assoc.
Qed.

(** Inside a double-quoted attribute value, bytes other than the quote
    are read into the value. *)
Lemma run_value (cl : bool) (name : string) (attrs : list Attribute) (key val : string)
    (stk : list Html.Frame) (s : string) :
  strAll (isNot dquote) s = true ->
  Html.run (Html.SValue (Some dquote) cl name attrs key val, stk) s
  = (Html.SValue (Some dquote) cl name attrs key (val +:+ s), stk).
Proof.
  revert val. induction s as [|c s IH]; intros val H.
  - now rewrite append_nil_r.
  - cbn [strAll] in H. apply andb_true_iff in H as [Hc Hs].
    cbn [Html.run]. unfold Html.feed. cbn [fst snd Html.tstep].
    unfold isNot in Hc. apply negb_true_iff in Hc. rewrite Hc.
    cbn [fold_left]. rewrite (IH _ Hs). unfold Html.snoc.
    now rewrite append_assoc.
Qed.

Lemma EscapeString_no_lt (v : string) : strAll (isNot "<") (EscapeString v) = true.
Proof.
  induction v as [|c v IH]; [reflexivity|].
  cbn [EscapeString]. rewrite strAll_app, IH, andb_true_r. unfold escapeByte.
  repeat match goal with
         | |- context [Ascii.eqb c ?x] => destruct (Ascii.eqb c x) eqn:?; [reflexivity|]
         end.
  cbn [strAll]. unfold isNot. now rewrite Heqb1.
Qed.

Lemma htmlEscaper_no_lt (v : string) : strAll (isNot "<") (htmlEscaper v) = true.
Proof.
  induction v as [|c v IH]; [reflexivity|].
  cbn [htmlEscaper]. rewrite strAll_app, IH, andb_true_r. unfold htmlReplacement.
  repeat match goal with
         | |- context [Ascii.eqb c ?x] => destruct (Ascii.eqb c x) eqn:?; [reflexivity|]
         end.
  cbn [strAll]. unfold isNot. now rewrite Heqb4.
Qed.

Lemma uint_all (P : ascii -> bool) (d : Decimal.uint) :
  strAll P "0123456789-" = true -> strAll P (NilEmpty.string_of_uint d) = true.
Proof.
  intros H. cbn [strAll] in H.
  repeat (apply andb_true_iff in H as [? H]).
  induction d; cbn [NilEmpty.string_of_uint strAll]; rewrite ?IHd, ?andb_true_r; auto.
Qed.

(** A decimal numeral holds digits and at most a sign. *)
Lemma formatInt_all (P : ascii -> bool) (n : Z) :
  strAll P "0123456789-" = true -> strAll P (formatInt n) = true.
Proof.
  intros H. unfold formatInt, NilZero.string_of_int, NilZero.string_of_uint.
  pose proof (uint_all P) as Hu. specialize (fun d => Hu d H).
  cbn [strAll] in H. repeat (apply andb_true_iff in H as [? H]).
  destruct (Z.to_int n) as [d|d]; destruct d; cbn [strAll];
    rewrite ?(Hu (Decimal.D0 _)), ?(Hu (Decimal.D1 _)), ?(Hu (Decimal.D2 _)),
      ?(Hu (Decimal.D3 _)), ?(Hu (Decimal.D4 _)), ?(Hu (Decimal.D5 _)),
      ?(Hu (Decimal.D6 _)), ?(Hu (Decimal.D7 _)), ?(Hu (Decimal.D8 _)),
      ?(Hu (Decimal.D9 _)), ?andb_true_r, ?H0, ?H10; auto.
Qed.

Lemma unescapeFrom_no_amp (s : string) :
  strAll (isNot "&") s = true -> Html.unescapeFrom 0 s = s.
Proof.
  induction s as [|c s IH]; [reflexivity|].
  cbn [strAll Html.unescapeFrom]. intros H. apply andb_true_iff in H as [Hc Hs].
  unfold isNot in Hc. apply negb_true_iff in Hc. rewrite Hc. now rewrite (IH Hs).
Qed.

Lemma header_lit (i : nat) (raw : string) (a : list Attribute) (kids K : list Node)
    (stk : list Html.Frame) :
  i < 6 ->
  Html.run (Html.SData raw, openElem "th" a kids :: openElem "tr" [] K :: stk) (headerLit i)
  = (Html.SData (nth (S i) headerLabels EmptyString),
     thFrame
     :: openElem "tr" []
          (textNode (ws 6)
           :: element "th" a (rev (Html.mergeText kids (Html.decodeText raw))) :: K)
     :: stk).
Proof.
  intros Hi.
  do 6 (destruct i as [|i]; [vm_compute; reflexivity|]). lia.
Qed.

Lemma run_prefix :
  Html.run Html.start (litAt Template.pageTmpl 0)
  = (Html.SData (nth 0 headerLabels EmptyString),
     thFrame
     :: openElem "tr" [] [textNode (ws 6)]
     :: openElem "thead" [] [textNode (ws 4); titleRow; textNode (ws 4)]
     :: openElem "table" tableAttrs [textNode (ws 2); colgroupTree; textNode (ws 2)]
     :: bodyCtx).
Proof. vm_compute. reflexivity. Qed.

Lemma mergeText_empty (kids : list Node) : Html.mergeText kids EmptyString = kids.
Proof. reflexivity. Qed.

Lemma mergeText_fresh (kids : list Node) (d : string) :
  elemOnTop kids -> String.eqb d EmptyString = false ->
  Html.mergeText kids d = textNode d :: kids.
Proof.
  intros Htop Hd. unfold Html.mergeText. rewrite Hd.
  destruct kids as [|k kids]; [reflexivity|]. cbn in Htop. now rewrite Htop.
Qed.

Lemma rev_mergeText (kids : list Node) (d : string) :
  elemOnTop kids -> rev (Html.mergeText kids d) = rev kids ++ Html.mergeText [] d.
Proof.
  intros Htop. unfold Html.mergeText.
  destruct (String.eqb d EmptyString); [now rewrite app_nil_r|].
  destruct kids as [|k kids]; [reflexivity|]. cbn in Htop. now rewrite Htop.
Qed.

Lemma rev_textNodes (raw : string) : rev (textNodes raw) = textNodes raw.
Proof. unfold textNodes, Html.mergeText. now destruct (String.eqb _ _). Qed.

(** *** The header row *)

Lemma headerCell_empty (i : nat) (a : list Attribute) :
  i < 7 ->
  element "th" [attr "style" "line-height:5em; padding-bottom:2em;"]
    (rev (Html.mergeText [] (Html.decodeText (nth i headerLabels EmptyString))))
  = headerCell (nth i headerLabels EmptyString) EmptyString.
Proof.
  intros Hi. do 7 (destruct i as [|i]; [vm_compute; reflexivity|]). lia.
Qed.

Lemma header_br (i : nat) (stk : list Html.Frame) :
  i < 7 ->
  Html.run (Html.SData (nth i headerLabels EmptyString), thFrame :: stk) "<br>"
  = (Html.SData EmptyString,
     openElem "th" [attr "style" "line-height:5em; padding-bottom:2em;"]
       [element "br" [] []; textNode (nth i headerLabels EmptyString)]
     :: stk).
Proof.
  intros Hi. do 7 (destruct i as [|i]; [vm_compute; reflexivity|]). lia.
Qed.

(** What the header value leaves behind: pending text and children of the
    open th. *)
Lemma header_value (i : nat) (v : string) (stk : list Html.Frame) :
  i < 7 ->
  exists raw kids,
    Html.run (Html.SData (nth i headerLabels EmptyString), thFrame :: stk)
      (Template.headerVal v)
    = (Html.SData raw,
       openElem "th" [attr "style" "line-height:5em; padding-bottom:2em;"] kids :: stk)
    /\ element "th" [attr "style" "line-height:5em; padding-bottom:2em;"]
         (rev (Html.mergeText kids (Html.decodeText raw)))
       = headerCell (nth i headerLabels EmptyString) v.
Proof.
  intros Hi. unfold Template.headerVal, headerCell.
  destruct (String.eqb v EmptyString) eqn:Hv.
  - exists (nth i headerLabels EmptyString), []. split; [reflexivity|].
    rewrite (headerCell_empty i [] Hi). reflexivity.
  - exists (EscapeString v), [element "br" [] []; textNode (nth i headerLabels EmptyString)].
    split.
    + rewrite run_app, (header_br i stk Hi), run_data by apply EscapeString_no_lt.
      reflexivity.
    + rewrite rev_mergeText by reflexivity. reflexivity.
Qed.

Lemma header_step (i : nat) (v : string) (K : list Node) (stk : list Html.Frame) :
  i < 6 ->
  Html.run (Html.SData (nth i headerLabels EmptyString),
            thFrame :: openElem "tr" [] K :: stk)
    (Template.headerVal v +:+ headerLit i)
  = (Html.SData (nth (S i) headerLabels EmptyString),
     thFrame
     :: openElem "tr" []
          (textNode (ws 6) :: headerCell (nth i headerLabels EmptyString) v :: K)
     :: stk).
Proof.
  intros Hi.
  destruct (header_value i v (openElem "tr" [] K :: stk)) as (raw & kids & Hrun & Hcell);
    [lia|].
  rewrite run_app, Hrun, header_lit by exact Hi. now rewrite Hcell.
Qed.

Lemma thead_lit (raw : string) (a ta : list Attribute) (kids K K2 K3 : list Node)
    (stk : list Html.Frame) :
  Html.run (Html.SData raw,
            openElem "th" a kids :: openElem "tr" [] K :: openElem "thead" [] K2
            :: openElem "table" ta K3 :: stk)
    (litAt Template.pageTmpl 14)
  = (Html.SData (ws 4),
     openElem "tbody" [] []
     :: openElem "table" ta
          (textNode (ws 2)
           :: element "thead" []
                (rev (textNode (ws 2) :: element "tr" [] columnHeads :: textNode (ws 4)
                      :: element "tr" []
                           (rev (textNode (ws 4)
                                 :: element "th" a
                                      (rev (Html.mergeText kids (Html.decodeText raw)))
                                 :: K))
                      :: K2))
           :: K3)
     :: stk).
Proof. vm_compute. reflexivity. Qed.

Lemma header_last (v : string) (ta : list Attribute) (K K2 K3 : list Node)
    (stk : list Html.Frame) :
  Html.run (Html.SData (nth 6 headerLabels EmptyString),
            thFrame :: openElem "tr" [] K :: openElem "thead" [] K2
            :: openElem "table" ta K3 :: stk)
    (Template.headerVal v +:+ litAt Template.pageTmpl 14)
  = (Html.SData (ws 4),
     openElem "tbody" [] []
     :: openElem "table" ta
          (textNode (ws 2)
           :: element "thead" []
                (rev (textNode (ws 2) :: element "tr" [] columnHeads :: textNode (ws 4)
                      :: element "tr" []
                           (rev (textNode (ws 4)
                                 :: headerCell (nth 6 headerLabels EmptyString) v :: K))
                      :: K2))
           :: K3)
     :: stk).
Proof.
  destruct (header_value 6 v (openElem "tr" [] K :: openElem "thead" [] K2
                              :: openElem "table" ta K3 :: stk))
    as (raw & kids & Hrun & Hcell); [lia|].
  rewrite run_app, Hrun, thead_lit. now rewrite Hcell.
Qed.

(** *** The body rows *)

Lemma td_open (K : list Node) (stk : list Html.Frame) :
  Html.run (Html.SData EmptyString, openElem "tr" [] K :: stk) "<td>"
  = (Html.SData EmptyString, openElem "td" [] [] :: openElem "tr" [] K :: stk).
Proof. vm_compute. reflexivity. Qed.

Lemma td_close (kids K : list Node) (stk : list Html.Frame) :
  Html.run (Html.SData EmptyString, openElem "td" [] kids :: openElem "tr" [] K :: stk) "</td>"
  = (Html.SData EmptyString, openElem "tr" [] (element "td" [] (rev kids) :: K) :: stk).
Proof. vm_compute. reflexivity. Qed.

(** The start tag of a wrapper up to its attribute value, and from the
    closing quote on. *)
Lemma wrapper_open (stk : list Html.Frame) :
  Html.run (Html.SData EmptyString, openElem "td" [] [] :: stk) (q "<PersonRef detlnk='dpR")
  = (Html.SValue (Some dquote) false "personref" [] "detlnk" "dpR", openElem "td" [] [] :: stk)
  /\ Html.run (Html.SData EmptyString, openElem "td" [] [] :: stk) (q "<PlaceRef detlnk='dwR")
     = (Html.SValue (Some dquote) false "placeref" [] "detlnk" "dwR", openElem "td" [] [] :: stk)
  /\ Html.run (Html.SData EmptyString, openElem "td" [] [] :: stk) (q "<Mark ref='R")
     = (Html.SValue (Some dquote) false "mark" [] "ref" "R", openElem "td" [] [] :: stk).
Proof. repeat split; vm_compute; reflexivity. Qed.

Lemma wrapper_value_end (val : string) (stk : list Html.Frame) :
  Html.run (Html.SValue (Some dquote) false "personref" [] "detlnk" val, stk) (q "'>")
  = (Html.SData EmptyString,
     openElem "personref" [attr "detlnk" (Html.unescape val)] [] :: stk)
  /\ Html.run (Html.SValue (Some dquote) false "placeref" [] "detlnk" val, stk) (q "'>")
     = (Html.SData EmptyString,
        openElem "placeref" [attr "detlnk" (Html.unescape val)] [] :: stk)
  /\ Html.run (Html.SValue (Some dquote) false "mark" [] "ref" val, stk) (q "'>")
     = (Html.SData EmptyString, openElem "mark" [attr "ref" (Html.unescape val)] [] :: stk).
Proof. repeat split; vm_compute; reflexivity. Qed.

Lemma wrapper_close (raw : string) (a : list Attribute) (stk : list Html.Frame) :
  Html.run (Html.SData raw, openElem "personref" a [] :: openElem "td" [] [] :: stk)
    "</PersonRef>"
  = (Html.SData EmptyString,
     openElem "td" [] [element "personref" a (textNodes raw)] :: stk)
  /\ Html.run (Html.SData raw, openElem "placeref" a [] :: openElem "td" [] [] :: stk)
       "</PlaceRef>"
     = (Html.SData EmptyString,
        openElem "td" [] [element "placeref" a (textNodes raw)] :: stk)
  /\ Html.run (Html.SData raw, openElem "mark" a [] :: openElem "td" [] [] :: stk) "</Mark>"
     = (Html.SData EmptyString,
        openElem "td" [] [element "mark" a (textNodes raw)] :: stk).
Proof.
  rewrite <- (rev_textNodes raw). repeat split; vm_compute; reflexivity.
Qed.

Lemma rowcol_chars (x : ascii) (pre : string) (r c : Z) :
  strAll (isNot x) "0123456789-" = true -> strAll (isNot x) pre = true ->
  isNot x "C" = true ->
  strAll (isNot x) (pre +:+ (formatInt r +:+ ("C" +:+ formatInt c))) = true.
Proof.
  intros Hd Hpre HC.
  rewrite !strAll_app, Hpre, !formatInt_all by exact Hd.
  cbn [strAll]. now rewrite HC.
Qed.

Lemma regroup (r c rest : string) :
  r +:+ ("C" +:+ (c +:+ rest)) = (r +:+ ("C" +:+ c)) +:+ rest.
Proof. now rewrite !append_assoc. Qed.

Ltac wrapper_case open_eq end_eq close_eq :=
  rewrite run_app, open_eq;
  rewrite regroup, run_app, run_value
    by exact (rowcol_chars dquote EmptyString _ _ eq_refl eq_refl eq_refl);
  rewrite run_app, end_eq;
  rewrite run_app, run_data by apply EscapeString_no_lt;
  rewrite close_eq;
  unfold Html.unescape; rewrite unescapeFrom_no_amp
    by (apply (rowcol_chars "&"); reflexivity);
  reflexivity.

(** The content of one body cell. *)
Lemma cell_content (v : string) (ri ci : Z) (stk : list Html.Frame) :
  Html.run (Html.SData EmptyString, openElem "td" [] [] :: stk) (Template.wrapCell v ri ci)
  = (Html.SData EmptyString,
     openElem "td" []
       (if String.eqb v EmptyString then []
        else [wrapper ri ci (textNodes (EscapeString v))])
     :: stk).
Proof.
  unfold Template.wrapCell, wrapper.
  destruct (String.eqb v EmptyString); [reflexivity|]. cbv zeta.
  set (r := formatInt (intAdd ri 1)). set (c := formatInt (intAdd ci 1)).
  set (e := EscapeString v).
  destruct (wrapper_open stk) as (Ho1 & Ho2 & Ho3).
  destruct (ci =? 4)%Z; [|destruct ((ci =? 1) || (ci =? 10))%Z].
  - replace (Sprintf _ _)
      with (q "<PersonRef detlnk='dpR" +:+ (r +:+ ("C" +:+ (c +:+ (q "'>" +:+ (e +:+ "</PersonRef>"))))))
      by reflexivity.
    destruct (wrapper_value_end ("dpR" +:+ (r +:+ ("C" +:+ c))) (openElem "td" [] [] :: stk))
      as (He & _ & _).
    destruct (wrapper_close (EmptyString +:+ e)
                [attr "detlnk" (Html.unescape ("dpR" +:+ (r +:+ ("C" +:+ c))))] stk)
      as (Hc & _ & _).
    subst r c e. wrapper_case Ho1 He Hc.
  - replace (Sprintf _ _)
      with (q "<PlaceRef detlnk='dwR" +:+ (r +:+ ("C" +:+ (c +:+ (q "'>" +:+ (e +:+ "</PlaceRef>"))))))
      by reflexivity.
    destruct (wrapper_value_end ("dwR" +:+ (r +:+ ("C" +:+ c))) (openElem "td" [] [] :: stk))
      as (_ & He & _).
    destruct (wrapper_close (EmptyString +:+ e)
                [attr "detlnk" (Html.unescape ("dwR" +:+ (r +:+ ("C" +:+ c))))] stk)
      as (_ & Hc & _).
    subst r c e. wrapper_case Ho2 He Hc.
  - replace (Sprintf _ _)
      with (q "<Mark ref='R" +:+ (r +:+ ("C" +:+ (c +:+ (q "'>" +:+ (e +:+ "</Mark>"))))))
      by reflexivity.
    destruct (wrapper_value_end ("R" +:+ (r +:+ ("C" +:+ c))) (openElem "td" [] [] :: stk))
      as (_ & _ & He).
    destruct (wrapper_close (EmptyString +:+ e)
                [attr "ref" (Html.unescape ("R" +:+ (r +:+ ("C" +:+ c))))] stk)
      as (_ & _ & Hc).
    subst r c e. wrapper_case Ho3 He Hc.
Qed.

Lemma row_cells (cols : list string) (ri : Z) (ci : nat) (K : list Node)
    (stk : list Html.Frame) :
  Html.run (Html.SData EmptyString, openElem "tr" [] K :: stk)
    (rangeCols Template.wrapCell cellBody ri ci cols)
  = (Html.SData EmptyString, openElem "tr" [] (rev (bodyCells ri ci cols) ++ K) :: stk).
Proof.
  revert ci K. induction cols as [|v cols IH]; intros ci K; [reflexivity|].
  cbn [rangeCols bodyCells rev].
  replace (concatStr (map (execCell Template.wrapCell v ri (Z.of_nat ci)) cellBody))
    with ("<td>" +:+ (Template.wrapCell v ri (Z.of_nat ci) +:+ "</td>")) by reflexivity.
  rewrite !run_app, td_open, cell_content, td_close, IH, <- app_assoc.
  unfold bodyCell. now destruct (String.eqb v EmptyString).
Qed.

Lemma tr_open (K : list Node) (stk : list Html.Frame) :
  Html.run (Html.SData (ws 4), openElem "tbody" [] K :: stk) rowOpen
  = (Html.SData EmptyString,
     openElem "tr" [] [] :: openElem "tbody" [] (Html.mergeText K (ws 4 +:+ ws 4)) :: stk).
Proof. vm_compute. reflexivity. Qed.

Lemma tr_close (C K : list Node) (stk : list Html.Frame) :
  Html.run (Html.SData EmptyString, openElem "tr" [] C :: openElem "tbody" [] K :: stk) rowClose
  = (Html.SData (ws 4), openElem "tbody" [] (element "tr" [] (rev C) :: K) :: stk).
Proof. vm_compute. reflexivity. Qed.

Lemma body_row (row : Row) (ri : nat) (K : list Node) (stk : list Html.Frame) :
  elemOnTop K ->
  Html.run (Html.SData (ws 4), openElem "tbody" [] K :: stk)
    (rowOpen +:+ (rangeCols Template.wrapCell cellBody (Z.of_nat ri) 0 (Col row) +:+ rowClose))
  = (Html.SData (ws 4),
     openElem "tbody" [] (bodyRow ri row :: textNode (ws 4 +:+ ws 4) :: K) :: stk).
Proof.
  intros Htop.
  rewrite !run_app, tr_open, row_cells, tr_close, (mergeText_fresh K) by (exact Htop || reflexivity).
  now rewrite app_nil_r, rev_involutive.
Qed.

Lemma body_rows (rows : list Row) (ri : nat) (K : list Node) (stk : list Html.Frame) :
  elemOnTop K ->
  Html.run (Html.SData (ws 4), openElem "tbody" [] K :: stk)
    (rangeRows Template.wrapCell (rowsBody Template.pageTmpl 15) ri rows)
  = (Html.SData (ws 4), openElem "tbody" [] (rev (bodyRowNodes ri rows) ++ K) :: stk)
  /\ elemOnTop (rev (bodyRowNodes ri rows) ++ K).
Proof.
  revert ri K. induction rows as [|row rows IH]; intros ri K Htop; [now split|].
  cbn [rangeRows bodyRowNodes rev].
  replace (concatStr (map (execRow Template.wrapCell row (Z.of_nat ri))
                        (rowsBody Template.pageTmpl 15)))
    with (rowOpen +:+ (rangeCols Template.wrapCell cellBody (Z.of_nat ri) 0 (Col row)
                       +:+ rowClose)) by reflexivity.
  rewrite run_app, (body_row row ri K stk Htop).
  destruct (IH (S ri) (bodyRow ri row :: textNode (ws 4 +:+ ws 4) :: K) eq_refl) as [Hrun Htop'].
  rewrite Hrun, <- !app_assoc. split; [reflexivity | exact Htop'].
Qed.

(** *** The footer row and the end of the document *)

Lemma foot_open (K K3 : list Node) (ta : list Attribute) (stk : list Html.Frame) :
  Html.run (Html.SData (ws 4), openElem "tbody" [] K :: openElem "table" ta K3 :: stk)
    (litAt Template.pageTmpl 16)
  = (Html.SData EmptyString,
     openElem "td" [] []
     :: openElem "tr" [] [textNode (ws 6); housesLabel; textNode (ws 6)]
     :: openElem "tfoot" [] [textNode (ws 4)]
     :: openElem "table" ta
          (textNode (ws 2 +:+ ws 2)
           :: element "tbody" [] (rev (Html.mergeText K (ws 4 +:+ ws 2))) :: K3)
     :: stk).
Proof. vm_compute. reflexivity. Qed.

Lemma foot_lit (i : nat) (raw : string) (kids K : list Node) (stk : list Html.Frame) :
  i < 3 ->
  Html.run (Html.SData raw, openElem "td" [] kids :: openElem "tr" [] K :: stk) (footerLit i)
  = (Html.SData EmptyString,
     openElem "td" [] []
     :: openElem "tr" []
          (footerBetween i
           ++ element "td" [] (rev (Html.mergeText kids (Html.decodeText raw))) :: K)
     :: stk).
Proof.
  intros Hi. do 3 (destruct i as [|i]; [vm_compute; reflexivity|]). lia.
Qed.

Lemma foot_step (i : nat) (v : string) (K : list Node) (stk : list Html.Frame) :
  i < 3 ->
  Html.run
    (Html.run (Html.SData EmptyString, openElem "td" [] [] :: openElem "tr" [] K :: stk)
       (htmlEscaper v))
    (footerLit i)
  = (Html.SData EmptyString,
     openElem "td" [] []
     :: openElem "tr" [] (footerBetween i ++ footCell v :: K)
     :: stk).
Proof.
  intros Hi. rewrite run_data by apply htmlEscaper_no_lt.
  rewrite foot_lit by exact Hi. unfold footCell.
  change (Html.mergeText [] (Html.decodeText (EmptyString +:+ htmlEscaper v)))
    with (textNodes (htmlEscaper v)).
  now rewrite rev_textNodes.
Qed.

Lemma finish_suffix (raw : string) (kids K K2 K3 : list Node) :
  Html.finish
    (Html.run
       (Html.SData raw,
        openElem "td" [] kids :: openElem "tr" [] K :: openElem "tfoot" [] K2
        :: openElem "table" tableAttrs K3 :: bodyCtx)
       (litAt Template.pageTmpl 24))
  = mkNode DocumentNode EmptyString []
      [ doctypeNode;
        element "html" [attr "lang" "en"]
          [ headTree;
            textNode (ws 0);
            element "body" []
              [ textNode (ws 0 +:+ ws 0);
                element "table" tableAttrs
                  (rev (textNode (ws 0)
                        :: element "tfoot" []
                             (rev (textNode (ws 2)
                                   :: element "tr" []
                                        (rev (textNode (ws 4)
                                              :: element "td" [] []
                                              :: element "td" [attr "colspan" "2"] []
                                              :: textNode (ws 6)
                                              :: element "td" []
                                                   (rev (Html.mergeText kids
                                                           (Html.decodeText raw)))
                                              :: K))
                                   :: K2))
                        :: K3));
                textNode (ws 0 +:+ ws 0) ] ] ].
Proof. vm_compute. reflexivity. Qed.

Lemma render_pieces (h : list string) (rows : list Row) (f : list string) :
  Template.render h rows f
  = litAt Template.pageTmpl 0
    +:+ (Template.headerVal (nth 0 h EmptyString) +:+ (headerLit 0
    +:+ (Template.headerVal (nth 1 h EmptyString) +:+ (headerLit 1
    +:+ (Template.headerVal (nth 2 h EmptyString) +:+ (headerLit 2
    +:+ (Template.headerVal (nth 3 h EmptyString) +:+ (headerLit 3
    +:+ (Template.headerVal (nth 4 h EmptyString) +:+ (headerLit 4
    +:+ (Template.headerVal (nth 5 h EmptyString) +:+ (headerLit 5
    +:+ (Template.headerVal (nth 6 h EmptyString) +:+ (litAt Template.pageTmpl 14
    +:+ (rangeRows Template.wrapCell (rowsBody Template.pageTmpl 15) 0 rows
    +:+ (litAt Template.pageTmpl 16
    +:+ (htmlEscaper (nth 0 f EmptyString) +:+ (footerLit 0
    +:+ (htmlEscaper (nth 1 f EmptyString) +:+ (footerLit 1
    +:+ (htmlEscaper (nth 2 f EmptyString) +:+ (footerLit 2
    +:+ (htmlEscaper (nth 3 f EmptyString)
    +:+ litAt Template.pageTmpl 24))))))))))))))))))))))).
Proof.
  rewrite <- (append_nil_r (litAt Template.pageTmpl 24)).
  cbv beta iota zeta delta
    [Template.render Execute map execAction concatStr Template.pageTmpl Header Rows Footer
     headerLit footerLit litAt rowsBody nth Nat.mul Nat.add].
  reflexivity.
Qed.

Lemma header_step2 (i : nat) (v : string) (K : list Node) (stk : list Html.Frame) :
  i < 6 ->
  Html.run
    (Html.run (Html.SData (nth i headerLabels EmptyString),
               thFrame :: openElem "tr" [] K :: stk)
       (Template.headerVal v))
    (headerLit i)
  = (Html.SData (nth (S i) headerLabels EmptyString),
     thFrame
     :: openElem "tr" []
          (textNode (ws 6) :: headerCell (nth i headerLabels EmptyString) v :: K)
     :: stk).
Proof. intros Hi. rewrite <- run_app. now apply header_step. Qed.

(** The reference parser builds [pageTree] from the encoded page. *)
Lemma parse_render (h : list string) (rows : list Row) (f : list string) :
  Html.parse (Template.render h rows f) = pageTree h rows f.
Proof.
  unfold Html.parse. rewrite render_pieces, !run_app, run_prefix.
  rewrite (header_step2 0), (header_step2 1), (header_step2 2), (header_step2 3),
    (header_step2 4), (header_step2 5) by lia.
  rewrite <- (run_app _ (Template.headerVal _)), header_last.
  destruct (body_rows rows 0 []
              (openElem "table" tableAttrs
                 (textNode (ws 2)
                  :: element "thead" []
                       (rev (textNode (ws 2) :: element "tr" [] columnHeads :: textNode (ws 4)
                             :: element "tr" []
                                  (rev (textNode (ws 4)
                                        :: headerCell (nth 6 headerLabels EmptyString)
                                             (nth 6 h EmptyString)
                                        :: textNode (ws 6)
                                        :: headerCell (nth 5 headerLabels EmptyString)
                                             (nth 5 h EmptyString)
                                        :: textNode (ws 6)
                                        :: headerCell (nth 4 headerLabels EmptyString)
                                             (nth 4 h EmptyString)
                                        :: textNode (ws 6)
                                        :: headerCell (nth 3 headerLabels EmptyString)
                                             (nth 3 h EmptyString)
                                        :: textNode (ws 6)
                                        :: headerCell (nth 2 headerLabels EmptyString)
                                             (nth 2 h EmptyString)
                                        :: textNode (ws 6)
                                        :: headerCell (nth 1 headerLabels EmptyString)
                                             (nth 1 h EmptyString)
                                        :: textNode (ws 6)
                                        :: headerCell (nth 0 headerLabels EmptyString)
                                             (nth 0 h EmptyString)
                                        :: [textNode (ws 6)]))
                             :: [textNode (ws 4); titleRow; textNode (ws 4)]))
                  :: [textNode (ws 2); colgroupTree; textNode (ws 2)])
               :: bodyCtx) I) as [Hrows Htop].
  rewrite Hrows, foot_open.
  rewrite (foot_step 0), (foot_step 1), (foot_step 2) by lia.
  rewrite run_data by apply htmlEscaper_no_lt.
  rewrite finish_suffix.
  rewrite (rev_mergeText (rev (bodyRowNodes 0 rows) ++ [])) by exact Htop.
  rewrite app_nil_r, rev_involutive.
  change (Html.mergeText [] (Html.decodeText (EmptyString +:+ htmlEscaper (nth 3 f EmptyString))))
    with (textNodes (htmlEscaper (nth 3 f EmptyString))).
  rewrite rev_textNodes. reflexivity.
Qed.

(** ** Escaping and unescaping *)

Lemma unescape_refs (s : string) :
  Html.unescapeFrom 0 ("&amp;" +:+ s) = String "&" (Html.unescapeFrom 0 s)
  /\ Html.unescapeFrom 0 ("&#39;" +:+ s) = String "'" (Html.unescapeFrom 0 s)
  /\ Html.unescapeFrom 0 ("&lt;" +:+ s) = String "<" (Html.unescapeFrom 0 s)
  /\ Html.unescapeFrom 0 ("&gt;" +:+ s) = String ">" (Html.unescapeFrom 0 s)
  /\ Html.unescapeFrom 0 ("&#34;" +:+ s) = String dquote (Html.unescapeFrom 0 s)
  /\ Html.unescapeFrom 0 ("&#43;" +:+ s) = String "+" (Html.unescapeFrom 0 s).
Proof. repeat split; vm_compute; reflexivity. Qed.

Lemma unescape_other (c : ascii) (s : string) :
  Ascii.eqb c "&" = false ->
  Html.unescapeFrom 0 (String c s) = String c (Html.unescapeFrom 0 s).
Proof. intros H. cbn [Html.unescapeFrom]. now rewrite H. Qed.

(** Unescaping undoes [html.EscapeString]. *)
Lemma unescape_EscapeString (v : string) : Html.unescape (EscapeString v) = v.
Proof.
  unfold Html.unescape. induction v as [|c v IH]; [reflexivity|].
  cbn [EscapeString]. unfold escapeByte.
  destruct (unescape_refs (EscapeString v)) as (Ha & Hq & Hl & Hg & Hd & _).
  destruct (Ascii.eqb_spec c "&") as [->|Hamp]; [now rewrite Ha, IH|].
  destruct (Ascii.eqb_spec c "'") as [->|_]; [now rewrite Hq, IH|].
  destruct (Ascii.eqb_spec c "<") as [->|_]; [now rewrite Hl, IH|].
  destruct (Ascii.eqb_spec c ">") as [->|_]; [now rewrite Hg, IH|].
  destruct (Ascii.eqb_spec c dquote) as [->|_]; [now rewrite Hd, IH|].
  rewrite append_cons, append_nil_l, unescape_other, IH; [reflexivity|].
  now apply Ascii.eqb_neq.
Qed.

(** Unescaping undoes the template's escaper, NUL apart. *)
Lemma unescape_htmlEscaper (v : string) :
  strAll (isNot Html.NUL) v = true -> Html.unescape (htmlEscaper v) = v.
Proof.
  unfold Html.unescape. induction v as [|c v IH]; [reflexivity|].
  cbn [htmlEscaper strAll]. intros H. apply andb_true_iff in H as [Hc Hv].
  specialize (IH Hv). unfold htmlReplacement.
  destruct (unescape_refs (htmlEscaper v)) as (Ha & Hq & Hl & Hg & Hd & Hp).
  unfold isNot in Hc. apply negb_true_iff in Hc.
  change (byte 0) with Html.NUL. rewrite Hc.
  destruct (Ascii.eqb_spec c dquote) as [->|_]; [now rewrite Hd, IH|].
  destruct (Ascii.eqb_spec c "&") as [->|Hamp]; [now rewrite Ha, IH|].
  destruct (Ascii.eqb_spec c "'") as [->|_]; [now rewrite Hq, IH|].
  destruct (Ascii.eqb_spec c "+") as [->|_]; [now rewrite Hp, IH|].
  destruct (Ascii.eqb_spec c "<") as [->|_]; [now rewrite Hl, IH|].
  destruct (Ascii.eqb_spec c ">") as [->|_]; [now rewrite Hg, IH|].
  rewrite append_cons, append_nil_l, unescape_other, IH; [reflexivity|].
  now apply Ascii.eqb_neq.
Qed.

Lemma convertNewlines_id (s : string) :
  strAll (isNot Html.CR) s = true -> Html.convertNewlines s = s.
Proof.
  induction s as [|c s IH]; [reflexivity|].
  cbn [strAll Html.convertNewlines]. intros H. apply andb_true_iff in H as [Hc Hs].
  unfold isNot in Hc. apply negb_true_iff in Hc. now rewrite Hc, (IH Hs).
Qed.

Lemma dropNUL_id (s : string) :
  strAll (isNot Html.NUL) s = true -> Html.dropNUL s = s.
Proof.
  induction s as [|c s IH]; [reflexivity|].
  cbn [strAll Html.dropNUL]. intros H. apply andb_true_iff in H as [Hc Hs].
  unfold isNot in Hc. apply negb_true_iff in Hc. now rewrite Hc, (IH Hs).
Qed.

Lemma strAll_impl (P Q : ascii -> bool) (s : string) :
  (forall c, P c = true -> Q c = true) -> strAll P s = true -> strAll Q s = true.
Proof.
  intros HPQ. induction s as [|c s IH]; [reflexivity|].
  cbn [strAll]. intros H. apply andb_true_iff in H as [Hc Hs].
  now rewrite (HPQ c Hc), (IH Hs).
Qed.

Lemma kept_no_NUL (s : string) : strAll keptByte s = true -> strAll (isNot Html.NUL) s = true.
Proof.
  apply strAll_impl. intros c H. unfold keptByte in H. now apply andb_true_iff in H as [? _].
Qed.

Lemma kept_no_CR (s : string) : strAll keptByte s = true -> strAll (isNot Html.CR) s = true.
Proof.
  apply strAll_impl. intros c H. unfold keptByte in H. now apply andb_true_iff in H as [_ ?].
Qed.

(** Escaping adds no carriage return. *)
Lemma EscapeString_no_CR (v : string) :
  strAll (isNot Html.CR) v = true -> strAll (isNot Html.CR) (EscapeString v) = true.
Proof.
  induction v as [|c v IH]; [reflexivity|].
  cbn [EscapeString strAll]. intros H. apply andb_true_iff in H as [Hc Hv].
  rewrite strAll_app, (IH Hv), andb_true_r. unfold escapeByte.
  repeat match goal with
         | |- context [Ascii.eqb c ?x] => destruct (Ascii.eqb c x); [reflexivity|]
         end.
  cbn [strAll]. now rewrite Hc.
Qed.

Lemma htmlEscaper_no_CR (v : string) :
  strAll (isNot Html.CR) v = true -> strAll (isNot Html.CR) (htmlEscaper v) = true.
Proof.
  induction v as [|c v IH]; [reflexivity|].
  cbn [htmlEscaper strAll]. intros H. apply andb_true_iff in H as [Hc Hv].
  rewrite strAll_app, (IH Hv), andb_true_r. unfold htmlReplacement.
  repeat match goal with
         | |- context [Ascii.eqb c ?x] => destruct (Ascii.eqb c x); [reflexivity|]
         end.
  cbn [strAll]. now rewrite Hc.
Qed.

(** A stable value is read back as it was written, through either escaper. *)
Lemma readBack_stable (v : string) :
  stable v -> readBack EscapeString v = v /\ readBack htmlEscaper v = v.
Proof.
  intros [Htrim Hkept]. unfold readBack, Html.decodeText.
  pose proof (kept_no_NUL v Hkept) as Hnul. pose proof (kept_no_CR v Hkept) as Hcr.
  rewrite !convertNewlines_id by (apply EscapeString_no_CR || apply htmlEscaper_no_CR; exact Hcr).
  rewrite unescape_EscapeString, unescape_htmlEscaper by exact Hnul.
  rewrite dropNUL_id by exact Hnul. now split.
Qed.

(** ** The decoder on the tree of an encoded page *)

Lemma walk_textNodes (raw : string) :
  concatStr (map Parser.walk (textNodes raw)) = Html.decodeText raw.
Proof.
  unfold textNodes, Html.mergeText.
  destruct (String.eqb_spec (Html.decodeText raw) EmptyString) as [->|_]; [reflexivity|].
  cbn. now rewrite !append_nil_r.
Qed.

Lemma text_head_textNodes (raw : string) :
  Parser.text (head (textNodes raw)) = TrimSpace (Html.decodeText raw).
Proof.
  unfold textNodes, Html.mergeText.
  destruct (String.eqb_spec (Html.decodeText raw) EmptyString) as [->|_]; [reflexivity|].
  cbn. now rewrite !append_nil_r.
Qed.

Lemma textNodes_are_text (raw : string) :
  Forall (fun n => Type_ n = TextNode /\ Children n = []) (textNodes raw).
Proof.
  unfold textNodes, Html.mergeText. destruct (String.eqb _ _); repeat constructor.
Qed.

(** Text nodes hold no th, no tr and no footer cell. *)
Lemma collect_text (l : list Node) :
  Forall (fun n => Type_ n = TextNode /\ Children n = []) l ->
  flat_map Parser.collectTh l = []
  /\ (forall anc, flat_map (Parser.collectTr anc) l = [])
  /\ (forall anc, flat_map (Parser.walkFooter anc) l = []).
Proof.
  induction 1 as [|[t d a kids] l [Ht Hk] _ (IH1 & IH2 & IH3)]; [now repeat split|].
  cbn in Ht, Hk. subst t kids. repeat split; intros; cbn; auto.
Qed.

Arguments textNodes : simpl never.
Arguments headerCell : simpl never.
Arguments wrapper : simpl never.
Arguments bodyCell : simpl never.
Arguments bodyRow : simpl never.
Arguments tbodyTree : simpl never.
Arguments footCell : simpl never.
Arguments TrimSpace : simpl never.
Arguments Html.decodeText : simpl never.

Lemma wrapper_collect (ri ci : Z) (raw : string) :
  Parser.collectTh (wrapper ri ci (textNodes raw)) = []
  /\ (forall anc, Parser.collectTr anc (wrapper ri ci (textNodes raw)) = [])
  /\ (forall anc, Parser.walkFooter anc (wrapper ri ci (textNodes raw)) = [])
  /\ Parser.walk (wrapper ri ci (textNodes raw)) = Html.decodeText raw.
Proof.
  destruct (collect_text _ (textNodes_are_text raw)) as (H1 & H2 & H3).
  pose proof (walk_textNodes raw) as H4.
  unfold wrapper.
  destruct (ci =? 4)%Z; [|destruct ((ci =? 1) || (ci =? 10))%Z];
    (repeat split; intros; cbn; rewrite ?H1, ?H2, ?H3, ?H4; reflexivity).
Qed.

Lemma bodyCell_collect (v : string) (ri ci : Z) :
  Parser.collectTh (bodyCell v ri ci) = []
  /\ (forall anc, Parser.collectTr anc (bodyCell v ri ci) = [])
  /\ (forall anc, Parser.ancestorTag anc "tfoot" = false ->
                  Parser.walkFooter anc (bodyCell v ri ci) = [])
  /\ Parser.text (Some (bodyCell v ri ci)) = readBack EscapeString v
  /\ isElem "td" (bodyCell v ri ci) = true.
Proof.
  destruct (wrapper_collect ri ci (EscapeString v)) as (H1 & H2 & H3 & H4).
  unfold bodyCell, readBack.
  destruct (String.eqb_spec v EmptyString) as [->|_].
  - repeat split; intros; cbn; rewrite ?H; reflexivity.
  - repeat split; intros; cbn; rewrite ?H, ?H1, ?H2, ?H3, ?H4, ?append_nil_r; reflexivity.
Qed.

Lemma bodyCells_collect (cols : list string) (ri : Z) (ci : nat) :
  flat_map Parser.collectTh (bodyCells ri ci cols) = []
  /\ (forall anc, flat_map (Parser.collectTr anc) (bodyCells ri ci cols) = [])
  /\ (forall anc, Parser.ancestorTag anc "tfoot" = false ->
                  flat_map (Parser.walkFooter anc) (bodyCells ri ci cols) = [])
  /\ map (fun td => Parser.text (Some td)) (List.filter (isElem "td") (bodyCells ri ci cols))
     = map (readBack EscapeString) cols.
Proof.
  revert ci. induction cols as [|v cols IH]; intros ci; [now repeat split|].
  destruct (IH (S ci)) as (I1 & I2 & I3 & I4).
  destruct (bodyCell_collect v ri (Z.of_nat ci)) as (H1 & H2 & H3 & H4 & H5).
  cbn [bodyCells flat_map List.filter map]. rewrite H5. cbn [map].
  repeat split; intros; rewrite ?H1, ?H2, ?H3, ?H4, ?I1, ?I2, ?I3, ?I4 by assumption;
    reflexivity.
Qed.

Lemma bodyRow_collect (row : Row) (ri : nat) :
  Parser.collectTh (bodyRow ri row) = []
  /\ (forall anc, Parser.collectTr anc (bodyRow ri row)
                  = if Parser.ancestorTag anc "tbody" then [bodyRow ri row] else [])
  /\ (forall anc, Parser.ancestorTag anc "tfoot" = false ->
                  Parser.walkFooter anc (bodyRow ri row) = [])
  /\ rowOf (bodyRow ri row) = rowValue row.
Proof.
  destruct (bodyCells_collect (Col row) (Z.of_nat ri) 0) as (H1 & H2 & H3 & H4).
  unfold bodyRow, rowOf, rowValue. repeat split; intros.
  - cbn. exact H1.
  - cbn. rewrite H2. now destruct (Parser.ancestorTag anc "tbody").
  - cbn. apply H3. cbn. assumption.
  - unfold element. cbn [Children]. now rewrite H4.
Qed.

Lemma bodyRowNodes_collect (rows : list Row) (ri : nat) :
  flat_map Parser.collectTh (bodyRowNodes ri rows) = []
  /\ (forall anc, Parser.ancestorTag anc "tbody" = true ->
                  flat_map (Parser.collectTr anc) (bodyRowNodes ri rows) = bodyRowList ri rows)
  /\ (forall anc, Parser.ancestorTag anc "tfoot" = false ->
                  flat_map (Parser.walkFooter anc) (bodyRowNodes ri rows) = []).
Proof.
  revert ri. induction rows as [|row rows IH]; intros ri; [now repeat split|].
  destruct (IH (S ri)) as (I1 & I2 & I3).
  destruct (bodyRow_collect row ri) as (H1 & H2 & H3 & _).
  cbn [bodyRowNodes bodyRowList flat_map]. repeat split; intros.
  - now rewrite H1, I1.
  - rewrite H2, I2, H by assumption. reflexivity.
  - rewrite H3, I3 by assumption. reflexivity.
Qed.

Lemma tbodyTree_collect (rows : list Row) :
  Parser.collectTh (tbodyTree rows) = []
  /\ (forall anc, Parser.collectTr anc (tbodyTree rows) = bodyRowList 0 rows)
  /\ (forall anc, Parser.ancestorTag anc "tfoot" = false ->
                  Parser.walkFooter anc (tbodyTree rows) = []).
Proof.
  destruct (bodyRowNodes_collect rows 0) as (H1 & H2 & H3).
  unfold tbodyTree. repeat split; intros; cbn; rewrite flat_map_app.
  - now rewrite H1.
  - rewrite H2 by reflexivity. cbn. apply app_nil_r.
  - rewrite H3 by (cbn; assumption). reflexivity.
Qed.

Lemma headerCell_collect (label v : string) :
  Parser.collectTh (headerCell label v) = [headerCell label v]
  /\ (forall anc, Parser.collectTr anc (headerCell label v) = [])
  /\ (forall anc, Parser.walkFooter anc (headerCell label v) = [])
  /\ brValue (headerCell label v) = headerValue v.
Proof.
  destruct (collect_text _ (textNodes_are_text (EscapeString v))) as (H1 & H2 & H3).
  pose proof (text_head_textNodes (EscapeString v)) as H4.
  unfold headerCell, headerValue, brValue, readBack.
  destruct (String.eqb v EmptyString).
  - repeat split; intros; reflexivity.
  - repeat split; intros; cbn; rewrite ?H1, ?H2, ?H3, ?H4, ?TrimSpace_idempotent; reflexivity.
Qed.

Lemma footCell_collect (v : string) :
  Parser.collectTh (footCell v) = []
  /\ (forall anc, Parser.collectTr anc (footCell v) = [])
  /\ (forall anc, Parser.ancestorTag anc "tfoot" = true ->
                  Parser.walkFooter anc (footCell v) = [readBack htmlEscaper v]).
Proof.
  destruct (collect_text _ (textNodes_are_text (htmlEscaper v))) as (H1 & H2 & H3).
  pose proof (walk_textNodes (htmlEscaper v)) as H4.
  unfold footCell, readBack. repeat split; intros; cbn; rewrite ?H, ?H1, ?H2, ?H3; try reflexivity.
  cbn. now rewrite H4.
Qed.

(** The th cells of an encoded page: the title, the 7 header cells, the 12
    column heads. *)
Lemma collectTh_page (h : list string) (rows : list Row) (f : list string) :
  Parser.collectTh (pageTree h rows f)
  = titleCell
    :: map (fun i => headerCell (nth i headerLabels EmptyString) (nth i h EmptyString)) (seq 0 7)
    ++ List.filter (isElem "th") columnHeads.
Proof.
  unfold pageTree, tableTree, theadTree, tfootTree, tfootRow.
  cbn [headerCells headerLabels seq map].
  generalize (nth 0 h EmptyString), (nth 1 h EmptyString), (nth 2 h EmptyString),
    (nth 3 h EmptyString), (nth 4 h EmptyString), (nth 5 h EmptyString),
    (nth 6 h EmptyString).
  generalize (nth 0 f EmptyString), (nth 1 f EmptyString), (nth 2 f EmptyString),
    (nth 3 f EmptyString).
  intros f0 f1 f2 f3 h0 h1 h2 h3 h4 h5 h6.
  cbn.
  rewrite !(proj1 (headerCell_collect _ _)), !(proj1 (footCell_collect _)),
    (proj1 (tbodyTree_collect rows)).
  reflexivity.
Qed.

Lemma omap_cons_None {A B : Type} (g : A -> option B) (x : A) (l : list A) :
  g x = None -> omap g (x :: l) = omap g l.
Proof. intros H. cbn. now rewrite H. Qed.

Lemma omap_cons_eq {A B : Type} (g : A -> option B) (x : A) (l : list A) :
  omap g (x :: l) = match g x with Some y => y :: omap g l | None => omap g l end.
Proof. reflexivity. Qed.

Lemma header_page (h : list string) (rows : list Row) (f : list string) :
  omap brValue (Parser.collectTh (pageTree h rows f)) = omap headerValue (firstN 7 h).
Proof.
  rewrite collectTh_page. unfold firstN.
  rewrite omap_cons_None by (vm_compute; reflexivity).
  rewrite omap_app.
  replace (omap brValue (List.filter (isElem "th") columnHeads)) with (@nil string)
    by (vm_compute; reflexivity).
  rewrite app_nil_r. generalize (seq 0 7). intros l.
  induction l as [|i l IH]; [reflexivity|].
  cbn [map]. rewrite !omap_cons_eq.
  now rewrite (proj2 (proj2 (proj2 (headerCell_collect _ _)))), IH.
Qed.

(** The body rows of an encoded page are the rows of its tbody. *)
Lemma collectTr_page (h : list string) (rows : list Row) (f : list string) :
  Parser.collectTr [] (pageTree h rows f) = bodyRowList 0 rows.
Proof.
  unfold pageTree, tableTree, theadTree, tfootTree, tfootRow.
  cbn [headerCells headerLabels seq map].
  generalize (nth 0 h EmptyString), (nth 1 h EmptyString), (nth 2 h EmptyString),
    (nth 3 h EmptyString), (nth 4 h EmptyString), (nth 5 h EmptyString),
    (nth 6 h EmptyString).
  generalize (nth 0 f EmptyString), (nth 1 f EmptyString), (nth 2 f EmptyString),
    (nth 3 f EmptyString).
  intros f0 f1 f2 f3 h0 h1 h2 h3 h4 h5 h6.
  cbn.
  rewrite !(proj1 (proj2 (headerCell_collect _ _))), !(proj1 (proj2 (footCell_collect _))),
    (proj1 (proj2 (tbodyTree_collect rows))).
  cbn [app]. now rewrite !app_nil_r.
Qed.

(** The footer values of an encoded page: the four values read back, then
    the text of the empty cell that ends the row. *)
Lemma walkFooter_page (h : list string) (rows : list Row) (f : list string) :
  Parser.walkFooter [] (pageTree h rows f)
  = map (readBack htmlEscaper) (firstN 4 f) ++ [EmptyString].
Proof.
  unfold pageTree, tableTree, theadTree, tfootTree, tfootRow, firstN.
  cbn [headerCells headerLabels seq map].
  generalize (nth 0 h EmptyString), (nth 1 h EmptyString), (nth 2 h EmptyString),
    (nth 3 h EmptyString), (nth 4 h EmptyString), (nth 5 h EmptyString),
    (nth 6 h EmptyString).
  generalize (nth 0 f EmptyString), (nth 1 f EmptyString), (nth 2 f EmptyString),
    (nth 3 f EmptyString).
  intros f0 f1 f2 f3 h0 h1 h2 h3 h4 h5 h6.
  cbn.
  rewrite !(proj1 (proj2 (proj2 (headerCell_collect _ _)))).
  rewrite !(proj2 (proj2 (footCell_collect _))) by reflexivity.
  rewrite (proj2 (proj2 (tbodyTree_collect rows))) by reflexivity.
  cbn [app]. rewrite ?app_nil_r.
  do 4 f_equal.
Qed.

Lemma map_rowOf_bodyRowList (rows : list Row) (ri : nat) :
  map rowOf (bodyRowList ri rows) = map rowValue rows.
Proof.
  revert ri. induction rows as [|row rows IH]; intros ri; [reflexivity|].
  cbn [bodyRowList map].
  now rewrite (proj2 (proj2 (proj2 (bodyRow_collect row ri)))), IH.
Qed.

(** What decode returns on the tree of an encoded page. *)
Lemma decode_page (h : list string) (rows : list Row) (f : list string) :
  Parser.decodeDoc (pageTree h rows f)
  = (padTo Parser.HeadCount EmptyString (omap headerValue (firstN 7 h)),
     padTo Parser.RowCount Parser.zeroRow (map rowValue rows),
     padTo Parser.FootCount EmptyString
       (map (readBack htmlEscaper) (firstN 4 f) ++ [EmptyString])).
Proof.
  rewrite decodeDoc_closed, header_page, collectTr_page, walkFooter_page,
    map_rowOf_bodyRowList.
  reflexivity.
Qed.

(** ** Round trips *)

Lemma padTo_exact {A : Type} (n : nat) (z : A) (l : list A) :
  length l = n -> padTo n z l = l.
Proof.
  intros H. rewrite padTo_long by lia. apply take_ge. lia.
Qed.

Lemma firstN_cons (n : nat) (x : string) (l : list string) :
  firstN (S n) (x :: l) = x :: firstN n l.
Proof.
  unfold firstN. cbn [seq map nth]. f_equal.
  rewrite <- seq_shift, map_map. reflexivity.
Qed.

Lemma firstN_all (l : list string) : firstN (length l) l = l.
Proof.
  induction l as [|x l IH]; [reflexivity|].
  cbn [length]. now rewrite firstN_cons, IH.
Qed.

Lemma firstN_app (l l' : list string) : firstN (length l) (l ++ l') = l.
Proof.
  induction l as [|x l IH]; [reflexivity|].
  cbn [length app]. now rewrite firstN_cons, IH.
Qed.

Lemma map_readBack_stable (l : list string) :
  Forall stable l ->
  map (readBack EscapeString) l = l /\ map (readBack htmlEscaper) l = l.
Proof.
  induction 1 as [|v l Hv _ [IH1 IH2]]; [now split|].
  destruct (readBack_stable v Hv) as [H1 H2].
  cbn [map]. now rewrite H1, H2, IH1, IH2.
Qed.

Lemma omap_headerValue_stable (l : list string) :
  Forall (fun v => v <> EmptyString) l -> Forall stable l -> omap headerValue l = l.
Proof.
  intros Hne Hst. induction Hne as [|v l Hv _ IH]; [reflexivity|].
  apply List.Forall_cons_iff in Hst as [Hs Hst].
  rewrite omap_cons_eq. unfold headerValue at 1.
  rewrite (eqb_nonempty v Hv), (proj1 (readBack_stable v Hs)), IH by exact Hst.
  reflexivity.
Qed.

Lemma rowValue_stable (row : Row) :
  length (Col row) = 12 -> Forall stable (Col row) -> rowValue row = row.
Proof.
  destruct row as [cols]. cbn [Col]. intros Hlen Hst. unfold rowValue. cbn [Col].
  rewrite (proj1 (map_readBack_stable cols Hst)).
  now rewrite padTo_exact by exact Hlen.
Qed.

Lemma map_rowValue_stable (rows : list Row) :
  Forall (fun r => length (Col r) = 12) rows ->
  Forall (fun r => Forall stable (Col r)) rows ->
  map rowValue rows = rows.
Proof.
  induction 1 as [|row rows Hlen _ IH]; intros Hst; [reflexivity|].
  apply List.Forall_cons_iff in Hst as [Hs Hst].
  cbn [map]. now rewrite rowValue_stable, IH.
Qed.

(** Decode of the encoded page when the values are stable and the header
    is complete. *)
Lemma decode_page_stable (h : list string) (rows : list Row) (f : list string) :
  length h = 7 -> length rows = 25 -> Forall (fun r => length (Col r) = 12) rows ->
  length f = 4 ->
  Forall (fun v => v <> EmptyString) h ->
  Forall stable h -> Forall (fun r => Forall stable (Col r)) rows -> Forall stable f ->
  Parser.decodeDoc (Html.parse (Template.render h rows f)) = (h, rows, f).
Proof.
  intros Hh Hrows Hcols Hf Hne Sh Srows Sf.
  rewrite parse_render, decode_page.
  rewrite <- Hh at 1. rewrite firstN_all, omap_headerValue_stable by assumption.
  rewrite map_rowValue_stable by assumption.
  rewrite <- Hf at 1. rewrite firstN_all, (proj2 (map_readBack_stable f Sf)).
  rewrite !padTo_exact by assumption.
  rewrite padTo_long by (unfold Parser.FootCount; rewrite length_app; cbn; lia).
  rewrite take_app_length' by (symmetry; exact Hf). reflexivity.
Qed.

Lemma stableb_stable (v : string) : stableb v = true -> stable v.
Proof.
  unfold stableb, stable. intros H. apply andb_prop in H as [H1 H2].
  split; [now apply String.eqb_eq | exact H2].
Qed.

Lemma forallb_stable (l : list string) : forallb stableb l = true -> Forall stable l.
Proof.
  intros H. apply List.Forall_forall. intros v Hin.
  apply stableb_stable. rewrite forallb_forall in H. now apply H.
Qed.

(** C1, as amended.  A page of 7 header fields, 25 rows of 12 fields and 4
    footer fields, with no header field empty and every field stable (no
    white space at either end, no NUL, no carriage return): when WriteHTML
    writes it without error to a file system in which a file written is
    opened with the bytes written, ParseHTML of that file returns the same
    7, 25 x 12 and 4 values and a nil error.  The document is parsed by the
    reference parser. *)
Theorem C1_round_trip_full_data :
  forall (error FS : Type) (filepathClean : string -> string)
         (osWriteFile : string -> string -> FS -> FS * option error)
         (osOpen : FS -> string -> string + error)
         (h : list string) (rows : list Row) (f : list string)
         (filename : string) (fs fs' : FS),
    (forall name data s s',
        osWriteFile name data s = (s', None) -> osOpen s' (filepathClean name) = inl data) ->
    length h = 7 -> length rows = 25 -> Forall (fun r => length (Col r) = 12) rows ->
    length f = 4 ->
    Forall (fun v => v <> EmptyString) h ->
    Forall stable h -> Forall (fun r => Forall stable (Col r)) rows -> Forall stable f ->
    Template.WriteHTML osWriteFile h rows f filename fs = (fs', None) ->
    Parser.ParseHTML filepathClean (osOpen fs') parseDoc filename = (h, rows, f, None).
Proof.
  intros error FS clean osWriteFile osOpen h rows f filename fs fs' Hfs
    Hh Hrows Hcols Hf Hne Sh Srows Sf Hwrite.
  unfold Template.WriteHTML in Hwrite. apply Hfs in Hwrite.
  unfold Parser.ParseHTML, parseDoc. rewrite Hwrite.
  now rewrite decode_page_stable.
Qed.

Lemma sample_stable :
  Forall stable sampleHeader /\ Forall (fun r => Forall stable (Col r)) sampleRows
  /\ Forall stable sampleFooter.
Proof.
  split; [|split]; try (apply forallb_stable; vm_compute; reflexivity).
  apply List.Forall_forall. intros r Hin. apply forallb_stable.
  revert r Hin. apply forallb_forall. vm_compute. reflexivity.
Qed.

Lemma sample_sizes :
  length sampleHeader = 7 /\ length sampleRows = 25
  /\ Forall (fun r => length (Col r) = 12) sampleRows /\ length sampleFooter = 4.
Proof.
  repeat split. unfold sampleRows. apply List.Forall_map, List.Forall_forall.
  intros r _. cbn [Col]. now rewrite length_map, length_seq.
Qed.

Lemma sample_nonempty :
  Forall (fun v => v <> EmptyString) sampleHeader
  /\ Forall (fun r => Forall (fun v => v <> EmptyString) (Col r)) sampleRows
  /\ Forall (fun v => v <> EmptyString) sampleFooter.
Proof.
  assert (Hb : forall l, forallb (fun v => negb (String.eqb v EmptyString)) l = true ->
                         Forall (fun v => v <> EmptyString) l).
  { intros l H. apply List.Forall_forall. intros v Hin.
    rewrite forallb_forall in H. specialize (H v Hin).
    apply negb_true_iff in H. now apply String.eqb_neq. }
  split; [|split]; try (apply Hb; vm_compute; reflexivity).
  apply List.Forall_forall. intros r Hin. apply Hb.
  revert r Hin. apply forallb_forall. vm_compute. reflexivity.
Qed.

(** The sample page, written to an empty store and read back: every field
    returns, among them O'Brien & Sons <Ltd> in a header field and in a
    body field. *)
Lemma C1_sample_page_witness :
  Parser.ParseHTML (fun p => p)
    (openFile (Template.WriteHTML writeFile sampleHeader sampleRows sampleFooter
                 "census.html" []).1)
    (parseDoc (error := unit)) "census.html"
  = (sampleHeader, sampleRows, sampleFooter, None).
Proof.
  destruct sample_sizes as (Hh & Hrows & Hcols & Hf).
  destruct sample_stable as (Sh & Srows & Sf).
  apply (C1_round_trip_full_data unit Files (fun p => p) writeFile openFile
           sampleHeader sampleRows sampleFooter "census.html" []);
    try assumption.
  - intros name data s s' [= <-]. cbn [openFile]. now rewrite String.eqb_refl.
  - exact (proj1 sample_nonempty).
  - reflexivity.
Defined.

(** C1 as stated fails.  Every field of the page is non-empty, the first
    header field starts with a space; encode then decode returns that field
    without the space, and no document at all makes the decoder return
    it. *)
Lemma C1_leading_space_counterexample :
  (Forall (fun v => v <> EmptyString) paddedHeader
   /\ Forall (fun r => Forall (fun v => v <> EmptyString) (Col r)) sampleRows
   /\ Forall (fun v => v <> EmptyString) sampleFooter)
  /\ Parser.ParseHTML (fun p => p)
       (openFile (Template.WriteHTML writeFile paddedHeader sampleRows sampleFooter
                    "census.html" []).1)
       (parseDoc (error := unit)) "census.html"
     = (sampleHeader, sampleRows, sampleFooter, None)
  /\ sampleHeader <> paddedHeader
  /\ (forall (error : Type) (filepathClean : string -> string)
             (osOpen : string -> string + error) (htmlParse : string -> Node + error)
             (path : string),
        Parser.ParseHTML filepathClean osOpen htmlParse path
        <> (paddedHeader, sampleRows, sampleFooter, None)).
Proof.
  split; [|split; [|split]].
  - destruct sample_nonempty as (Hh & Hrows & Hf). repeat split; try assumption.
    constructor; [discriminate|]. now apply List.Forall_cons_iff in Hh as [_ Hh].
  - vm_compute. reflexivity.
  - discriminate.
  - intros error clean osOpen htmlParse path Heq.
    unfold Parser.ParseHTML in Heq.
    destruct (osOpen (clean path)) as [file|e]; [|discriminate].
    destruct (htmlParse file) as [doc|e]; [|discriminate].
    pose proof (decodeDoc_trimmed doc) as Htrim.
    assert (Hd : Parser.decodeDoc doc = (paddedHeader, sampleRows, sampleFooter))
      by congruence.
    rewrite Hd in Htrim. destruct Htrim as (Hh & _ & _).
    apply List.Forall_cons_iff in Hh as [Hh _]. vm_compute in Hh. discriminate.
Qed.

(** C4.  The page with every field empty, encoded and then decoded, is the
    page with every field empty: no label of the template reaches a slot.
    For every page, each slot that decode fills holds a value of the page
    as it is read back; an empty header field writes no line break and
    takes no slot. *)
Theorem C4_round_trip_empty :
  Parser.decodeDoc (Html.parse (Template.render blankHeader blankRows blankFooter))
  = (blankHeader, blankRows, blankFooter)
  /\ (forall (error : Type) (filepathClean : string -> string)
             (osOpen : string -> string + error) (path : string),
        osOpen (filepathClean path)
        = inl (Template.render blankHeader blankRows blankFooter) ->
        Parser.ParseHTML filepathClean osOpen parseDoc path
        = (blankHeader, blankRows, blankFooter, None))
  /\ (forall (h : list string) (rows : list Row) (f : list string),
        Parser.decodeDoc (Html.parse (Template.render h rows f))
        = (padTo 7 EmptyString (omap headerValue (firstN 7 h)),
           padTo 25 (mkRow (replicate 12 EmptyString)) (map rowValue rows),
           map (readBack htmlEscaper) (firstN 4 f)))
  /\ headerValue EmptyString = None
  /\ readBack EscapeString EmptyString = EmptyString
  /\ readBack htmlEscaper EmptyString = EmptyString.
Proof.
  assert (Hblank : Parser.decodeDoc
                     (Html.parse (Template.render blankHeader blankRows blankFooter))
                   = (blankHeader, blankRows, blankFooter)).
  { rewrite parse_render, decode_page. vm_compute. reflexivity. }
  refine (conj Hblank (conj _ (conj _ (conj eq_refl (conj eq_refl eq_refl))))).
  - intros error clean osOpen path Hopen. unfold Parser.ParseHTML, parseDoc.
    now rewrite Hopen, Hblank.
  - intros h rows f. rewrite parse_render, decode_page. reflexivity.
Qed.

(** ** The reference parser on a page of the single-file program *)

Lemma main_render_pieces (h : list string) (rows : list Row) (f : list string) :
  Main.render h rows f
  = litAt Main.pageTmpl 0
    +:+ (Main.headerVal (nth 0 h EmptyString) +:+ (litAt Main.pageTmpl 2
    +:+ (Main.headerVal (nth 1 h EmptyString) +:+ (litAt Main.pageTmpl 4
    +:+ (Main.headerVal (nth 2 h EmptyString) +:+ (litAt Main.pageTmpl 6
    +:+ (Main.headerVal (nth 3 h EmptyString) +:+ (litAt Main.pageTmpl 8
    +:+ (Main.headerVal (nth 4 h EmptyString) +:+ (litAt Main.pageTmpl 10
    +:+ (Main.headerVal (nth 5 h EmptyString) +:+ (litAt Main.pageTmpl 12
    +:+ (Main.headerVal (nth 6 h EmptyString) +:+ (litAt Main.pageTmpl 14
    +:+ (rangeRows Main.wrapCell (rowsBody Main.pageTmpl 15) 0 rows
    +:+ (litAt Main.pageTmpl 16
    +:+ (htmlEscaper (nth 0 f EmptyString) +:+ (litAt Main.pageTmpl 18
    +:+ (htmlEscaper (nth 1 f EmptyString) +:+ (litAt Main.pageTmpl 20
    +:+ (htmlEscaper (nth 2 f EmptyString) +:+ (litAt Main.pageTmpl 22
    +:+ (htmlEscaper (nth 3 f EmptyString)
    +:+ litAt Main.pageTmpl 24))))))))))))))))))))))).
Proof.
  rewrite <- (append_nil_r (litAt Main.pageTmpl 24)).
  cbv beta iota zeta delta
    [Main.render Execute map execAction concatStr Main.pageTmpl Header Rows Footer
     litAt rowsBody nth].
  reflexivity.
Qed.

(** Where the two templates hold the same text. *)
Lemma main_lits :
  litAt Main.pageTmpl 0 = litAt Template.pageTmpl 0
  /\ litAt Main.pageTmpl 2 = headerLit 0
  /\ litAt Main.pageTmpl 4 = headerLit 1
  /\ litAt Main.pageTmpl 6 = headerLit 2
  /\ litAt Main.pageTmpl 8 = headerLit 3
  /\ litAt Main.pageTmpl 12 = headerLit 5
  /\ rowsBody Main.pageTmpl 15 = rowsBody Template.pageTmpl 15
  /\ litAt Main.pageTmpl 16 = litAt Template.pageTmpl 16
  /\ litAt Main.pageTmpl 18 = footerLit 0
  /\ litAt Main.pageTmpl 20 = footerLit 1
  /\ litAt Main.pageTmpl 22 = footerLit 2
  /\ litAt Main.pageTmpl 24 = litAt Template.pageTmpl 24.
Proof. vm_compute. repeat split. Qed.

(** The text after header value 4: the sixth label as the template holds
    it, the ampersand escaped. *)
Lemma main_header_lit (raw : string) (a : list Attribute) (kids K : list Node)
    (stk : list Html.Frame) :
  Html.run (Html.SData raw, openElem "th" a kids :: openElem "tr" [] K :: stk)
    (litAt Main.pageTmpl 10)
  = (Html.SData "Hamlet or Tything, &amp;c., of",
     thFrame
     :: openElem "tr" []
          (textNode (ws 6)
           :: element "th" a (rev (Html.mergeText kids (Html.decodeText raw))) :: K)
     :: stk).
Proof. vm_compute. reflexivity. Qed.

Lemma main_header_value (v : string) (stk : list Html.Frame) :
  exists raw kids,
    Html.run (Html.SData "Hamlet or Tything, &amp;c., of", thFrame :: stk) (Main.headerVal v)
    = (Html.SData raw,
       openElem "th" [attr "style" "line-height:5em; padding-bottom:2em;"] kids :: stk)
    /\ element "th" [attr "style" "line-height:5em; padding-bottom:2em;"]
         (rev (Html.mergeText kids (Html.decodeText raw)))
       = headerCell "Hamlet or Tything, &c., of" v.
Proof.
  unfold Main.headerVal, headerCell.
  destruct (String.eqb v EmptyString) eqn:Hv.
  - exists "Hamlet or Tything, &amp;c., of", []. split; reflexivity.
  - exists (EscapeString v), [element "br" [] []; textNode "Hamlet or Tything, &c., of"].
    split.
    + rewrite run_app.
      replace (Html.run (Html.SData "Hamlet or Tything, &amp;c., of", thFrame :: stk) "<br>")
        with (Html.SData EmptyString,
              openElem "th" [attr "style" "line-height:5em; padding-bottom:2em;"]
                [element "br" [] []; textNode "Hamlet or Tything, &c., of"]
              :: stk) by (vm_compute; reflexivity).
      rewrite run_data by apply EscapeString_no_lt. reflexivity.
    + rewrite rev_mergeText by reflexivity. reflexivity.
Qed.

(** Header values 4 and 5 of the single-file program, up to the last
    label. *)
Lemma main_header_steps (v4 v5 : string) (K : list Node) (stk : list Html.Frame) :
  Html.run
    (Html.run
       (Html.run
          (Html.run (Html.SData (nth 4 headerLabels EmptyString),
                     thFrame :: openElem "tr" [] K :: stk)
             (Main.headerVal v4))
          (litAt Main.pageTmpl 10))
       (Main.headerVal v5))
    (headerLit 5)
  = (Html.SData (nth 6 headerLabels EmptyString),
     thFrame
     :: openElem "tr" []
          (textNode (ws 6) :: headerCell "Hamlet or Tything, &c., of" v5
           :: textNode (ws 6) :: headerCell (nth 4 headerLabels EmptyString) v4 :: K)
     :: stk).
Proof.
  destruct (header_value 4 v4 (openElem "tr" [] K :: stk)) as (raw & kids & Hrun & Hcell);
    [lia|].
  change Main.headerVal with Template.headerVal.
  rewrite Hrun, main_header_lit, Hcell.
  destruct (main_header_value v5
              (openElem "tr" []
                 (textNode (ws 6) :: headerCell (nth 4 headerLabels EmptyString) v4 :: K)
               :: stk)) as (raw' & kids' & Hrun' & Hcell').
  change Main.headerVal with Template.headerVal in Hrun'.
  rewrite Hrun', header_lit by lia. now rewrite Hcell'.
Qed.

(** The text after the last header value: the end of the first table and
    the second table up to its tbody. *)
Lemma main_thead_lit (raw : string) (a ta : list Attribute) (kids K K2 K3 KB : list Node)
    (stk : list Html.Frame) :
  Html.run (Html.SData raw,
            openElem "th" a kids :: openElem "tr" [] K :: openElem "thead" [] K2
            :: openElem "table" ta K3 :: openElem "body" [] KB :: stk)
    (litAt Main.pageTmpl 14)
  = (Html.SData (ws 4),
     openElem "tbody" [] []
     :: openElem "table" [] [textNode (ws 2); mainThead; textNode (ws 2); mainColgroup;
                             textNode (ws 2)]
     :: openElem "body" []
          (textNode (ws 0 +:+ ws 0 +:+ ws 0)
           :: element "table" ta
                (rev (textNode (ws 0)
                      :: element "thead" []
                           (rev (textNode (ws 2)
                                 :: element "tr" []
                                      (rev (textNode (ws 4)
                                            :: element "th" a
                                                 (rev (Html.mergeText kids
                                                         (Html.decodeText raw)))
                                            :: K))
                                 :: K2))
                      :: K3))
           :: KB)
     :: stk).
Proof. vm_compute. reflexivity. Qed.

Lemma main_header_last (v : string) (ta : list Attribute) (K K2 K3 KB : list Node)
    (stk : list Html.Frame) :
  Html.run
    (Html.run (Html.SData (nth 6 headerLabels EmptyString),
               thFrame :: openElem "tr" [] K :: openElem "thead" [] K2
               :: openElem "table" ta K3 :: openElem "body" [] KB :: stk)
       (Main.headerVal v))
    (litAt Main.pageTmpl 14)
  = (Html.SData (ws 4),
     openElem "tbody" [] []
     :: openElem "table" [] [textNode (ws 2); mainThead; textNode (ws 2); mainColgroup;
                             textNode (ws 2)]
     :: openElem "body" []
          (textNode (ws 0 +:+ ws 0 +:+ ws 0)
           :: element "table" ta
                (rev (textNode (ws 0)
                      :: element "thead" []
                           (rev (textNode (ws 2)
                                 :: element "tr" []
                                      (rev (textNode (ws 4)
                                            :: headerCell (nth 6 headerLabels EmptyString) v
                                            :: K))
                                 :: K2))
                      :: K3))
           :: KB)
     :: stk).
Proof.
  destruct (header_value 6 v (openElem "tr" [] K :: openElem "thead" [] K2
                              :: openElem "table" ta K3 :: openElem "body" [] KB :: stk))
    as (raw & kids & Hrun & Hcell); [lia|].
  change Main.headerVal with Template.headerVal.
  rewrite Hrun, main_thead_lit. now rewrite Hcell.
Qed.

Lemma main_finish_suffix (raw : string) (ta : list Attribute) (kids K K2 K3 KB : list Node) :
  Html.finish
    (Html.run
       (Html.SData raw,
        openElem "td" [] kids :: openElem "tr" [] K :: openElem "tfoot" [] K2
        :: openElem "table" ta K3 :: openElem "body" [] KB :: htmlCtx)
       (litAt Template.pageTmpl 24))
  = mkNode DocumentNode EmptyString []
      [ doctypeNode;
        element "html" [attr "lang" "en"]
          [ headTree;
            textNode (ws 0);
            element "body" []
              (rev (textNode (ws 0 +:+ ws 0)
                    :: element "table" ta
                         (rev (textNode (ws 0)
                               :: element "tfoot" []
                                    (rev (textNode (ws 2)
                                          :: element "tr" []
                                               (rev (textNode (ws 4)
                                                     :: element "td" [] []
                                                     :: element "td" [attr "colspan" "2"] []
                                                     :: textNode (ws 6)
                                                     :: element "td" []
                                                          (rev (Html.mergeText kids
                                                                  (Html.decodeText raw)))
                                                     :: K))
                                          :: K2))
                               :: K3))
                    :: KB)) ] ].
Proof. vm_compute. reflexivity. Qed.

(** The reference parser builds [mainPageTree] from the page the
    single-file program writes. *)
Lemma parse_render_main (h : list string) (rows : list Row) (f : list string) :
  Html.parse (Main.render h rows f) = mainPageTree h rows f.
Proof.
  destruct main_lits as (L0 & L2 & L4 & L6 & L8 & L12 & Lrows & L16 & L18 & L20 & L22 & L24).
  unfold Html.parse. rewrite main_render_pieces.
  rewrite L0, L2, L4, L6, L8, L12, Lrows, L16, L18, L20, L22, L24.
  change Main.wrapCell with Template.wrapCell.
  rewrite !run_app, run_prefix.
  change Main.headerVal with Template.headerVal at 1 2 3 4.
  rewrite (header_step2 0), (header_step2 1), (header_step2 2), (header_step2 3) by lia.
  change bodyCtx with (openElem "body" [] [textNode (ws 0 +:+ ws 0)] :: htmlCtx).
  rewrite main_header_steps, main_header_last.
  lazymatch goal with
  | |- context [Html.run (Html.SData (ws 4), openElem "tbody" [] [] :: ?stk)
                  (rangeRows _ _ 0 rows)] =>
      destruct (body_rows rows 0 [] stk I) as [Hrows Htop]
  end.
  rewrite Hrows, foot_open.
  rewrite (foot_step 0), (foot_step 1), (foot_step 2) by lia.
  rewrite run_data by apply htmlEscaper_no_lt.
  rewrite main_finish_suffix.
  rewrite (rev_mergeText (rev (bodyRowNodes 0 rows) ++ [])) by exact Htop.
  rewrite app_nil_r, rev_involutive.
  change (Html.mergeText [] (Html.decodeText (EmptyString +:+ htmlEscaper (nth 3 f EmptyString))))
    with (textNodes (htmlEscaper (nth 3 f EmptyString))).
  rewrite rev_textNodes. reflexivity.
Qed.

(** *** The decoder on that tree *)

Lemma collectTh_main (h : list string) (rows : list Row) (f : list string) :
  Parser.collectTh (mainPageTree h rows f)
  = titleCell
    :: map (fun i => headerCell (nth i mainHeaderLabels EmptyString) (nth i h EmptyString))
         (seq 0 7)
    ++ List.filter (isElem "th") (mainColumnHeads ++ mainSubHeads).
Proof.
  unfold mainPageTree, mainHeaderTable, mainBodyTable, tfootTree, tfootRow.
  cbn [headerCells mainHeaderLabels seq map].
  generalize (nth 0 h EmptyString), (nth 1 h EmptyString), (nth 2 h EmptyString),
    (nth 3 h EmptyString), (nth 4 h EmptyString), (nth 5 h EmptyString),
    (nth 6 h EmptyString).
  generalize (nth 0 f EmptyString), (nth 1 f EmptyString), (nth 2 f EmptyString),
    (nth 3 f EmptyString).
  intros f0 f1 f2 f3 h0 h1 h2 h3 h4 h5 h6.
  cbn.
  rewrite !(proj1 (headerCell_collect _ _)), !(proj1 (footCell_collect _)),
    (proj1 (tbodyTree_collect rows)).
  reflexivity.
Qed.

(** The header values of that page: the values written, then the second
    lines of the two column heads with a line break. *)
Lemma header_main (h : list string) (rows : list Row) (f : list string) :
  omap brValue (Parser.collectTh (mainPageTree h rows f))
  = omap headerValue (firstN 7 h) ++ ["Schedule"; "& No. or Name of House"].
Proof.
  rewrite collectTh_main. unfold firstN.
  rewrite omap_cons_None by (vm_compute; reflexivity).
  rewrite omap_app.
  replace (omap brValue (List.filter (isElem "th") (mainColumnHeads ++ mainSubHeads)))
    with ["Schedule"; "& No. or Name of House"] by (vm_compute; reflexivity).
  f_equal. generalize (seq 0 7). intros l.
  induction l as [|i l IH]; [reflexivity|].
  cbn [map]. rewrite !omap_cons_eq.
  now rewrite (proj2 (proj2 (proj2 (headerCell_collect _ _)))), IH.
Qed.

Lemma collectTr_main (h : list string) (rows : list Row) (f : list string) :
  Parser.collectTr [] (mainPageTree h rows f) = bodyRowList 0 rows.
Proof.
  unfold mainPageTree, mainHeaderTable, mainBodyTable, tfootTree, tfootRow.
  cbn [headerCells mainHeaderLabels seq map].
  generalize (nth 0 h EmptyString), (nth 1 h EmptyString), (nth 2 h EmptyString),
    (nth 3 h EmptyString), (nth 4 h EmptyString), (nth 5 h EmptyString),
    (nth 6 h EmptyString).
  generalize (nth 0 f EmptyString), (nth 1 f EmptyString), (nth 2 f EmptyString),
    (nth 3 f EmptyString).
  intros f0 f1 f2 f3 h0 h1 h2 h3 h4 h5 h6.
  cbn.
  rewrite !(proj1 (proj2 (headerCell_collect _ _))), !(proj1 (proj2 (footCell_collect _))),
    (proj1 (proj2 (tbodyTree_collect rows))).
  cbn [app]. now rewrite !app_nil_r.
Qed.

Lemma walkFooter_main (h : list string) (rows : list Row) (f : list string) :
  Parser.walkFooter [] (mainPageTree h rows f)
  = map (readBack htmlEscaper) (firstN 4 f) ++ [EmptyString].
Proof.
  unfold mainPageTree, mainHeaderTable, mainBodyTable, tfootTree, tfootRow, firstN.
  cbn [headerCells mainHeaderLabels seq map].
  generalize (nth 0 h EmptyString), (nth 1 h EmptyString), (nth 2 h EmptyString),
    (nth 3 h EmptyString), (nth 4 h EmptyString), (nth 5 h EmptyString),
    (nth 6 h EmptyString).
  generalize (nth 0 f EmptyString), (nth 1 f EmptyString), (nth 2 f EmptyString),
    (nth 3 f EmptyString).
  intros f0 f1 f2 f3 h0 h1 h2 h3 h4 h5 h6.
  cbn.
  rewrite !(proj1 (proj2 (proj2 (headerCell_collect _ _)))).
  rewrite !(proj2 (proj2 (footCell_collect _))) by reflexivity.
  rewrite (proj2 (proj2 (tbodyTree_collect rows))) by reflexivity.
  cbn [app]. rewrite ?app_nil_r.
  do 4 f_equal.
Qed.

(** What decode returns on the tree of a page of the single-file
    program. *)
Lemma decode_main_page (h : list string) (rows : list Row) (f : list string) :
  Parser.decodeDoc (mainPageTree h rows f)
  = (padTo Parser.HeadCount EmptyString
       (omap headerValue (firstN 7 h) ++ ["Schedule"; "& No. or Name of House"]),
     padTo Parser.RowCount Parser.zeroRow (map rowValue rows),
     padTo Parser.FootCount EmptyString
       (map (readBack htmlEscaper) (firstN 4 f) ++ [EmptyString])).
Proof.
  rewrite decodeDoc_closed, header_main, collectTr_main, walkFooter_main,
    map_rowOf_bodyRowList.
  reflexivity.
Qed.

(** ** The tfoot of an encoded page *)

Lemma decodeText_escaped (v : string) :
  strAll keptByte v = true ->
  Html.decodeText (EscapeString v) = v /\ Html.decodeText (htmlEscaper v) = v.
Proof.
  intros Hkept. unfold Html.decodeText.
  pose proof (kept_no_NUL v Hkept) as Hnul. pose proof (kept_no_CR v Hkept) as Hcr.
  rewrite !convertNewlines_id by (apply EscapeString_no_CR || apply htmlEscaper_no_CR; exact Hcr).
  rewrite unescape_EscapeString, unescape_htmlEscaper by exact Hnul.
  rewrite dropNUL_id by exact Hnul. now split.
Qed.

Lemma walk_footCell (v : string) : Parser.walk (footCell v) = Html.decodeText (htmlEscaper v).
Proof. unfold footCell. cbn. apply walk_textNodes. Qed.

(** C8, as amended.  The document the template package writes has one
    tfoot, with one row; the row has 8 cells.  Five of them lack a colspan
    attribute: the four that hold footer values 0 to 3, in this order, and
    an empty cell that ends the row.  The other three carry a colspan
    attribute: the two label cells and an empty cell. *)
Theorem C8_encoded_tfoot_shape :
  forall (h : list string) (rows : list Row) (f : list string),
    let doc := Html.parse (Template.render h rows f) in
    tfoots doc = [tfootTree f]
    /\ tfootRows doc = [tfootRow f]
    /\ tfootCells doc
       = [ housesLabel; footCell (nth 0 f EmptyString); footCell (nth 1 f EmptyString);
           personsLabel; footCell (nth 2 f EmptyString); footCell (nth 3 f EmptyString);
           element "td" [attr "colspan" "2"] []; element "td" [] [] ]
    /\ List.filter noColspan (tfootCells doc)
       = map footCell (firstN 4 f) ++ [element "td" [] []]
    /\ List.filter Parser.hasColspan (tfootCells doc)
       = [housesLabel; personsLabel; element "td" [attr "colspan" "2"] []]
    /\ map Parser.walk (List.filter noColspan (tfootCells doc))
       = map (fun v => Html.decodeText (htmlEscaper v)) (firstN 4 f) ++ [EmptyString]
    /\ (forall v, strAll keptByte v = true -> Html.decodeText (htmlEscaper v) = v).
Proof.
  intros h rows f doc. subst doc. rewrite parse_render.
  assert (Hcells : tfootCells (pageTree h rows f)
                   = [ housesLabel; footCell (nth 0 f EmptyString);
                       footCell (nth 1 f EmptyString); personsLabel;
                       footCell (nth 2 f EmptyString); footCell (nth 3 f EmptyString);
                       element "td" [attr "colspan" "2"] []; element "td" [] [] ])
    by reflexivity.
  rewrite Hcells.
  refine (conj eq_refl (conj eq_refl (conj eq_refl (conj eq_refl (conj eq_refl (conj _ _)))))).
  - change (List.filter noColspan _)
      with (map footCell (firstN 4 f) ++ [element "td" [] []]).
    rewrite map_app, map_map. f_equal.
    apply map_ext. intros v. apply walk_footCell.
  - intros v Hv. exact (proj2 (decodeText_escaped v Hv)).
Qed.

(** C8 as stated fails: in the tfoot row of either encoder's document 5
    cells lack a colspan attribute, not 4; the fifth is empty. *)
Lemma C8_filler_cell_counterexample :
  map Parser.walk
    (List.filter noColspan
       (tfootCells (Html.parse (Template.render sampleHeader sampleRows sampleFooter))))
  = ["12"; "3 + 1"; "40 & 1"; "<38>"; EmptyString]
  /\ map Parser.walk
       (List.filter noColspan
          (tfootCells (Html.parse (Main.render sampleHeader sampleRows sampleFooter))))
     = ["12"; "3 + 1"; "40 & 1"; "<38>"; EmptyString]
  /\ length
       (List.filter noColspan
          (tfootCells (Html.parse (Template.render sampleHeader sampleRows sampleFooter))))
     <> 4.
Proof.
  split; [|split]; [vm_compute; reflexivity | vm_compute; reflexivity |].
  vm_compute. discriminate.
Qed.

(** ** The two copies *)

Lemma concatStr_app (l l' : list string) :
  concatStr (l ++ l') = concatStr l +:+ concatStr l'.
Proof.
  induction l as [|s l IH]; [reflexivity|].
  cbn [app concatStr]. now rewrite IH, append_assoc.
Qed.

Lemma Execute_split (wrapCell : string -> Z -> Z -> string) (headerVal : string -> string)
    (tmpl : list Action) (n : nat) (data : pageData) :
  Execute wrapCell headerVal tmpl data
  = front wrapCell headerVal tmpl n data +:+ back wrapCell headerVal tmpl n data.
Proof.
  unfold front, back, Execute.
  rewrite <- concatStr_app, <- map_app. now rewrite take_drop.
Qed.

Lemma append_cancel_l (a x y : string) : a +:+ x = a +:+ y -> x = y.
Proof.
  induction a as [|c a IH]; [trivial|].
  rewrite !append_cons. intros [= H]. now apply IH.
Qed.

(** The decoder of the single-file program is the decoder of package
    parser. *)
Lemma decodeDoc_copies (doc : Node) : Main.decodeDoc doc = Parser.decodeDoc doc.
Proof. reflexivity. Qed.

Lemma pageTmpl_copies :
  take 10 Main.pageTmpl = take 10 Template.pageTmpl
  /\ drop 15 Main.pageTmpl = drop 15 Template.pageTmpl.
Proof. split; vm_compute; reflexivity. Qed.

Lemma front_copies (data : pageData) :
  front Main.wrapCell Main.headerVal Main.pageTmpl 10 data
  = front Template.wrapCell Template.headerVal Template.pageTmpl 10 data.
Proof. unfold front. now rewrite (proj1 pageTmpl_copies). Qed.

Lemma back_copies (data : pageData) :
  back Main.wrapCell Main.headerVal Main.pageTmpl 15 data
  = back Template.wrapCell Template.headerVal Template.pageTmpl 15 data.
Proof. unfold back. now rewrite (proj2 pageTmpl_copies). Qed.

Lemma back_step (wrapCell : string -> Z -> Z -> string) (headerVal : string -> string)
    (tmpl : list Action) (n : nat) (data : pageData) :
  n < length tmpl ->
  back wrapCell headerVal tmpl n data
  = execAction wrapCell headerVal data (nth n tmpl (AText EmptyString))
    +:+ back wrapCell headerVal tmpl (S n) data.
Proof.
  unfold back, Execute. revert n. induction tmpl as [|a tmpl IH]; intros n Hn.
  - cbn in Hn. lia.
  - destruct n as [|n]; [reflexivity|]. cbn [drop nth]. apply IH. cbn in Hn. lia.
Qed.

Lemma execAction_lit (wrapCell : string -> Z -> Z -> string) (headerVal : string -> string)
    (tmpl : list Action) (n : nat) (data : pageData) :
  match nth n tmpl (AText EmptyString) with AText _ => true | _ => false end = true ->
  execAction wrapCell headerVal data (nth n tmpl (AText EmptyString)) = litAt tmpl n.
Proof.
  unfold litAt. now destruct (nth n tmpl (AText EmptyString)).
Qed.

(** The documents of the two encoders differ where the sixth header label
    is written. *)
Lemma render_differs (h : list string) (rows : list Row) (f : list string) :
  Main.render h rows f <> Template.render h rows f.
Proof.
  unfold Main.render, Template.render. intros H.
  rewrite (Execute_split Main.wrapCell Main.headerVal Main.pageTmpl 10) in H.
  rewrite (Execute_split Template.wrapCell Template.headerVal Template.pageTmpl 10) in H.
  rewrite front_copies in H. apply append_cancel_l in H.
  rewrite !(back_step _ _ _ 10) in H by (vm_compute; lia).
  rewrite !execAction_lit in H by reflexivity.
  apply (f_equal (String.get 61)) in H.
  rewrite <- !append_correct1 in H by (apply Nat.ltb_lt; vm_compute; reflexivity).
  vm_compute in H. discriminate H.
Qed.

Lemma length_omap_headerValue (l : list string) :
  Forall (fun v => v <> EmptyString) l -> length (omap headerValue l) = length l.
Proof.
  induction 1 as [|v l Hv _ IH]; [reflexivity|].
  rewrite omap_cons_eq. unfold headerValue at 1. rewrite (eqb_nonempty v Hv).
  cbn [length]. now rewrite IH.
Qed.

Lemma length_omap_le {A B : Type} (g : A -> option B) (l : list A) :
  length (omap g l) <= length l.
Proof.
  induction l as [|x l IH]; [reflexivity|].
  rewrite omap_cons_eq. destruct (g x); cbn [length]; lia.
Qed.

Lemma length_omap_headerValue_lt (l : list string) :
  Exists (fun v => v = EmptyString) l -> length (omap headerValue l) < length l.
Proof.
  induction 1 as [v l Hv | v l _ IH]; rewrite omap_cons_eq.
  - subst v. cbn [headerValue String.eqb length].
    pose proof (length_omap_le headerValue l). lia.
  - destruct (headerValue v); cbn [length]; lia.
Qed.

Lemma padTo_app_long {A : Type} (n : nat) (z : A) (l t : list A) :
  n <= length l -> padTo n z (l ++ t) = padTo n z l.
Proof.
  intros H. rewrite !padTo_long by (rewrite ?length_app; lia).
  now rewrite take_app_le.
Qed.

Lemma padTo_app_differs {A : Type} (n : nat) (z x : A) (l t : list A) :
  length l < n -> x <> z -> padTo n z (l ++ x :: t) <> padTo n z l.
Proof.
  revert n. induction l as [|a l IH]; intros n Hn Hx; (destruct n as [|n]; [cbn in Hn; lia|]).
  - cbn [app]. rewrite padTo_cons, padTo_nil. cbn [replicate]. intros [= H _]. now apply Hx.
  - cbn [app]. rewrite !padTo_cons. intros [= H]. revert H. apply IH; [cbn in Hn; lia | exact Hx].
Qed.

Lemma length_firstN (n : nat) (l : list string) : length (firstN n l) = n.
Proof. unfold firstN. now rewrite length_map, length_seq. Qed.

(** Decoding the two documents of one page: equal aggregates exactly when
    no header field is empty. *)
Lemma decode_both (h : list string) (rows : list Row) (f : list string) :
  (Forall (fun v => v <> EmptyString) (firstN 7 h) ->
   Parser.decodeDoc (Html.parse (Main.render h rows f))
   = Parser.decodeDoc (Html.parse (Template.render h rows f)))
  /\ (Exists (fun v => v = EmptyString) (firstN 7 h) ->
      Parser.decodeDoc (Html.parse (Main.render h rows f))
      <> Parser.decodeDoc (Html.parse (Template.render h rows f))).
Proof.
  pose proof (eq_trans (f_equal Parser.decodeDoc (parse_render_main h rows f))
                (decode_main_page h rows f)) as HM.
  pose proof (eq_trans (f_equal Parser.decodeDoc (parse_render h rows f))
                (decode_page h rows f)) as HT.
  split.
  - intros Hne. apply length_omap_headerValue in Hne. rewrite length_firstN in Hne.
    refine (eq_trans HM (eq_trans _ (eq_sym HT))).
    rewrite padTo_app_long by (unfold Parser.HeadCount; lia). reflexivity.
  - intros Hex Heq. apply length_omap_headerValue_lt in Hex. rewrite length_firstN in Hex.
    pose proof (eq_trans (eq_sym HM) (eq_trans Heq HT)) as H.
    injection H as H. revert H. apply padTo_app_differs; [exact Hex | discriminate].
Qed.

(** C9, as amended.  The two decoders are the same function: on every
    document, and with the same collaborators on every path, they return
    the same aggregates and the same error.  The two encoders share
    wrapCell and headerVal, and their templates agree in the first 10
    actions and from the range over the rows on, so every document is a
    front part followed by the same body rows, tfoot and end; the front
    parts differ, and for every input the two documents are different. *)
Theorem C9_duplicated_core :
  (forall doc : Node, Main.decodeDoc doc = Parser.decodeDoc doc)
  /\ (forall (error : Type) (filepathClean : string -> string)
             (osOpen : string -> string + error) (htmlParse : string -> Node + error)
             (path : string),
        Main.parseHTML filepathClean osOpen htmlParse path
        = Parser.ParseHTML filepathClean osOpen htmlParse path)
  /\ (forall (v : string) (r c : Z), Main.wrapCell v r c = Template.wrapCell v r c)
  /\ (forall v : string, Main.headerVal v = Template.headerVal v)
  /\ take 10 Main.pageTmpl = take 10 Template.pageTmpl
  /\ drop 15 Main.pageTmpl = drop 15 Template.pageTmpl
  /\ (forall (h : list string) (rows : list Row) (f : list string),
        Template.render h rows f
        = front Template.wrapCell Template.headerVal Template.pageTmpl 15
            (mkPageData h rows f)
          +:+ back Template.wrapCell Template.headerVal Template.pageTmpl 15
                (mkPageData h rows f)
        /\ Main.render h rows f
           = front Main.wrapCell Main.headerVal Main.pageTmpl 15 (mkPageData h rows f)
             +:+ back Template.wrapCell Template.headerVal Template.pageTmpl 15
                   (mkPageData h rows f))
  /\ (forall (h : list string) (rows : list Row) (f : list string),
        Main.render h rows f <> Template.render h rows f).
Proof.
  refine (conj decodeDoc_copies (conj _ (conj _ (conj _ (conj (proj1 pageTmpl_copies)
            (conj (proj2 pageTmpl_copies) (conj _ render_differs))))))).
  - intros error clean osOpen htmlParse path. reflexivity.
  - intros v r c. reflexivity.
  - intros v. reflexivity.
  - intros h rows f. split; [apply Execute_split|].
    unfold Main.render.
    now rewrite (Execute_split Main.wrapCell Main.headerVal Main.pageTmpl 15), back_copies.
Qed.

(** C9 as stated fails: for the sample page the two encoders write
    different bytes; and for the page with every field empty the document
    of the single-file program decodes to a header with the column heads
    Schedule and & No. or Name of House in slots 0 and 1, that of package
    template to the empty header. *)
Lemma C9_templates_differ_counterexample :
  Main.render sampleHeader sampleRows sampleFooter
  <> Template.render sampleHeader sampleRows sampleFooter
  /\ (Parser.decodeDoc (Html.parse (Main.render blankHeader blankRows blankFooter))).1.1
     = [ "Schedule"; "& No. or Name of House"; EmptyString; EmptyString; EmptyString;
         EmptyString; EmptyString ]
  /\ (Parser.decodeDoc (Html.parse (Template.render blankHeader blankRows blankFooter))).1.1
     = blankHeader.
Proof.
  split; [|split]; [| vm_compute; reflexivity | vm_compute; reflexivity].
  apply String.eqb_neq. vm_compute. reflexivity.
Qed.

(** ** The terminal program *)

(** ** The terminal program *)

Lemma index_Some {A : Type} (l : list A) (i : Z) :
  (0 <= i < Z.of_nat (length l))%Z -> exists x, Ui.index l i = Some x /\ l !! Z.to_nat i = Some x.
Proof.
  intros H. unfold Ui.index.
  destruct (Z.ltb_spec i 0) as [Hneg|_]; [lia|].
  destruct (lookup_lt_is_Some_2 l (Z.to_nat i)) as [x Hx]; [lia|].
  exists x. now split.
Qed.

Lemma index_None {A : Type} (l : list A) (i : Z) :
  (Z.of_nat (length l) <= i)%Z -> Ui.index l i = None.
Proof.
  intros H. unfold Ui.index.
  destruct (Z.ltb_spec i 0) as [Hneg|_]; [reflexivity|].
  apply lookup_ge_None_2. lia.
Qed.

Lemma store_Some {A : Type} (l : list A) (i : Z) (x : A) :
  (0 <= i < Z.of_nat (length l))%Z -> Ui.store l i x = Some (<[Z.to_nat i := x]> l).
Proof.
  intros H. unfold Ui.store.
  destruct (Z.leb_spec 0 i); [|lia]. destruct (Z.ltb_spec i (Z.of_nat (length l))); [|lia].
  reflexivity.
Qed.

Lemma insert_after {A : Type} (pre l : list A) (x y : A) :
  <[length pre := x]> (pre ++ y :: l) = pre ++ x :: l.
Proof.
  replace (length pre) with (length pre + 0) by lia. now rewrite insert_app_r.
Qed.

Section UiLemmas.
  Context {P : Ui.Platform}.

Lemma length_commitLoop (ins : list (Ui.Input P)) (i : nat) (arr : list string) :
  length (Ui.commitLoop P ins i arr) = length arr.
Proof.
  revert i arr. induction ins as [|inp ins IH]; intros i arr; [reflexivity|].
  cbn [Ui.commitLoop]. now rewrite IH, length_insert.
Qed.

(** The loop stores the values of the inputs from index [i] on. *)
Lemma commitLoop_closed (ins : list (Ui.Input P)) (pre arr : list string) :
  length arr = length ins ->
  Ui.commitLoop P ins (length pre) (pre ++ arr) = pre ++ values ins.
Proof.
  revert pre arr. induction ins as [|inp ins IH]; intros pre arr Hlen.
  - destruct arr; [reflexivity | discriminate].
  - destruct arr as [|a arr]; [discriminate|]. cbn [Ui.commitLoop values map].
    rewrite insert_after.
    specialize (IH (pre ++ [Ui.tiValue P inp]) arr). rewrite length_app in IH. cbn in IH.
    replace (length pre + 1) with (S (length pre)) in IH by lia.
    rewrite <- !app_assoc in IH. cbn in IH. apply IH. now injection Hlen.
Qed.

Lemma commitLoop_values (ins : list (Ui.Input P)) (arr : list string) :
  length arr = length ins -> Ui.commitLoop P ins 0 arr = values ins.
Proof. intros H. exact (commitLoop_closed ins [] arr H). Qed.

Lemma commitRowLoop_closed (ins : list (Ui.Input P)) (i : nat) (r : Z) (rs : list Row)
    (row : Row) :
  (0 <= r)%Z -> rs !! Z.to_nat r = Some row ->
  Ui.commitRowLoop P ins i r rs
  = Some (<[Z.to_nat r := mkRow (Ui.commitLoop P ins i (Col row))]> rs).
Proof.
  intros Hr. revert i rs row. induction ins as [|inp ins IH]; intros i rs row Hrow.
  - cbn [Ui.commitRowLoop Ui.commitLoop]. destruct row as [c]. cbn [Col].
    now rewrite list_insert_id.
  - cbn [Ui.commitRowLoop Ui.commitLoop].
    assert (Hlt : Z.to_nat r < length rs) by (apply lookup_lt_is_Some; eauto).
    destruct (index_Some rs r) as (x & Hx & Hx'); [lia|].
    rewrite Hx. assert (x = row) by congruence. subst x.
    rewrite store_Some by lia.
    rewrite (IH (S i) _ (mkRow (<[i := Ui.tiValue P inp]> (Col row)))).
    + now rewrite list_insert_insert_eq.
    + now rewrite list_lookup_insert_eq by exact Hlt.
Qed.

Lemma commitRowLoop_None (ins : list (Ui.Input P)) (i : nat) (r : Z) (rs : list Row) :
  ins <> [] -> (Z.of_nat (length rs) <= r \/ r < 0)%Z -> Ui.commitRowLoop P ins i r rs = None.
Proof.
  intros Hins Hr. destruct ins as [|inp ins]; [contradiction|].
  cbn [Ui.commitRowLoop]. destruct Hr as [Hr|Hr].
  - now rewrite index_None.
  - unfold Ui.index. now destruct (Z.ltb_spec r 0); [|lia].
Qed.

Lemma length_loadLoop (ins : list (Ui.Input P)) (i : nat) (arr : list string) :
  length (Ui.loadLoop P ins i arr) = length ins.
Proof.
  revert i. induction ins as [|inp ins IH]; intros i; [reflexivity|].
  cbn [Ui.loadLoop length]. now rewrite IH.
Qed.

Lemma loadRowLoop_closed (ins : list (Ui.Input P)) (i : nat) (r : Z) (rs : list Row)
    (row : Row) :
  (0 <= r)%Z -> rs !! Z.to_nat r = Some row ->
  Ui.loadRowLoop P ins i r rs = Some (Ui.loadLoop P ins i (Col row)).
Proof.
  intros Hr Hrow. revert i. induction ins as [|inp ins IH]; intros i; [reflexivity|].
  cbn [Ui.loadRowLoop Ui.loadLoop].
  assert (Hlt : Z.to_nat r < length rs) by (apply lookup_lt_is_Some; eauto).
  destruct (index_Some rs r) as (x & Hx & Hx'); [lia|].
  rewrite Hx. assert (x = row) by congruence. subst x.
  now rewrite IH.
Qed.

Lemma length_focusLoop (active : bool) (col : Z) (ins : list (Ui.Input P)) (i : nat) :
  length (Ui.focusLoop P active col ins i) = length ins.
Proof.
  revert i. induction ins as [|inp ins IH]; intros i; [reflexivity|].
  cbn [Ui.focusLoop length]. now rewrite IH.
Qed.

End UiLemmas.

Section UiClosed.
  Context {P : Ui.Platform}.

Lemma loadLoop_closed (ins : list (Ui.Input P)) (pre arr : list string) :
  Ui.loadLoop P ins (length pre) (pre ++ arr) = zip_with (Ui.tiSetValue P) arr ins
  \/ length arr < length ins.
Proof.
  revert pre arr. induction ins as [|inp ins IH]; intros pre arr.
  - left. now destruct arr.
  - destruct arr as [|a arr]; [right; cbn; lia|].
    destruct (IH (pre ++ [a]) arr) as [H|H]; [left | right; cbn; lia].
    cbn [Ui.loadLoop zip_with]. rewrite nth_middle. f_equal.
    rewrite length_app, <- app_assoc in H. cbn in H.
    now replace (length pre + 1) with (S (length pre)) in H by lia.
Qed.

Lemma loadLoop_zip (ins : list (Ui.Input P)) (arr : list string) :
  length arr = length ins -> Ui.loadLoop P ins 0 arr = zip_with (Ui.tiSetValue P) arr ins.
Proof.
  intros H. destruct (loadLoop_closed ins [] arr) as [E|E]; [exact E | lia].
Qed.

Lemma sized_setFocus (m : Ui.model P) : sized m -> sized (Ui.setFocus P m).
Proof.
  unfold sized, Ui.setFocus. cbn. now rewrite !length_focusLoop.
Qed.

Lemma cursor_setFocus (m : Ui.model P) : cursorOK m -> cursorOK (Ui.setFocus P m).
Proof. exact id. Qed.

Lemma data_setFocus (m : Ui.model P) : data (Ui.setFocus P m) = data m.
Proof. reflexivity. Qed.

Lemma lookup_row (m : Ui.model P) :
  sized m -> (0 <= Ui.currRow m < 25)%Z ->
  Ui.rows m !! Z.to_nat (Ui.currRow m)
  = Some (nth (Z.to_nat (Ui.currRow m)) (Ui.rows m) Parser.zeroRow)
  /\ length (Col (nth (Z.to_nat (Ui.currRow m)) (Ui.rows m) Parser.zeroRow)) = 12.
Proof.
  intros (_ & Hrows & Hcols & _) Hr.
  assert (Hlt : Z.to_nat (Ui.currRow m) < length (Ui.rows m)) by lia.
  destruct (lookup_lt_is_Some_2 _ _ Hlt) as [row Hrow].
  rewrite (nth_lookup_Some _ _ Parser.zeroRow _ Hrow). split; [exact Hrow|].
  rewrite Forall_lookup in Hcols. exact (Hcols _ _ Hrow).
Qed.

(** [commitCurrent] does not panic while the row index is in range, and
    gives [committed]. *)
Lemma commitCurrent_closed (m : Ui.model P) :
  sized m -> (0 <= Ui.currRow m < 25)%Z -> Ui.commitCurrent P m = Some (committed m).
Proof.
  intros Hs Hr. destruct (lookup_row m Hs Hr) as [Hrow Hcol].
  destruct Hs as (Hh & Hrows & Hcols & Hf & Hhi & Hbi & Hfi).
  unfold Ui.commitCurrent, committed. destruct (Ui.mode m); try reflexivity.
  - now rewrite commitLoop_values by lia.
  - rewrite (commitRowLoop_closed _ _ _ _ _ (proj1 Hr) Hrow).
    now rewrite commitLoop_values by lia.
  - now rewrite commitLoop_values by lia.
Qed.

Lemma loadCurrent_closed (m : Ui.model P) :
  sized m -> (0 <= Ui.currRow m < 25)%Z -> Ui.loadCurrent P m = Some (loaded m).
Proof.
  intros Hs Hr. destruct (lookup_row m Hs Hr) as [Hrow Hcol].
  destruct Hs as (Hh & Hrows & Hcols & Hf & Hhi & Hbi & Hfi).
  unfold Ui.loadCurrent, loaded. destruct (Ui.mode m); try reflexivity.
  - now rewrite loadLoop_zip by lia.
  - rewrite (loadRowLoop_closed _ _ _ _ _ (proj1 Hr) Hrow).
    now rewrite loadLoop_zip by lia.
  - now rewrite loadLoop_zip by lia.
Qed.

Lemma length_values (ins : list (Ui.Input P)) : length (values ins) = length ins.
Proof. apply length_map. Qed.

Lemma sized_committed (m : Ui.model P) :
  sized m -> (0 <= Ui.currRow m < 25)%Z -> sized (committed m).
Proof.
  intros (Hh & Hrows & Hcols & Hf & Hhi & Hbi & Hfi) Hr.
  unfold committed, sized. destruct (Ui.mode m); cbn; rewrite ?length_values, ?length_insert;
    repeat split; try assumption.
  apply Forall_insert; [exact Hcols|]. cbn. now rewrite length_values.
Qed.

Lemma sized_loaded (m : Ui.model P) :
  sized m -> (0 <= Ui.currRow m < 25)%Z -> sized (loaded m).
Proof.
  intros Hs Hr. destruct (lookup_row m Hs Hr) as [_ Hcol].
  destruct Hs as (Hh & Hrows & Hcols & Hf & Hhi & Hbi & Hfi).
  unfold loaded. apply sized_setFocus.
  unfold sized. destruct (Ui.mode m); cbn; rewrite ?length_zip_with; repeat split;
    try assumption; lia.
Qed.

Lemma frame_committed (m : Ui.model P) :
  Ui.mode (committed m) = Ui.mode m /\ Ui.currRow (committed m) = Ui.currRow m
  /\ Ui.currCol (committed m) = Ui.currCol m /\ Ui.yearIdx (committed m) = Ui.yearIdx m
  /\ Ui.headIn (committed m) = Ui.headIn m /\ Ui.bodyIn (committed m) = Ui.bodyIn m
  /\ Ui.footIn (committed m) = Ui.footIn m.
Proof. unfold committed. destruct (Ui.mode m) eqn:E; cbn; rewrite ?E; now repeat split. Qed.

Lemma frame_loaded (m : Ui.model P) :
  Ui.mode (loaded m) = Ui.mode m /\ Ui.currRow (loaded m) = Ui.currRow m
  /\ Ui.currCol (loaded m) = Ui.currCol m /\ Ui.yearIdx (loaded m) = Ui.yearIdx m
  /\ data (loaded m) = data m.
Proof. unfold loaded. destruct (Ui.mode m) eqn:E; cbn; rewrite ?E; now repeat split. Qed.

End UiClosed.

(** *** Go's remainder on the indices *)

Lemma wrap_next (c n : Z) :
  (0 <= c < n)%Z -> (n < 2 ^ 62)%Z ->
  Z.rem (intAdd (intAdd c 1) n) n = ((c + 1) mod n)%Z
  /\ Z.rem (intAdd (intAdd c (-1)) n) n = ((c - 1) mod n)%Z
  /\ Z.rem (intAdd c 1) n = ((c + 1) mod n)%Z
  /\ (0 <= (c + 1) mod n < n)%Z /\ (0 <= (c - 1) mod n < n)%Z.
Proof.
  intros Hc Hn.
  rewrite !intAdd_small by (rewrite ?intAdd_small; lia).
  rewrite !Z.rem_mod_nonneg by lia.
  replace (c + 1 + n)%Z with (c + 1 + 1 * n)%Z by lia.
  replace (c + -1 + n)%Z with (c - 1 + 1 * n)%Z by lia.
  rewrite !Z_mod_plus_full.
  repeat split; apply Z.mod_pos_bound; lia.
Qed.

Lemma editMode_eqb_body {P : Ui.Platform} (m : Ui.model P) :
  (Ui.mode m = Ui.modeBody /\ Ui.editMode_eqb (Ui.mode m) Ui.modeBody = true)
  \/ (Ui.mode m <> Ui.modeBody /\ Ui.editMode_eqb (Ui.mode m) Ui.modeBody = false).
Proof. destruct (Ui.mode m); (now left) || (now right). Qed.

Section UiUpdate.
  Context {P : Ui.Platform}.
  Variable writeHTML :
    list string -> list Row -> list string -> string -> Ui.Disk P
    -> Ui.Disk P * option (Ui.Error P).

Lemma passKey_closed (k : Ui.KeyMsg P) (m : Ui.model P) :
  sized m -> cursorOK m ->
  exists m',
    Ui.passKey P k m = Some m' /\ sized m' /\ cursorOK m' /\ data m' = data m
    /\ Ui.mode m' = Ui.mode m /\ Ui.currRow m' = Ui.currRow m
    /\ Ui.currCol m' = Ui.currCol m /\ Ui.yearIdx m' = Ui.yearIdx m.
Proof.
  intros Hs Hc. pose proof Hs as (Hh & Hrows & Hcols & Hf & Hhi & Hbi & Hfi).
  pose proof Hc as (Hy & Hr & Hcol).
  unfold Ui.passKey. destruct (Ui.mode m) eqn:Em; cbn [width] in Hcol.
  - exists m. now rewrite Em.
  - destruct (index_Some (Ui.headIn m) (Ui.currCol m)) as (x & Hx & _); [lia|].
    rewrite Hx, store_Some by lia. eexists. split; [reflexivity|].
    unfold sized, cursorOK. cbn. rewrite Em, length_insert. cbn [width]. now repeat split.
  - destruct (index_Some (Ui.bodyIn m) (Ui.currCol m)) as (x & Hx & _); [lia|].
    rewrite Hx, store_Some by lia. eexists. split; [reflexivity|].
    unfold sized, cursorOK. cbn. rewrite Em, length_insert. cbn [width]. now repeat split.
  - destruct (index_Some (Ui.footIn m) (Ui.currCol m)) as (x & Hx & _); [lia|].
    rewrite Hx, store_Some by lia. eexists. split; [reflexivity|].
    unfold sized, cursorOK. cbn. rewrite Em, length_insert. cbn [width]. now repeat split.
  - exists m. now rewrite Em.
Qed.

Lemma switchMode_closed (next : Ui.editMode) (m : Ui.model P) :
  sized m -> (0 <= Ui.currRow m < 25)%Z ->
  Ui.switchMode P next m
  = Some (loaded (Ui.setCurrCol P 0 (Ui.setMode P next (committed m)))).
Proof.
  intros Hs Hr. unfold Ui.switchMode. rewrite commitCurrent_closed by assumption.
  apply loadCurrent_closed.
  - pose proof (sized_committed m Hs Hr) as H. exact H.
  - cbn. now rewrite (proj1 (proj2 (frame_committed m))).
Qed.

Lemma good_switched (next : Ui.editMode) (m : Ui.model P) :
  sized m -> cursorOK m -> editing next = true ->
  sized (loaded (Ui.setCurrCol P 0 (Ui.setMode P next (committed m))))
  /\ cursorOK (loaded (Ui.setCurrCol P 0 (Ui.setMode P next (committed m)))).
Proof.
  intros Hs (Hy & Hr & Hc) Hn.
  destruct (frame_committed m) as (Fm & Fr & Fc & Fy & _).
  split.
  - apply sized_loaded; [exact (sized_committed m Hs Hr) | cbn; now rewrite Fr].
  - destruct (frame_loaded (Ui.setCurrCol P 0 (Ui.setMode P next (committed m))))
      as (Lm & Lr & Lc & Ly & _).
    unfold cursorOK. rewrite Lm, Lr, Lc, Ly. cbn. rewrite Fr, Fy.
    repeat split; try lia. destruct next; cbn; (lia || discriminate).
Qed.

Lemma sized_wrapCol (m : Ui.model P) : sized m -> sized (Ui.wrapCol P m).
Proof. unfold Ui.wrapCol. now destruct (Ui.mode m). Qed.

(** Tab and Shift-Tab: the next and the previous column of the mode. *)
Lemma tab_closed (m : Ui.model P) :
  cursorOK m -> editing (Ui.mode m) = true ->
  Ui.wrapCol P (Ui.setCurrCol P (intAdd (Ui.currCol m) 1) m)
  = Ui.setCurrCol P ((Ui.currCol m + 1) mod width (Ui.mode m)) m
  /\ Ui.wrapCol P (Ui.setCurrCol P (intAdd (Ui.currCol m) (-1)) m)
     = Ui.setCurrCol P ((Ui.currCol m - 1) mod width (Ui.mode m)) m.
Proof.
  intros (_ & _ & Hc) He. unfold Ui.wrapCol. cbn.
  change (Z.of_nat Parser.HeadCount) with 7%Z.
  change (Z.of_nat Parser.FieldCount) with 12%Z.
  change (Z.of_nat Parser.FootCount) with 4%Z.
  destruct (Ui.mode m); try discriminate; cbn [width] in *;
    [ destruct (wrap_next (Ui.currCol m) 7 Hc eq_refl) as (Hn & Hp & _)
    | destruct (wrap_next (Ui.currCol m) 12 Hc eq_refl) as (Hn & Hp & _)
    | destruct (wrap_next (Ui.currCol m) 4 Hc eq_refl) as (Hn & Hp & _) ];
    cbn; now rewrite Hn, Hp.
Qed.

Lemma editKey_safe (k : Ui.KeyMsg P) (m : Ui.model P) (w : Ui.World P) :
  sized m -> cursorOK m -> editing (Ui.mode m) = true ->
  exists r,
    Ui.editKey P writeHTML k m w = Some r
    /\ match r with
       | inl (m', _, _) =>
           sized m' /\ cursorOK m'
           /\ (isCtrlO (Ui.keyType P k) = false -> editing (Ui.mode m') = true)
       | inr (m', _) => sized m' /\ cursorOK m' /\ editing (Ui.mode m') = true
       end.
Proof.
  intros Hs Hc He. pose proof Hc as (Hy & Hr & Hcol).
  destruct (frame_committed m) as (Fm & Fr & Fc & Fy & _).
  assert (Hsc : sized (committed m)) by exact (sized_committed m Hs Hr).
  assert (Hcc : cursorOK (committed m)) by (unfold cursorOK; now rewrite Fm, Fr, Fc, Fy).
  unfold Ui.editKey. destruct (Ui.keyType P k).
  - eexists. split; [reflexivity|]. exact (conj Hs (conj Hc (fun _ => He))).
  - eexists. split; [reflexivity|]. exact (conj Hs (conj Hc (fun _ => He))).
  - (* Up *)
    destruct (editMode_eqb_body m) as [[Eb ->]|[Eb ->]]; cbn [andb];
      [|eexists; split; [reflexivity | exact (conj Hs (conj Hc He))]].
    destruct (Z.ltb_spec 0 (Ui.currRow m));
      [|eexists; split; [reflexivity | exact (conj Hs (conj Hc He))]].
    rewrite commitCurrent_closed by assumption.
    rewrite loadCurrent_closed; [| exact Hsc | cbn; rewrite Fr, intAdd_small; lia].
    eexists. split; [reflexivity|].
    destruct (frame_loaded (Ui.setCurrRow P (intAdd (Ui.currRow (committed m)) (-1))
                              (committed m))) as (Lm & Lr & Lc & Ly & _).
    split; [apply sized_loaded; [exact Hsc | cbn; rewrite Fr, intAdd_small; lia]|].
    unfold cursorOK. rewrite Lm, Lr, Lc, Ly. cbn. rewrite Fm, Fr, Fc, Fy, intAdd_small by lia.
    repeat split; try lia. now rewrite Eb.
  - (* Down *)
    destruct (editMode_eqb_body m) as [[Eb ->]|[Eb ->]]; cbn [andb];
      [|eexists; split; [reflexivity | exact (conj Hs (conj Hc He))]].
    destruct (Z.ltb_spec (Ui.currRow m) (Z.of_nat Parser.RowCount - 1)) as [Hlt|Hge];
      [|eexists; split; [reflexivity | exact (conj Hs (conj Hc He))]].
    unfold Parser.RowCount in Hlt.
    rewrite commitCurrent_closed by assumption.
    rewrite loadCurrent_closed; [| exact Hsc | cbn; rewrite Fr, intAdd_small; lia].
    eexists. split; [reflexivity|].
    destruct (frame_loaded (Ui.setCurrRow P (intAdd (Ui.currRow (committed m)) 1)
                              (committed m))) as (Lm & Lr & Lc & Ly & _).
    split; [apply sized_loaded; [exact Hsc | cbn; rewrite Fr, intAdd_small; lia]|].
    unfold cursorOK. rewrite Lm, Lr, Lc, Ly. cbn. rewrite Fm, Fr, Fc, Fy, intAdd_small by lia.
    repeat split; try lia. now rewrite Eb.
  - eexists. split; [reflexivity | exact (conj Hs (conj Hc He))].
  - rewrite switchMode_closed by assumption.
    destruct (good_switched Ui.modeHeader m Hs Hc eq_refl) as [G1 G2].
    eexists. split; [reflexivity|]. refine (conj G1 (conj G2 _)).
    now rewrite (proj1 (frame_loaded _)).
  - rewrite switchMode_closed by assumption.
    destruct (good_switched Ui.modeBody m Hs Hc eq_refl) as [G1 G2].
    eexists. split; [reflexivity|]. refine (conj G1 (conj G2 _)).
    now rewrite (proj1 (frame_loaded _)).
  - rewrite switchMode_closed by assumption.
    destruct (good_switched Ui.modeFooter m Hs Hc eq_refl) as [G1 G2].
    eexists. split; [reflexivity|]. refine (conj G1 (conj G2 _)).
    now rewrite (proj1 (frame_loaded _)).
  - (* Ctrl-O *)
    rewrite commitCurrent_closed by assumption.
    eexists. split; [reflexivity|]. split; [exact Hsc|].
    split; [|intros H; discriminate H].
    unfold cursorOK. cbn. rewrite Fr, Fc, Fy. repeat split; try lia.
    destruct (Ui.mode m); cbn in *; lia.
  - (* Tab *)
    rewrite (proj1 (tab_closed m Hc He)).
    eexists. split; [reflexivity|]. split; [apply sized_setFocus; exact Hs|]. split; [|exact He].
    unfold cursorOK. cbn. repeat split; try lia; apply Z.mod_pos_bound; lia.
  - rewrite (proj2 (tab_closed m Hc He)).
    eexists. split; [reflexivity|]. split; [apply sized_setFocus; exact Hs|]. split; [|exact He].
    unfold cursorOK. cbn. repeat split; try lia; apply Z.mod_pos_bound; lia.
  - (* Ctrl-N *)
    destruct (Ui.editMode_eqb (Ui.mode m) Ui.modeBody);
      (eexists; split; [reflexivity|]); [|exact (conj Hs (conj Hc He))].
    split; [|exact (conj Hc He)].
    destruct Hs as (? & ? & ? & ? & ? & ? & ?). unfold sized. cbn. rewrite length_map.
    now repeat split.
  - (* Ctrl-W *)
    rewrite commitCurrent_closed by assumption.
    destruct (writeHTML _ _ _ _ _) as [d [err|]];
      (eexists; split; [reflexivity|]); (split; [exact Hsc|]);
      (split; [exact Hcc | cbn; now rewrite Fm]).
  - eexists. split; [reflexivity | exact (conj Hs (conj Hc He))].
Qed.

(** Outside the file picker [Update] does not panic, its result has arrays
    of the declared lengths and indices in range, and only Ctrl-O opens the
    picker. *)
Lemma Update_safe (msg : Ui.Msg (Ui.KeyMsg P) (Ui.OtherMsg P)) (m : Ui.model P)
    (w : Ui.World P) :
  sized m -> cursorOK m -> Ui.mode m <> Ui.modePickFile ->
  exists m' cmd w',
    Ui.Update P writeHTML msg m w = Some (m', cmd, w') /\ sized m' /\ cursorOK m'
    /\ (opensPicker msg = false -> Ui.mode m' <> Ui.modePickFile).
Proof.
  intros Hs Hc Hmode.
  unfold Ui.Update.
  set (m0 := Ui.setJustRead P false (Ui.setJustWrote P false m)).
  assert (Hs0 : sized m0) by exact Hs. assert (Hc0 : cursorOK m0) by exact Hc.
  assert (Hm0 : Ui.mode m0 = Ui.mode m) by reflexivity.
  clearbody m0. rewrite <- Hm0 in Hmode.
  pose proof Hc0 as (Hy & Hr & Hcol).
  assert (Hedit : forall k : Ui.KeyMsg P, editing (Ui.mode m0) = true ->
            exists m' cmd w',
              match Ui.editKey P writeHTML k m0 w with
              | None => None
              | Some (inl r) => Some r
              | Some (inr (m1, w1)) =>
                  match Ui.passKey P k m1 with
                  | None => None
                  | Some m2 => Some (m2, None, w1)
                  end
              end = Some (m', cmd, w') /\ sized m' /\ cursorOK m'
              /\ (opensPicker (Ui.KeyPress k : Ui.Msg (Ui.KeyMsg P) (Ui.OtherMsg P)) = false
                  -> Ui.mode m' <> Ui.modePickFile)).
  { intros k He. destruct (editKey_safe k m0 w Hs0 Hc0 He) as (r & Hr' & Hgood).
    rewrite Hr'. destruct r as [[[m1 cmd] w1]|[m1 w1]].
    - exists m1, cmd, w1. destruct Hgood as (G1 & G2 & G3).
      refine (conj eq_refl (conj G1 (conj G2 _))). intros Hk. specialize (G3 Hk).
      intros E. rewrite E in G3. discriminate G3.
    - destruct Hgood as (G1 & G2 & G3).
      destruct (passKey_closed k m1 G1 G2) as (m2 & Hpass & G4 & G5 & _ & Hm2 & _).
      rewrite Hpass. exists m2, None, w1. refine (conj eq_refl (conj G4 (conj G5 _))).
      intros _ E. rewrite <- Hm2, E in G3. discriminate G3. }
  destruct (Ui.mode m0) eqn:Em; [| | | |contradiction];
    assert (Hstay : Ui.mode m0 <> Ui.modePickFile) by (rewrite Em; discriminate).
  - (* the year menu *)
    unfold Ui.updateYear.
    destruct msg as [km|o];
      [|exists m0, None, w; exact (conj eq_refl (conj Hs0 (conj Hc0 (fun _ => Hstay))))].
    destruct (wrap_next (Ui.yearIdx m0) 9 Hy eq_refl) as (Hn & Hp & Hd & Bn & Bp).
    change (Z.of_nat (length Ui.censusYears)) with 9%Z.
    destruct (Ui.keyType P km);
      try (eexists _, _, _; exact (conj eq_refl (conj Hs0 (conj Hc0 (fun _ => Hstay))))).
    + eexists _, _, _. split; [reflexivity|]. split; [exact Hs0|].
      split; [|intros _; exact Hstay].
      unfold cursorOK. cbn. rewrite Hp, Em. cbn in *. lia.
    + eexists _, _, _. split; [reflexivity|]. split; [exact Hs0|].
      split; [|intros _; exact Hstay].
      unfold cursorOK. cbn. rewrite Hd, Em. cbn in *. lia.
    + destruct (index_Some Ui.censusYears (Ui.yearIdx m0)) as (y & Hy' & _); [cbn; lia|].
      rewrite Hy'. rewrite loadCurrent_closed by (exact Hs0 || exact Hr).
      eexists _, _, _. split; [reflexivity|].
      destruct (frame_loaded (Ui.setMode P Ui.modeHeader (Ui.setYear P y m0)))
        as (Lm & Lr & Lc & Ly & _).
      split; [apply sized_loaded; [exact Hs0 | exact Hr]|].
      split; [|intros _; rewrite Lm; discriminate].
      unfold cursorOK. rewrite Lm, Lr, Lc, Ly. cbn. cbn in Hcol. lia.
  - destruct msg as [k|o];
      [exact (Hedit k eq_refl)
      |exists m0, None, w; exact (conj eq_refl (conj Hs0 (conj Hc0 (fun _ => Hstay))))].
  - destruct msg as [k|o];
      [exact (Hedit k eq_refl)
      |exists m0, None, w; exact (conj eq_refl (conj Hs0 (conj Hc0 (fun _ => Hstay))))].
  - destruct msg as [k|o];
      [exact (Hedit k eq_refl)
      |exists m0, None, w; exact (conj eq_refl (conj Hs0 (conj Hc0 (fun _ => Hstay))))].
Qed.

End UiUpdate.

(** *** The year menu *)

(** X6.  In the year menu Down and Up move the mark to the next and the previous
    year, around the ends of the list, and Enter takes the marked year and
    opens the header; the data stay as they are. *)
Theorem year_menu :
  forall (P : Ui.Platform)
         (writeHTML : list string -> list Row -> list string -> string -> Ui.Disk P
                      -> Ui.Disk P * option (Ui.Error P))
         (m : Ui.model P) (w : Ui.World P) (km : Ui.KeyMsg P),
    Ui.mode m = Ui.modeYearSelect -> sized m -> cursorOK m ->
    (Ui.keyType P km = Ui.KeyDown ->
     exists m', Ui.Update P writeHTML (Ui.KeyPress km) m w = Some (m', None, w)
                /\ Ui.yearIdx m' = ((Ui.yearIdx m + 1) mod 9)%Z
                /\ Ui.mode m' = Ui.modeYearSelect /\ data m' = data m)
    /\ (Ui.keyType P km = Ui.KeyUp ->
        exists m', Ui.Update P writeHTML (Ui.KeyPress km) m w = Some (m', None, w)
                   /\ Ui.yearIdx m' = ((Ui.yearIdx m - 1) mod 9)%Z
                   /\ Ui.mode m' = Ui.modeYearSelect /\ data m' = data m)
    /\ (Ui.keyType P km = Ui.KeyEnter ->
        exists m', Ui.Update P writeHTML (Ui.KeyPress km) m w = Some (m', None, w)
                   /\ Ui.censusYears !! Z.to_nat (Ui.yearIdx m) = Some (Ui.year m')
                   /\ Ui.mode m' = Ui.modeHeader /\ data m' = data m
                   /\ Ui.headIn m'
                      = Ui.focusLoop P true (Ui.currCol m)
                          (zip_with (Ui.tiSetValue P) (Ui.header m) (Ui.headIn m)) 0).
Proof.
  intros P writeHTML m w km Em Hs Hc. pose proof Hc as (Hy & Hr & Hcol).
  destruct (wrap_next (Ui.yearIdx m) 9 Hy eq_refl) as (Hn & Hp & Hd & Bn & Bp).
  unfold Ui.Update. cbv zeta. cbn [Ui.mode Ui.setJustRead Ui.setJustWrote]. rewrite Em.
  unfold Ui.updateYear.
  change (Z.of_nat (length Ui.censusYears)) with 9%Z.
  split; [|split]; intros Ek; rewrite Ek.
  - eexists. split; [reflexivity|]. cbn -[intAdd Z.rem Z.modulo].
    change (Z.of_nat 9) with 9%Z. now rewrite Hd, Em.
  - eexists. split; [reflexivity|]. cbn -[intAdd Z.rem Z.modulo].
    change (Z.of_nat 9) with 9%Z. now rewrite Hp, Em.
  - destruct (index_Some Ui.censusYears (Ui.yearIdx m)) as (y & Hy' & Hy''); [cbn; lia|].
    cbn [Ui.yearIdx Ui.setJustRead Ui.setJustWrote]. rewrite Hy'.
    rewrite loadCurrent_closed by (exact Hs || exact Hr).
    eexists. split; [reflexivity|]. now rewrite Hy''.
Qed.

Lemma ParseHTML_sizes {error : Type} (clean : string -> string)
    (osOpen : string -> string + error) (htmlParse : string -> Node + error) (path : string) :
  match Parser.ParseHTML clean osOpen htmlParse path with
  | (h, rows, f, _) =>
      length h = 7 /\ length rows = 25 /\ Forall (fun r => length (Col r) = 12) rows
      /\ length f = 4
  end.
Proof.
  unfold Parser.ParseHTML.
  destruct (osOpen (clean path)) as [file|e]; [|exact zero_sizes].
  destruct (htmlParse file) as [doc|e]; [|exact zero_sizes].
  pose proof (decodeDoc_sizes doc) as H.
  now destruct (Parser.decodeDoc doc) as [[h rows] f].
Qed.

Lemma focusLoop_blur {P : Ui.Platform} (col : Z) (ins : list (Ui.Input P)) (i : nat) :
  Ui.focusLoop P false col ins i = map (Ui.tiBlur P) ins.
Proof.
  revert i. induction ins as [|inp ins IH]; intros i; [reflexivity|].
  cbn [Ui.focusLoop andb map]. now rewrite IH.
Qed.

(** *** Tab and Shift-Tab *)

(** X7.  In an editing mode Tab and Shift-Tab move to the next and the previous
    input of the mode, around the ends; they store nothing. *)
Theorem tab_cycles :
  forall (P : Ui.Platform)
         (writeHTML : list string -> list Row -> list string -> string -> Ui.Disk P
                      -> Ui.Disk P * option (Ui.Error P))
         (m : Ui.model P) (w : Ui.World P) (km : Ui.KeyMsg P),
    editing (Ui.mode m) = true -> sized m -> cursorOK m ->
    (Ui.keyType P km = Ui.KeyTab ->
     exists m', Ui.Update P writeHTML (Ui.KeyPress km) m w = Some (m', None, w)
                /\ Ui.currCol m' = ((Ui.currCol m + 1) mod width (Ui.mode m))%Z
                /\ Ui.mode m' = Ui.mode m /\ Ui.currRow m' = Ui.currRow m
                /\ data m' = data m)
    /\ (Ui.keyType P km = Ui.KeyShiftTab ->
        exists m', Ui.Update P writeHTML (Ui.KeyPress km) m w = Some (m', None, w)
                   /\ Ui.currCol m' = ((Ui.currCol m - 1) mod width (Ui.mode m))%Z
                   /\ Ui.mode m' = Ui.mode m /\ Ui.currRow m' = Ui.currRow m
                   /\ data m' = data m).
Proof.
  intros P writeHTML m w km He Hs Hc.
  set (m0 := Ui.setJustRead P false (Ui.setJustWrote P false m)).
  assert (Hs0 : sized m0) by exact Hs. assert (Hc0 : cursorOK m0) by exact Hc.
  assert (He0 : editing (Ui.mode m0) = true) by exact He.
  destruct (tab_closed m0 Hc0 He0) as [Hn Hp].
  pose proof Hc as (Hy & Hr & Hcol).
  assert (Hw : (0 < width (Ui.mode m))%Z) by lia.
  unfold Ui.Update. cbv zeta. fold m0.
  change (Ui.mode m0) with (Ui.mode m) in *. change (Ui.currCol m0) with (Ui.currCol m) in *.
  split; intros Ek.
  - assert (Hedit : Ui.editKey P writeHTML km m0 w
                    = Some (inr (Ui.setFocus P
                                   (Ui.setCurrCol P
                                      ((Ui.currCol m + 1) mod width (Ui.mode m)) m0), w))).
    { unfold Ui.editKey. rewrite Ek. change (Ui.currCol m0) with (Ui.currCol m).
      now rewrite Hn. }
    destruct (passKey_closed km
                (Ui.setFocus P
                   (Ui.setCurrCol P ((Ui.currCol m + 1) mod width (Ui.mode m)) m0)))
      as (m' & Hpass & _ & _ & Hd & Hm & Hrow & Hcol' & _).
    { apply sized_setFocus. exact Hs0. }
    { unfold cursorOK. cbn. repeat split; try lia; apply Z.mod_pos_bound; lia. }
    destruct (Ui.mode m) eqn:Em; try discriminate; rewrite Hedit, Hpass;
      (exists m'; split; [reflexivity|]); rewrite Hd, Hm, Hrow, Hcol'; cbn; now rewrite ?Em.
  - assert (Hedit : Ui.editKey P writeHTML km m0 w
                    = Some (inr (Ui.setFocus P
                                   (Ui.setCurrCol P
                                      ((Ui.currCol m - 1) mod width (Ui.mode m)) m0), w))).
    { unfold Ui.editKey. rewrite Ek. change (Ui.currCol m0) with (Ui.currCol m).
      now rewrite Hp. }
    destruct (passKey_closed km
                (Ui.setFocus P
                   (Ui.setCurrCol P ((Ui.currCol m - 1) mod width (Ui.mode m)) m0)))
      as (m' & Hpass & _ & _ & Hd & Hm & Hrow & Hcol' & _).
    { apply sized_setFocus. exact Hs0. }
    { unfold cursorOK. cbn. repeat split; try lia; apply Z.mod_pos_bound; lia. }
    destruct (Ui.mode m) eqn:Em; try discriminate; rewrite Hedit, Hpass;
      (exists m'; split; [reflexivity|]); rewrite Hd, Hm, Hrow, Hcol'; cbn; now rewrite ?Em.
Qed.

(** *** Leaving the file picker *)

(** What [Update] does in the picker when no file is selected and the key
    is Esc or Ctrl-C. *)
Lemma picker_escape {P : Ui.Platform}
    (writeHTML : list string -> list Row -> list string -> string -> Ui.Disk P
                 -> Ui.Disk P * option (Ui.Error P))
    (m : Ui.model P) (w : Ui.World P) (km : Ui.KeyMsg P) :
  Ui.mode m = Ui.modePickFile ->
  Ui.keyType P km = Ui.KeyEsc \/ Ui.keyType P km = Ui.KeyCtrlC ->
  Ui.fpDidSelectFile P (Ui.KeyPress km) (Ui.fpUpdate P (Ui.KeyPress km) (Ui.picker m)).1
  = None ->
  Ui.Update P writeHTML (Ui.KeyPress km) m w
  = Some (Ui.setMode P Ui.modeHeader
            (Ui.setPicker P (Ui.fpUpdate P (Ui.KeyPress km) (Ui.picker m)).1
               (Ui.setJustRead P false (Ui.setJustWrote P false m))),
          None, w).
Proof.
  intros Em Ek Hsel. unfold Ui.Update. cbv zeta.
  cbn [Ui.mode Ui.setJustRead Ui.setJustWrote]. rewrite Em. unfold Ui.updatePicker.
  cbn [Ui.picker Ui.setJustRead Ui.setJustWrote].
  destruct (Ui.fpUpdate P (Ui.KeyPress km) (Ui.picker m)) as [p cmd].
  cbn [fst] in Hsel. cbn [Ui.picker Ui.setPicker]. rewrite Hsel.
  now destruct Ek as [-> | ->].
Qed.

(** In header mode with a column beyond the 7 header inputs, a key that
    neither quits nor moves nor switches makes [Update] panic. *)
Lemma header_overrun {P : Ui.Platform}
    (writeHTML : list string -> list Row -> list string -> string -> Ui.Disk P
                 -> Ui.Disk P * option (Ui.Error P))
    (m : Ui.model P) (w : Ui.World P) (km : Ui.KeyMsg P) :
  Ui.mode m = Ui.modeHeader -> length (Ui.headIn m) = 7 -> (7 <= Ui.currCol m)%Z ->
  In (Ui.keyType P km)
     [Ui.KeyOther; Ui.KeyEnter; Ui.KeyUp; Ui.KeyDown; Ui.KeyCtrlN; Ui.KeyCtrlW] ->
  Ui.Update P writeHTML (Ui.KeyPress km) m w = None.
Proof.
  intros Em Hlen Hcol Hk. unfold Ui.Update. cbv zeta.
  cbn [Ui.mode Ui.setJustRead Ui.setJustWrote]. rewrite Em.
  assert (Hidx : forall ins : list (Ui.Input P), length ins = 7 ->
                 Ui.index ins (Ui.currCol m) = None).
  { intros ins Hins. apply index_None. lia. }
  unfold Ui.editKey.
  cbn in Hk. destruct Hk as [Hk|[Hk|[Hk|[Hk|[Hk|[Hk|[]]]]]]]; rewrite <- Hk;
    cbn [Ui.mode Ui.setJustRead Ui.setJustWrote]; rewrite ?Em; cbn [Ui.editMode_eqb andb];
    unfold Ui.passKey; cbn [Ui.mode Ui.setJustRead Ui.setJustWrote Ui.headIn Ui.currCol];
    rewrite ?Em, ?Hidx by exact Hlen; try reflexivity.
  (* Ctrl-W: the header is stored and the file written before the panic *)
  unfold Ui.commitCurrent. cbn [Ui.mode Ui.setJustRead Ui.setJustWrote]. rewrite Em.
  destruct (writeHTML _ _ _ _ _) as [d [err|]];
    cbn [Ui.mode Ui.setHeader Ui.setJustWrote Ui.setJustRead Ui.headIn Ui.currCol];
    rewrite Em, Hidx by exact Hlen; reflexivity.
Qed.

(** X13.  Esc (or Ctrl-C) in the picker goes to header mode and keeps the
    column: when the picker was opened from body column 8 or beyond, the
    next plain key indexes the 7 header inputs out of range, and [Update]
    panics. *)
Theorem picker_escape_overrun :
  forall (P : Ui.Platform)
         (writeHTML : list string -> list Row -> list string -> string -> Ui.Disk P
                      -> Ui.Disk P * option (Ui.Error P))
         (m : Ui.model P) (w : Ui.World P) (km : Ui.KeyMsg P),
    Ui.mode m = Ui.modePickFile -> sized m -> (7 <= Ui.currCol m)%Z ->
    Ui.keyType P km = Ui.KeyEsc \/ Ui.keyType P km = Ui.KeyCtrlC ->
    Ui.fpDidSelectFile P (Ui.KeyPress km) (Ui.fpUpdate P (Ui.KeyPress km) (Ui.picker m)).1
    = None ->
    exists m1,
      Ui.Update P writeHTML (Ui.KeyPress km) m w = Some (m1, None, w)
      /\ Ui.mode m1 = Ui.modeHeader /\ Ui.currCol m1 = Ui.currCol m
      /\ data m1 = data m
      /\ forall (k2 : Ui.KeyMsg P) (w2 : Ui.World P),
           In (Ui.keyType P k2)
              [Ui.KeyOther; Ui.KeyEnter; Ui.KeyUp; Ui.KeyDown; Ui.KeyCtrlN; Ui.KeyCtrlW] ->
           Ui.Update P writeHTML (Ui.KeyPress k2) m1 w2 = None.
Proof.
  intros P writeHTML m w km Em Hs Hcol Ek Hsel.
  eexists. split; [exact (picker_escape writeHTML m w km Em Ek Hsel)|].
  refine (conj eq_refl (conj eq_refl (conj eq_refl _))).
  intros k2 w2 Hk. apply header_overrun; [reflexivity | | exact Hcol | exact Hk].
  cbn. exact (proj1 (proj2 (proj2 (proj2 (proj2 Hs))))).
Qed.

(** *** Loading a file *)

(** [Update] on a message that selects a file in the picker. *)
Lemma picker_load :
  forall (P : Ui.Platform)
         (writeHTML : list string -> list Row -> list string -> string -> Ui.Disk P
                      -> Ui.Disk P * option (Ui.Error P))
         (m : Ui.model P) (w : Ui.World P) (msg : Ui.Msg (Ui.KeyMsg P) (Ui.OtherMsg P))
         (path : string),
    Ui.mode m = Ui.modePickFile ->
    Ui.fpDidSelectFile P msg (Ui.fpUpdate P msg (Ui.picker m)).1 = Some path ->
    match Parser.ParseHTML (Ui.filepathClean P) (Ui.osOpen P (Ui.disk w)) (Ui.htmlParse P)
            path with
    | (h, r, f, None) =>
        exists m',
          Ui.Update P writeHTML msg m w = Some (m', None, w)
          /\ data m' = (h, r, f) /\ Ui.currRow m' = 0%Z /\ Ui.currCol m' = 0%Z
          /\ Ui.mode m' = Ui.modeHeader /\ Ui.justRead m' = true
          /\ Ui.yearIdx m' = Ui.yearIdx m
          /\ Ui.headIn m' = map (Ui.tiBlur P) (Ui.headIn m)
          /\ Ui.bodyIn m' = map (Ui.tiBlur P) (Ui.bodyIn m)
          /\ Ui.footIn m' = map (Ui.tiBlur P) (Ui.footIn m)
    | (_, _, _, Some err) =>
        exists m',
          Ui.Update P writeHTML msg m w
          = Some (m', None,
                  Ui.mkWorld P (Ui.disk w)
                    (Ui.stderr w ++ [Ui.errorLine P "load error: " err]))
          /\ data m' = data m /\ Ui.currRow m' = Ui.currRow m
          /\ Ui.currCol m' = Ui.currCol m
          /\ Ui.mode m' = Ui.modeHeader /\ Ui.justRead m' = false
          /\ Ui.yearIdx m' = Ui.yearIdx m
          /\ Ui.headIn m' = Ui.headIn m /\ Ui.bodyIn m' = Ui.bodyIn m
          /\ Ui.footIn m' = Ui.footIn m
    end.
Proof.
  intros P writeHTML m w msg path Em Hsel.
  unfold Ui.Update. cbv zeta. cbn [Ui.mode Ui.setJustRead Ui.setJustWrote]. rewrite Em.
  unfold Ui.updatePicker. cbn [Ui.picker Ui.setJustRead Ui.setJustWrote].
  destruct (Ui.fpUpdate P msg (Ui.picker m)) as [p cmd]. cbn [fst] in Hsel.
  cbn [Ui.picker Ui.setPicker]. rewrite Hsel. unfold Ui.loadFromHTML.
  destruct (Parser.ParseHTML _ _ _ path) as [[[h r] f] [err|]].
  - eexists. split; [reflexivity|]. now repeat split.
  - unfold Ui.loadCurrent.
    cbn [Ui.mode Ui.setCurrCol Ui.setCurrRow Ui.setFooter Ui.setRows Ui.setHeader Ui.setPicker
         Ui.setJustRead Ui.setJustWrote].
    rewrite Em. eexists. split; [reflexivity|].
    unfold Ui.setFocus. cbn. rewrite Em. cbn. now rewrite !focusLoop_blur.
Qed.

(** *** Loading a file *)

(** X11.  A file selected in the picker is parsed.  When parsing fails the data
    stay as they are and a line goes to standard error; when it succeeds
    the three aggregates replace the data and row and column are 0.  Either
    way the program is in header mode afterwards, and after a successful
    load no input has been set to a loaded value: the inputs are the old
    ones, blurred. *)
Theorem load_from_picker :
  forall (P : Ui.Platform)
         (writeHTML : list string -> list Row -> list string -> string -> Ui.Disk P
                      -> Ui.Disk P * option (Ui.Error P))
         (m : Ui.model P) (w : Ui.World P) (msg : Ui.Msg (Ui.KeyMsg P) (Ui.OtherMsg P))
         (path : string),
    Ui.mode m = Ui.modePickFile ->
    Ui.fpDidSelectFile P msg (Ui.fpUpdate P msg (Ui.picker m)).1 = Some path ->
    match Parser.ParseHTML (Ui.filepathClean P) (Ui.osOpen P (Ui.disk w)) (Ui.htmlParse P)
            path with
    | (h, r, f, None) =>
        exists m',
          Ui.Update P writeHTML msg m w = Some (m', None, w)
          /\ data m' = (h, r, f) /\ Ui.currRow m' = 0%Z /\ Ui.currCol m' = 0%Z
          /\ Ui.mode m' = Ui.modeHeader /\ Ui.justRead m' = true
          /\ Ui.yearIdx m' = Ui.yearIdx m
          /\ Ui.headIn m' = map (Ui.tiBlur P) (Ui.headIn m)
          /\ Ui.bodyIn m' = map (Ui.tiBlur P) (Ui.bodyIn m)
          /\ Ui.footIn m' = map (Ui.tiBlur P) (Ui.footIn m)
    | (_, _, _, Some err) =>
        exists m',
          Ui.Update P writeHTML msg m w
          = Some (m', None,
                  Ui.mkWorld P (Ui.disk w)
                    (Ui.stderr w ++ [Ui.errorLine P "load error: " err]))
          /\ data m' = data m /\ Ui.currRow m' = Ui.currRow m
          /\ Ui.currCol m' = Ui.currCol m
          /\ Ui.mode m' = Ui.modeHeader /\ Ui.justRead m' = false
          /\ Ui.yearIdx m' = Ui.yearIdx m
          /\ Ui.headIn m' = Ui.headIn m /\ Ui.bodyIn m' = Ui.bodyIn m
          /\ Ui.footIn m' = Ui.footIn m
    end.
Proof.
  intros P writeHTML m w msg path Em Hsel.
  exact (picker_load P writeHTML m w msg path Em Hsel).
Qed.


Lemma data_committed_header {P : Ui.Platform} (m : Ui.model P) :
  Ui.mode m = Ui.modeHeader -> Ui.header (committed m) = values (Ui.headIn m).
Proof. intros Em. unfold committed. now rewrite Em. Qed.

(** X12.  After a successful load the header inputs still hold what they held
    before: the next key that stores the inputs (Ctrl-H, Ctrl-B, Ctrl-F,
    Ctrl-O, Ctrl-W) replaces the header read from the file by their values.
    The inputs keep their value when blurred. *)
Theorem loaded_header_discarded :
  forall (P : Ui.Platform)
         (writeHTML : list string -> list Row -> list string -> string -> Ui.Disk P
                      -> Ui.Disk P * option (Ui.Error P))
         (m : Ui.model P) (w : Ui.World P) (msg : Ui.Msg (Ui.KeyMsg P) (Ui.OtherMsg P))
         (path : string) (h : list string) (r : list Row) (f : list string),
    Ui.mode m = Ui.modePickFile -> sized m -> cursorOK m ->
    Ui.fpDidSelectFile P msg (Ui.fpUpdate P msg (Ui.picker m)).1 = Some path ->
    Parser.ParseHTML (Ui.filepathClean P) (Ui.osOpen P (Ui.disk w)) (Ui.htmlParse P) path
    = (h, r, f, None) ->
    (forall i, Ui.tiValue P (Ui.tiBlur P i) = Ui.tiValue P i) ->
    exists m1,
      Ui.Update P writeHTML msg m w = Some (m1, None, w)
      /\ Ui.header m1 = h
      /\ forall (k2 : Ui.KeyMsg P) (w2 : Ui.World P),
           In (Ui.keyType P k2)
              [Ui.KeyCtrlH; Ui.KeyCtrlB; Ui.KeyCtrlF; Ui.KeyCtrlO; Ui.KeyCtrlW] ->
           exists m2 cmd w3,
             Ui.Update P writeHTML (Ui.KeyPress k2) m1 w2 = Some (m2, cmd, w3)
             /\ Ui.header m2 = values (Ui.headIn m).
Proof.
  intros P writeHTML m w msg path h r f Em Hs Hc Hsel Hparse Hblur.
  pose proof (picker_load P writeHTML m w msg path Em Hsel) as Hload.
  pose proof (ParseHTML_sizes (Ui.filepathClean P) (Ui.osOpen P (Ui.disk w)) (Ui.htmlParse P)
                path) as Hsz.
  rewrite Hparse in Hload, Hsz.
  destruct Hload as (m1 & Hup & Hd & Hrow & Hcol & Hm & _ & Hyi & Hhi & Hbi & Hfi).
  exists m1. split; [exact Hup|]. split; [now injection Hd|].
  assert (Hs1 : sized m1).
  { destruct Hs as (_ & _ & _ & _ & Lh & Lb & Lf). destruct Hsz as (S1 & S2 & S3 & S4).
    injection Hd as D1 D2 D3. unfold sized.
    rewrite D1, D2, D3, Hhi, Hbi, Hfi, !length_map. now repeat split. }
  assert (Hval : values (Ui.headIn m1) = values (Ui.headIn m)).
  { rewrite Hhi. unfold values. rewrite map_map. apply map_ext, Hblur. }
  intros k2 w2 Hk.
  set (m0 := Ui.setJustRead P false (Ui.setJustWrote P false m1)).
  assert (Hs0 : sized m0) by exact Hs1.
  assert (Hm0 : Ui.mode m0 = Ui.modeHeader) by exact Hm.
  assert (Hr0 : (0 <= Ui.currRow m0 < 25)%Z) by (cbn; lia).
  assert (Hc0 : cursorOK m0).
  { unfold cursorOK. cbn. rewrite Hrow, Hcol, Hm, Hyi. cbn. destruct Hc as (Hy & _). lia. }
  assert (Hh0 : Ui.header (committed m0) = values (Ui.headIn m)).
  { rewrite data_committed_header by exact Hm0. exact Hval. }
  destruct (frame_committed m0) as (Fm & Fr & Fc & Fy & _).
  assert (Hsc : sized (committed m0)) by exact (sized_committed m0 Hs0 Hr0).
  assert (Hcc : cursorOK (committed m0)) by (unfold cursorOK; now rewrite Fm, Fr, Fc, Fy).
  assert (Hswitch : forall next, editing next = true ->
            exists m2, Ui.switchMode P next m0 = Some m2
                       /\ (exists m3, Ui.passKey P k2 m2 = Some m3
                                      /\ Ui.header m3 = values (Ui.headIn m))).
  { intros next Hn. rewrite switchMode_closed by assumption.
    eexists. split; [reflexivity|].
    destruct (good_switched next m0 Hs0 Hc0 Hn) as [G1 G2].
    destruct (passKey_closed k2 _ G1 G2) as (m3 & Hpass & _ & _ & Hd3 & _).
    exists m3. split; [exact Hpass|].
    rewrite (proj2 (proj2 (proj2 (proj2 (frame_loaded _))))) in Hd3.
    injection Hd3 as D1 _ _. now rewrite D1. }
  unfold Ui.Update. cbv zeta. fold m0. rewrite Hm0. unfold Ui.editKey.
  cbn in Hk. destruct Hk as [Hk|[Hk|[Hk|[Hk|[Hk|[]]]]]]; rewrite <- Hk.
  - destruct (Hswitch Ui.modeHeader eq_refl) as (m2 & -> & m3 & -> & H3). now eexists _, _, _.
  - destruct (Hswitch Ui.modeBody eq_refl) as (m2 & -> & m3 & -> & H3). now eexists _, _, _.
  - destruct (Hswitch Ui.modeFooter eq_refl) as (m2 & -> & m3 & -> & H3). now eexists _, _, _.
  - rewrite commitCurrent_closed by assumption. now eexists _, _, _.
  - rewrite commitCurrent_closed by assumption.
    destruct (writeHTML _ _ _ _ _) as [d [err|]].
    + destruct (passKey_closed k2 _ Hsc Hcc) as (m3 & -> & _ & _ & Hd3 & _).
      eexists _, _, _. split; [reflexivity|]. injection Hd3 as D1 _ _. now rewrite D1.
    + destruct (passKey_closed k2 (Ui.setJustWrote P true (committed m0)) Hsc Hcc)
        as (m3 & -> & _ & _ & Hd3 & _).
      eexists _, _, _. split; [reflexivity|]. injection Hd3 as D1 _ _. now rewrite D1.
Qed.

(** *** Saving *)

Lemma data_committed_flags {P : Ui.Platform} (m : Ui.model P) :
  data (committed (Ui.setJustRead P false (Ui.setJustWrote P false m))) = data (committed m).
Proof. unfold committed. cbn. now destruct (Ui.mode m). Qed.

Lemma justWrote_passKey {P : Ui.Platform} (k : Ui.KeyMsg P) (m m' : Ui.model P) :
  Ui.passKey P k m = Some m' -> Ui.justWrote m' = Ui.justWrote m.
Proof.
  unfold Ui.passKey.
  destruct (Ui.mode m);
    repeat match goal with
           | |- context [match ?x with Some _ => _ | None => _ end] => destruct x
           end; intros [= <-]; reflexivity.
Qed.

Lemma justWrote_committed {P : Ui.Platform} (m : Ui.model P) :
  Ui.justWrote (committed m) = Ui.justWrote m.
Proof. unfold committed. now destruct (Ui.mode m). Qed.

(** [Update] on a key in an editing mode: the switch on the key type, then
    the key goes to the input. *)
Lemma Update_editing {P : Ui.Platform}
    (writeHTML : list string -> list Row -> list string -> string -> Ui.Disk P
                 -> Ui.Disk P * option (Ui.Error P))
    (k : Ui.KeyMsg P) (m : Ui.model P) (w : Ui.World P) :
  editing (Ui.mode m) = true ->
  Ui.Update P writeHTML (Ui.KeyPress k) m w
  = match Ui.editKey P writeHTML k (Ui.setJustRead P false (Ui.setJustWrote P false m)) w with
    | None => None
    | Some (inl r) => Some r
    | Some (inr (m1, w1)) =>
        match Ui.passKey P k m1 with
        | None => None
        | Some m2 => Some (m2, None, w1)
        end
    end.
Proof.
  intros He. unfold Ui.Update. cbv zeta. cbn [Ui.mode Ui.setJustRead Ui.setJustWrote].
  now destruct (Ui.mode m).
Qed.

(** [Update] on Ctrl-W. *)
Lemma save_closed :
  forall (P : Ui.Platform)
         (writeHTML : list string -> list Row -> list string -> string -> Ui.Disk P
                      -> Ui.Disk P * option (Ui.Error P))
         (m : Ui.model P) (w : Ui.World P) (km : Ui.KeyMsg P),
    editing (Ui.mode m) = true -> sized m -> cursorOK m ->
    Ui.keyType P km = Ui.KeyCtrlW ->
    exists m',
      Ui.Update P writeHTML (Ui.KeyPress km) m w
      = Some (m', None,
              match writeHTML (Ui.header (committed m)) (Ui.rows (committed m))
                      (Ui.footer (committed m)) "census.html" (Ui.disk w) with
              | (d, None) => Ui.mkWorld P d (Ui.stderr w)
              | (d, Some err) =>
                  Ui.mkWorld P d (Ui.stderr w ++ [Ui.errorLine P "save error: " err])
              end)
      /\ data m' = data (committed m)
      /\ Ui.justWrote m'
         = match (writeHTML (Ui.header (committed m)) (Ui.rows (committed m))
                    (Ui.footer (committed m)) "census.html" (Ui.disk w)).2 with
           | None => true
           | Some _ => false
           end
      /\ Ui.mode m' = Ui.mode m /\ Ui.currRow m' = Ui.currRow m
      /\ Ui.currCol m' = Ui.currCol m.
Proof.
  intros P writeHTML m w km He Hs Hc Ek.
  set (m0 := Ui.setJustRead P false (Ui.setJustWrote P false m)).
  assert (Hs0 : sized m0) by exact Hs. assert (Hc0 : cursorOK m0) by exact Hc.
  pose proof Hc0 as (Hy & Hr & Hcol).
  destruct (frame_committed m0) as (Fm & Fr & Fc & Fy & _).
  assert (Hsc : sized (committed m0)) by exact (sized_committed m0 Hs0 Hr).
  assert (Hcc : cursorOK (committed m0)) by (unfold cursorOK; now rewrite Fm, Fr, Fc, Fy).
  pose proof (data_committed_flags m) as Hdata. fold m0 in Hdata.
  assert (Hh : Ui.header (committed m0) = Ui.header (committed m)) by now injection Hdata.
  assert (Hrs : Ui.rows (committed m0) = Ui.rows (committed m)) by now injection Hdata.
  assert (Hf : Ui.footer (committed m0) = Ui.footer (committed m)) by now injection Hdata.
  assert (Hedit :
    Ui.editKey P writeHTML km m0 w
    = match writeHTML (Ui.header (committed m)) (Ui.rows (committed m))
              (Ui.footer (committed m)) "census.html" (Ui.disk w) with
      | (d, None) =>
          Some (inr (Ui.setJustWrote P true (committed m0), Ui.mkWorld P d (Ui.stderr w)))
      | (d, Some err) =>
          Some (inr (committed m0,
                     Ui.mkWorld P d (Ui.stderr w ++ [Ui.errorLine P "save error: " err])))
      end).
  { unfold Ui.editKey. rewrite Ek, commitCurrent_closed by assumption.
    rewrite Hh, Hrs, Hf. now destruct (writeHTML _ _ _ _ _) as [d [err|]]. }
  rewrite (Update_editing writeHTML km m w He). fold m0. rewrite Hedit.
  destruct (writeHTML _ _ _ _ _) as [d [err|]]; cbn [snd].
  - destruct (passKey_closed km _ Hsc Hcc) as (m' & Hpass & _ & _ & Hd & Hm & Hrow & Hcol' & _).
    assert (Hj : Ui.justWrote m' = false).
    { rewrite (justWrote_passKey _ _ _ Hpass). now rewrite justWrote_committed. }
    rewrite Hpass. exists m'.
    refine (conj eq_refl (conj _ (conj Hj (conj _ (conj _ _))))).
    + rewrite Hd. exact Hdata.
    + rewrite Hm. exact Fm.
    + rewrite Hrow. exact Fr.
    + rewrite Hcol'. exact Fc.
  - destruct (passKey_closed km (Ui.setJustWrote P true (committed m0)) Hsc Hcc)
      as (m' & Hpass & _ & _ & Hd & Hm & Hrow & Hcol' & _).
    assert (Hj : Ui.justWrote m' = true) by now rewrite (justWrote_passKey _ _ _ Hpass).
    rewrite Hpass. exists m'.
    refine (conj eq_refl (conj _ (conj Hj (conj _ (conj _ _))))).
    + rewrite Hd. exact Hdata.
    + rewrite Hm. exact Fm.
    + rewrite Hrow. exact Fr.
    + rewrite Hcol'. exact Fc.
Qed.

(** X10.  Ctrl-W stores the inputs of the current mode and hands header, rows and
    footer to the encoder under the name census.html; the data are the
    stored ones whether or not the write succeeds; [justWrote] tells
    whether it did, and a failure puts a line on standard error. *)
Theorem save_writes_committed :
  forall (P : Ui.Platform)
         (writeHTML : list string -> list Row -> list string -> string -> Ui.Disk P
                      -> Ui.Disk P * option (Ui.Error P))
         (m : Ui.model P) (w : Ui.World P) (km : Ui.KeyMsg P),
    editing (Ui.mode m) = true -> sized m -> cursorOK m ->
    Ui.keyType P km = Ui.KeyCtrlW ->
    exists m',
      Ui.Update P writeHTML (Ui.KeyPress km) m w
      = Some (m', None,
              match writeHTML (Ui.header (committed m)) (Ui.rows (committed m))
                      (Ui.footer (committed m)) "census.html" (Ui.disk w) with
              | (d, None) => Ui.mkWorld P d (Ui.stderr w)
              | (d, Some err) =>
                  Ui.mkWorld P d (Ui.stderr w ++ [Ui.errorLine P "save error: " err])
              end)
      /\ data m' = data (committed m)
      /\ Ui.justWrote m'
         = match (writeHTML (Ui.header (committed m)) (Ui.rows (committed m))
                    (Ui.footer (committed m)) "census.html" (Ui.disk w)).2 with
           | None => true
           | Some _ => false
           end
      /\ Ui.mode m' = Ui.mode m /\ Ui.currRow m' = Ui.currRow m
      /\ Ui.currCol m' = Ui.currCol m.
Proof.
  intros P writeHTML m w km He Hs Hc Ek.
  exact (save_closed P writeHTML m w km He Hs Hc Ek).
Qed.

(** *** Moving between the rows *)

(** X8.  In body mode Down and Up store the inputs as the current row and go to
    the next or the previous row; no other row, and neither header nor
    footer, changes.  On the last row Down, and on the first row Up, store
    nothing and stay. *)
Theorem row_navigation :
  forall (P : Ui.Platform)
         (writeHTML : list string -> list Row -> list string -> string -> Ui.Disk P
                      -> Ui.Disk P * option (Ui.Error P))
         (m : Ui.model P) (w : Ui.World P) (km : Ui.KeyMsg P),
    Ui.mode m = Ui.modeBody -> sized m -> cursorOK m ->
    forall step : Z,
    (Ui.keyType P km = Ui.KeyDown /\ step = 1%Z)
    \/ (Ui.keyType P km = Ui.KeyUp /\ step = (-1)%Z) ->
    exists m',
      Ui.Update P writeHTML (Ui.KeyPress km) m w = Some (m', None, w)
      /\ Ui.mode m' = Ui.modeBody /\ Ui.currCol m' = Ui.currCol m
      /\ Ui.header m' = Ui.header m /\ Ui.footer m' = Ui.footer m
      /\ if decide (0 <= Ui.currRow m + step < 25)%Z
         then Ui.currRow m' = (Ui.currRow m + step)%Z
              /\ Ui.rows m'
                 = <[Z.to_nat (Ui.currRow m) := mkRow (values (Ui.bodyIn m))]> (Ui.rows m)
         else Ui.currRow m' = Ui.currRow m /\ Ui.rows m' = Ui.rows m.
Proof.
  intros P writeHTML m w km Em Hs Hc step Ek.
  set (m0 := Ui.setJustRead P false (Ui.setJustWrote P false m)).
  assert (Hs0 : sized m0) by exact Hs. assert (Hc0 : cursorOK m0) by exact Hc.
  assert (Em0 : Ui.mode m0 = Ui.modeBody) by exact Em.
  pose proof Hc0 as (Hy & Hr & Hcol).
  assert (Hr' : (0 <= Ui.currRow m < 25)%Z) by exact Hr.
  destruct (frame_committed m0) as (Fm & Fr & Fc & Fy & _).
  assert (Hsc : sized (committed m0)) by exact (sized_committed m0 Hs0 Hr).
  assert (Hcm : committed m0
                = Ui.setRows P (<[Z.to_nat (Ui.currRow m) := mkRow (values (Ui.bodyIn m))]>
                                  (Ui.rows m)) m0).
  { unfold committed. now rewrite Em0. }
  rewrite (Update_editing writeHTML km m w) by now rewrite Em. fold m0.
  assert (Hmove : forall s : Z, (0 <= Ui.currRow m + s < 25)%Z -> (-1 <= s <= 1)%Z ->
            match Ui.commitCurrent P m0 with
            | Some m1 =>
                match Ui.loadCurrent P (Ui.setCurrRow P (intAdd (Ui.currRow m1) s) m1) with
                | Some m2 => Some (inr (m2, w))
                | None => None
                end
            | None => None
            end
            = Some (inr (loaded (Ui.setCurrRow P (Ui.currRow m + s) (committed m0)), w))
              :> option ((Ui.model P * option (Ui.Cmd P) * Ui.World P)
                         + (Ui.model P * Ui.World P))).
  { intros s Hrange Hs1. rewrite commitCurrent_closed by assumption.
    rewrite Fr. change (Ui.currRow m0) with (Ui.currRow m).
    rewrite intAdd_small by lia.
    now rewrite loadCurrent_closed by (exact Hsc || exact Hrange). }
  assert (Hfinish : forall m1, sized m1 -> cursorOK m1 ->
            exists m', Ui.passKey P km m1 = Some m' /\ data m' = data m1
                       /\ Ui.mode m' = Ui.mode m1 /\ Ui.currRow m' = Ui.currRow m1
                       /\ Ui.currCol m' = Ui.currCol m1).
  { intros m1 S1 C1. destruct (passKey_closed km m1 S1 C1)
      as (m' & Hpass & _ & _ & Hd & Hm & Hrow & Hcol' & _). now exists m'. }
  assert (Hstay : exists m', Ui.passKey P km m0 = Some m' /\ data m' = data m
                             /\ Ui.mode m' = Ui.modeBody /\ Ui.currRow m' = Ui.currRow m
                             /\ Ui.currCol m' = Ui.currCol m).
  { destruct (Hfinish m0 Hs0 Hc0) as (m' & H1 & H2 & H3 & H4 & H5). exists m'.
    now rewrite H1, H2, H3, H4, H5. }
  assert (Hgo : forall s : Z, (0 <= Ui.currRow m + s < 25)%Z ->
            exists m', Ui.passKey P km
                         (loaded (Ui.setCurrRow P (Ui.currRow m + s) (committed m0)))
                       = Some m'
                       /\ Ui.mode m' = Ui.modeBody /\ Ui.currCol m' = Ui.currCol m
                       /\ Ui.header m' = Ui.header m /\ Ui.footer m' = Ui.footer m
                       /\ Ui.currRow m' = (Ui.currRow m + s)%Z
                       /\ Ui.rows m'
                          = <[Z.to_nat (Ui.currRow m) := mkRow (values (Ui.bodyIn m))]>
                              (Ui.rows m)).
  { intros s Hrange.
    destruct (frame_loaded (Ui.setCurrRow P (Ui.currRow m + s) (committed m0)))
      as (Lm & Lr & Lc & Ly & Ld).
    destruct (Hfinish (loaded (Ui.setCurrRow P (Ui.currRow m + s) (committed m0))))
      as (m' & H1 & H2 & H3 & H4 & H5).
    - apply sized_loaded; [exact Hsc | exact Hrange].
    - unfold cursorOK. rewrite Lm, Lr, Lc, Ly. cbn. rewrite Fm, Fc, Fy. now repeat split.
    - exists m'. split; [exact H1|]. rewrite H3, H4, H5, Lm, Lr, Lc. cbn. rewrite Fm, Fc.
      rewrite Ld in H2. rewrite Hcm in H2. injection H2 as -> -> ->. now repeat split. }
  unfold Ui.editKey. destruct Ek as [[Ek ->]|[Ek ->]]; rewrite Ek.
  - rewrite Em0. cbn [Ui.editMode_eqb andb].
    change (Z.of_nat Parser.RowCount - 1)%Z with 24%Z.
    change (Ui.currRow m0) with (Ui.currRow m).
    destruct (Z.ltb_spec (Ui.currRow m) 24) as [Hlt|Hge].
    + rewrite (Hmove 1%Z) by lia. destruct (Hgo 1%Z) as (m' & -> & H); [lia|].
      exists m'. rewrite decide_True by lia. now split.
    + destruct Hstay as (m' & -> & Hd & H). exists m'. rewrite decide_False by lia.
      injection Hd as -> -> ->. destruct H as (? & ? & ?). now repeat split.
  - rewrite Em0. cbn [Ui.editMode_eqb andb].
    change (Ui.currRow m0) with (Ui.currRow m).
    destruct (Z.ltb_spec 0 (Ui.currRow m)) as [Hlt|Hge].
    + rewrite (Hmove (-1)%Z) by lia. destruct (Hgo (-1)%Z) as (m' & -> & H); [lia|].
      exists m'. rewrite decide_True by lia. now split.
    + destruct Hstay as (m' & -> & Hd & H). exists m'. rewrite decide_False by lia.
      injection Hd as -> -> ->. destruct H as (? & ? & ?). now repeat split.
Qed.

(** *** The program does not panic *)

Lemma NewModel_good (P : Ui.Platform) :
  sized (Ui.NewModel P) /\ cursorOK (Ui.NewModel P)
  /\ Ui.mode (Ui.NewModel P) = Ui.modeYearSelect.
Proof.
  destruct zero_sizes as (Z1 & Z2 & Z3 & Z4).
  split; [|split; [|reflexivity]].
  - unfold sized. cbn [Ui.NewModel Ui.header Ui.rows Ui.footer Ui.headIn Ui.bodyIn Ui.footIn].
    rewrite length_alter, !length_map.
    exact (conj Z1 (conj Z2 (conj Z3 (conj Z4 (conj eq_refl (conj eq_refl eq_refl)))))).
  - unfold cursorOK. cbn. lia.
Qed.

Lemma handle_safe {P : Ui.Platform}
    (writeHTML : list string -> list Row -> list string -> string -> Ui.Disk P
                 -> Ui.Disk P * option (Ui.Error P))
    (msgs : list (Ui.Msg (Ui.KeyMsg P) (Ui.OtherMsg P))) :
  forall (m : Ui.model P) (w : Ui.World P),
    sized m -> cursorOK m -> Ui.mode m <> Ui.modePickFile ->
    forallb (fun msg => negb (opensPicker msg)) msgs = true ->
    exists m' w',
      Ui.handle P writeHTML msgs m w = Some (m', w')
      /\ sized m' /\ cursorOK m' /\ Ui.mode m' <> Ui.modePickFile.
Proof.
  induction msgs as [|msg msgs IH]; intros m w Hs Hc Hm Hk.
  - exists m, w. exact (conj eq_refl (conj Hs (conj Hc Hm))).
  - cbn [forallb] in Hk. apply andb_true_iff in Hk as [Hk1 Hk].
    apply negb_true_iff in Hk1.
    destruct (Update_safe writeHTML msg m w Hs Hc Hm) as (m1 & cmd & w1 & Hu & S1 & C1 & M1).
    cbn [Ui.handle]. rewrite Hu. exact (IH m1 w1 S1 C1 (M1 Hk1) Hk).
Qed.

(** X4.  Outside the file picker [Update] handles every message without a
    panic: from a model whose arrays have the declared lengths and whose
    year, row and column are in range it returns such a model, and only
    Ctrl-O takes it to the picker. *)
Theorem update_keeps_bounds :
  forall (P : Ui.Platform)
         (writeHTML : list string -> list Row -> list string -> string -> Ui.Disk P
                      -> Ui.Disk P * option (Ui.Error P))
         (msg : Ui.Msg (Ui.KeyMsg P) (Ui.OtherMsg P)) (m : Ui.model P) (w : Ui.World P),
    sized m -> cursorOK m -> Ui.mode m <> Ui.modePickFile ->
    exists m' cmd w',
      Ui.Update P writeHTML msg m w = Some (m', cmd, w') /\ sized m' /\ cursorOK m'
      /\ (opensPicker msg = false -> Ui.mode m' <> Ui.modePickFile).
Proof.
  intros P writeHTML msg m w Hs Hc Hm. exact (Update_safe writeHTML msg m w Hs Hc Hm).
Qed.

(** X5.  From the model [NewModel] builds, a run of messages without Ctrl-O is
    handled to its end without a panic, whatever the keys, the other
    messages and the outcome of the writes are. *)
Theorem session_never_panics :
  forall (P : Ui.Platform)
         (writeHTML : list string -> list Row -> list string -> string -> Ui.Disk P
                      -> Ui.Disk P * option (Ui.Error P))
         (msgs : list (Ui.Msg (Ui.KeyMsg P) (Ui.OtherMsg P))) (w : Ui.World P),
    forallb (fun msg => negb (opensPicker msg)) msgs = true ->
    exists m' w',
      Ui.handle P writeHTML msgs (Ui.NewModel P) w = Some (m', w')
      /\ sized m' /\ cursorOK m' /\ Ui.mode m' <> Ui.modePickFile.
Proof.
  intros P writeHTML msgs w Hk.
  destruct (NewModel_good P) as (Hs & Hc & Hm).
  apply handle_safe; [exact Hs | exact Hc | rewrite Hm; discriminate | exact Hk].
Qed.

(** *** Ctrl-H, Ctrl-B, Ctrl-F *)

(** X9.  Ctrl-H, Ctrl-B and Ctrl-F store the inputs of the current mode and go
    to header, body and footer mode at column 0; the row stays. *)
Theorem mode_switch :
  forall (P : Ui.Platform)
         (writeHTML : list string -> list Row -> list string -> string -> Ui.Disk P
                      -> Ui.Disk P * option (Ui.Error P))
         (m : Ui.model P) (w : Ui.World P) (km : Ui.KeyMsg P) (next : Ui.editMode),
    editing (Ui.mode m) = true -> sized m -> cursorOK m ->
    (Ui.keyType P km = Ui.KeyCtrlH /\ next = Ui.modeHeader)
    \/ (Ui.keyType P km = Ui.KeyCtrlB /\ next = Ui.modeBody)
    \/ (Ui.keyType P km = Ui.KeyCtrlF /\ next = Ui.modeFooter) ->
    exists m',
      Ui.Update P writeHTML (Ui.KeyPress km) m w = Some (m', None, w)
      /\ Ui.mode m' = next /\ Ui.currCol m' = 0%Z /\ Ui.currRow m' = Ui.currRow m
      /\ data m' = data (committed m).
Proof.
  intros P writeHTML m w km next He Hs Hc Hk.
  set (m0 := Ui.setJustRead P false (Ui.setJustWrote P false m)).
  assert (Hs0 : sized m0) by exact Hs. assert (Hc0 : cursorOK m0) by exact Hc.
  pose proof Hc0 as (Hy & Hr & Hcol).
  assert (Hn : editing next = true) by (destruct Hk as [[_ ->]|[[_ ->]|[_ ->]]]; reflexivity).
  destruct (good_switched next m0 Hs0 Hc0 Hn) as [G1 G2].
  destruct (passKey_closed km _ G1 G2) as (m' & Hpass & _ & _ & Hd & Hm & Hrow & Hcol' & _).
  destruct (frame_loaded (Ui.setCurrCol P 0 (Ui.setMode P next (committed m0))))
    as (Lm & Lr & Lc & _ & Ld).
  destruct (frame_committed m0) as (_ & Fr & _).
  assert (Hedit : Ui.editKey P writeHTML km m0 w
                  = Some (inr (loaded (Ui.setCurrCol P 0 (Ui.setMode P next (committed m0))),
                               w))).
  { unfold Ui.editKey.
    destruct Hk as [[-> ->]|[[-> ->]|[-> ->]]];
      now rewrite switchMode_closed by assumption. }
  rewrite (Update_editing writeHTML km m w He). fold m0. rewrite Hedit, Hpass.
  exists m'. refine (conj eq_refl (conj _ (conj _ (conj _ _)))).
  - rewrite Hm. exact Lm.
  - rewrite Hcol'. exact Lc.
  - rewrite Hrow, Lr. exact Fr.
  - rewrite Hd, Ld. exact (data_committed_flags m).
Qed.

(** *** What Update leaves alone *)

Lemma data_passKey {P : Ui.Platform} (k : Ui.KeyMsg P) (m m' : Ui.model P) :
  Ui.passKey P k m = Some m' -> data m' = data m.
Proof.
  unfold Ui.passKey.
  destruct (Ui.mode m);
    repeat match goal with
           | |- context [match ?x with Some _ => _ | None => _ end] => destruct x
           end; intros [= <-]; reflexivity.
Qed.

Lemma data_loadCurrent {P : Ui.Platform} (m m' : Ui.model P) :
  Ui.loadCurrent P m = Some m' -> data m' = data m.
Proof.
  unfold Ui.loadCurrent.
  destruct (Ui.mode m);
    repeat match goal with
           | |- context [match ?x with Some _ => _ | None => _ end] => destruct x
           end; intros [= <-]; reflexivity.
Qed.

(** X16.  The files change on Ctrl-W in an editing mode and on no other
    message: whatever else [Update] handles, in whatever state, the files
    are afterwards what they were. *)
Theorem only_save_writes :
  forall (P : Ui.Platform)
         (writeHTML : list string -> list Row -> list string -> string -> Ui.Disk P
                      -> Ui.Disk P * option (Ui.Error P))
         (msg : Ui.Msg (Ui.KeyMsg P) (Ui.OtherMsg P)) (m m' : Ui.model P)
         (w w' : Ui.World P) (cmd : option (Ui.Cmd P)),
    Ui.Update P writeHTML msg m w = Some (m', cmd, w') ->
    editing (Ui.mode m) && onKey isCtrlW msg = false ->
    Ui.disk w' = Ui.disk w.
Proof.
  intros P writeHTML msg m m' w w' cmd Hu Hk. revert Hu.
  unfold Ui.Update. cbv zeta. cbn [Ui.mode Ui.setJustRead Ui.setJustWrote].
  set (m0 := Ui.setJustRead P false (Ui.setJustWrote P false m)).
  assert (Hedit : forall k : Ui.KeyMsg P, isCtrlW (Ui.keyType P k) = false ->
            match Ui.editKey P writeHTML k m0 w with
            | Some (inl (_, _, w1)) | Some (inr (_, w1)) => Ui.disk w1 = Ui.disk w
            | None => True
            end).
  { intros k Hw. unfold Ui.editKey.
    destruct (Ui.keyType P k); try discriminate Hw;
      repeat match goal with
             | |- context [Ui.switchMode P ?a ?b] => destruct (Ui.switchMode P a b)
             | |- context [Ui.commitCurrent P ?a] => destruct (Ui.commitCurrent P a)
             | |- context [Ui.loadCurrent P ?a] => destruct (Ui.loadCurrent P a)
             | |- context [if ?b then _ else _] => destruct b
             end; first [exact I | reflexivity]. }
  assert (Hkeys : forall k : Ui.KeyMsg P, isCtrlW (Ui.keyType P k) = false ->
            match Ui.editKey P writeHTML k m0 w with
            | Some (inl r) => Some r
            | Some (inr (m1, w1)) =>
                match Ui.passKey P k m1 with
                | Some m2 => Some (m2, None, w1)
                | None => None
                end
            | None => None
            end = Some (m', cmd, w') -> Ui.disk w' = Ui.disk w).
  { intros k Hw. specialize (Hedit k Hw).
    destruct (Ui.editKey P writeHTML k m0 w) as [[[[m1 c1] w1]|[m1 w1]]|];
      [| |discriminate].
    - intros [= _ _ <-]. exact Hedit.
    - destruct (Ui.passKey P k m1) as [m2|]; [|discriminate].
      intros [= _ _ <-]. exact Hedit. }
  destruct (Ui.mode m) eqn:Em; cbn [editing andb] in Hk.
  - destruct (Ui.updateYear P msg m0) as [[m1 c1]|]; [|discriminate].
    now intros [= _ _ <-].
  - destruct msg as [k|o]; [exact (Hkeys k Hk) | now intros [= _ _ <-]].
  - destruct msg as [k|o]; [exact (Hkeys k Hk) | now intros [= _ _ <-]].
  - destruct msg as [k|o]; [exact (Hkeys k Hk) | now intros [= _ _ <-]].
  - unfold Ui.updatePicker.
    destruct (Ui.fpUpdate P msg (Ui.picker m0)) as [p c].
    destruct (Ui.fpDidSelectFile P msg _).
    + destruct (Ui.loadFromHTML P _ _ _) as [[m1 [err|]]|]; [| |discriminate];
        now intros [= _ _ <-].
    + destruct msg as [k|o]; [destruct (Ui.keyType P k)|]; now intros [= _ _ <-].
Qed.

(** X17.  Outside the picker header, rows and footer change on the keys
    that store the inputs (Ctrl-H, Ctrl-B, Ctrl-F, Ctrl-O, Ctrl-W, Up and
    Down) and on no other message: what is typed stays in the inputs, and
    Esc or Ctrl-C quit without storing it. *)
Theorem typing_keeps_data :
  forall (P : Ui.Platform)
         (writeHTML : list string -> list Row -> list string -> string -> Ui.Disk P
                      -> Ui.Disk P * option (Ui.Error P))
         (msg : Ui.Msg (Ui.KeyMsg P) (Ui.OtherMsg P)) (m m' : Ui.model P)
         (w w' : Ui.World P) (cmd : option (Ui.Cmd P)),
    Ui.Update P writeHTML msg m w = Some (m', cmd, w') ->
    Ui.mode m <> Ui.modePickFile ->
    onKey storesKey msg = false ->
    data m' = data m.
Proof.
  intros P writeHTML msg m m' w w' cmd Hu Hm Hk. revert Hu.
  unfold Ui.Update. cbv zeta. cbn [Ui.mode Ui.setJustRead Ui.setJustWrote].
  set (m0 := Ui.setJustRead P false (Ui.setJustWrote P false m)).
  assert (Hedit : forall k : Ui.KeyMsg P, storesKey (Ui.keyType P k) = false ->
            match Ui.editKey P writeHTML k m0 w with
            | Some (inl (m1, _, _)) | Some (inr (m1, _)) => data m1 = data m
            | None => True
            end).
  { intros k Hs. unfold Ui.editKey.
    destruct (Ui.keyType P k); try discriminate Hs;
      repeat match goal with
             | |- context [if ?b then _ else _] => destruct b
             end;
      first [exact I | reflexivity
            | unfold Ui.wrapCol; cbn [Ui.mode Ui.setCurrCol]; destruct (Ui.mode m0);
              reflexivity]. }
  assert (Hkeys : forall k : Ui.KeyMsg P, storesKey (Ui.keyType P k) = false ->
            match Ui.editKey P writeHTML k m0 w with
            | Some (inl r) => Some r
            | Some (inr (m1, w1)) =>
                match Ui.passKey P k m1 with
                | Some m2 => Some (m2, None, w1)
                | None => None
                end
            | None => None
            end = Some (m', cmd, w') -> data m' = data m).
  { intros k Hs. specialize (Hedit k Hs).
    destruct (Ui.editKey P writeHTML k m0 w) as [[[[m1 c1] w1]|[m1 w1]]|];
      [| |discriminate].
    - intros [= <- _ _]. exact Hedit.
    - destruct (Ui.passKey P k m1) as [m2|] eqn:Hp; [|discriminate].
      intros [= <- _ _]. now rewrite (data_passKey k m1 m2 Hp). }
  destruct (Ui.mode m) eqn:Em; [| | | |contradiction].
  - unfold Ui.updateYear.
    destruct msg as [k|o]; [|now intros [= <- _ _]].
    cbn [onKey] in Hk.
    destruct (Ui.keyType P k); try discriminate Hk; try (now intros [= <- _ _]).
    destruct (Ui.index Ui.censusYears (Ui.yearIdx m0)) as [y|]; [|discriminate].
    destruct (Ui.loadCurrent P _) as [m1|] eqn:Hl; [|discriminate].
    intros [= <- _ _]. now rewrite (data_loadCurrent _ _ Hl).
  - destruct msg as [k|o]; [exact (Hkeys k Hk) | now intros [= <- _ _]].
  - destruct msg as [k|o]; [exact (Hkeys k Hk) | now intros [= <- _ _]].
  - destruct msg as [k|o]; [exact (Hkeys k Hk) | now intros [= <- _ _]].
Qed.

(** ** Pages that are partly filled *)

Lemma omap_headerValue_filter (l : list string) :
  Forall stable l -> omap headerValue l = List.filter nonEmpty l.
Proof.
  induction 1 as [|v l Hv _ IH]; [reflexivity|].
  rewrite omap_cons_eq. cbn [List.filter]. unfold headerValue at 1, nonEmpty at 1.
  destruct (String.eqb v EmptyString); cbn [negb]; [exact IH|].
  now rewrite (proj1 (readBack_stable v Hv)), IH.
Qed.

Lemma filter_nonEmpty_id (l : list string) :
  Forall (fun v => v <> EmptyString) l -> List.filter nonEmpty l = l.
Proof.
  induction 1 as [|v l Hv _ IH]; [reflexivity|].
  cbn [List.filter]. unfold nonEmpty at 1. now rewrite (eqb_nonempty v Hv), IH.
Qed.

Lemma filter_nonEmpty_replicate (k : nat) :
  List.filter nonEmpty (replicate k EmptyString) = [].
Proof. induction k as [|k IH]; [reflexivity | exact IH]. Qed.

Lemma Forall_filter_nonEmpty (l : list string) :
  Forall (fun v => v <> EmptyString) (List.filter nonEmpty l).
Proof.
  apply List.Forall_forall. intros v Hin. apply List.filter_In in Hin as [_ Hv].
  unfold nonEmpty in Hv. apply negb_true_iff in Hv. now apply String.eqb_neq.
Qed.

Lemma length_filter_le {A : Type} (p : A -> bool) (l : list A) :
  length (List.filter p l) <= length l.
Proof.
  induction l as [|x l IH]; [reflexivity|]. cbn. destruct (p x); cbn; lia.
Qed.

(** The header is returned as written exactly when its empty fields come
    last. *)
Lemma header_returned (h : list string) :
  padTo (length h) EmptyString (List.filter nonEmpty h) = h <-> emptyLast h.
Proof.
  split.
  - intros H. exists (List.filter nonEmpty h), (length h - length (List.filter nonEmpty h)).
    split; [|apply Forall_filter_nonEmpty].
    rewrite <- H at 1. unfold padTo.
    rewrite take_ge by apply length_filter_le. reflexivity.
  - intros (l & k & -> & Hl).
    rewrite List.filter_app, filter_nonEmpty_replicate, app_nil_r, filter_nonEmpty_id by exact Hl.
    unfold padTo. rewrite length_app, length_replicate.
    rewrite take_ge by lia. f_equal. f_equal. lia.
Qed.

Lemma firstN_exact (n : nat) (l : list string) : length l = n -> firstN n l = l.
Proof. intros <-. apply firstN_all. Qed.

(** Decode of the encoded page, for stable values. *)
Lemma decode_stable_page (h : list string) (rows : list Row) (f : list string) :
  stablePage h rows f ->
  Parser.decodeDoc (Html.parse (Template.render h rows f))
  = (padTo 7 EmptyString (List.filter nonEmpty h), rows, f)
  /\ Parser.decodeDoc (Html.parse (Main.render h rows f))
     = (padTo 7 EmptyString
          (List.filter nonEmpty h ++ ["Schedule"; "& No. or Name of House"]), rows, f).
Proof.
  intros (Hh & Hrows & Hcols & Hf & Sh & Srows & Sf).
  pose proof (f_equal Parser.decodeDoc (parse_render_main h rows f)) as HM.
  rewrite parse_render, decode_page. rewrite HM, decode_main_page.
  rewrite !(firstN_exact 7 h), !(firstN_exact 4 f) by assumption.
  rewrite omap_headerValue_filter by assumption.
  rewrite map_rowValue_stable by assumption.
  rewrite (proj2 (map_readBack_stable f Sf)).
  rewrite !(padTo_exact Parser.RowCount) by assumption.
  rewrite !(padTo_long Parser.FootCount)
    by (unfold Parser.FootCount; rewrite length_app; cbn; lia).
  rewrite take_app_length' by (symmetry; exact Hf). split; reflexivity.
Qed.

(** Decode of the encoded page for any number of rows. *)
Lemma decode_stable_rows (h : list string) (rows : list Row) (f : list string) :
  length h = 7 -> Forall (fun r => length (Col r) = 12) rows -> length f = 4 ->
  Forall stable h -> Forall (fun r => Forall stable (Col r)) rows -> Forall stable f ->
  Parser.decodeDoc (Html.parse (Template.render h rows f))
  = (padTo 7 EmptyString (List.filter nonEmpty h), padTo 25 Parser.zeroRow rows, f).
Proof.
  intros Hh Hcols Hf Sh Srows Sf.
  rewrite parse_render, decode_page.
  rewrite (firstN_exact 7 h), (firstN_exact 4 f) by assumption.
  rewrite omap_headerValue_filter by assumption.
  rewrite map_rowValue_stable by assumption.
  rewrite (proj2 (map_readBack_stable f Sf)).
  rewrite (padTo_long Parser.FootCount)
    by (unfold Parser.FootCount; rewrite length_app; cbn; lia).
  rewrite take_app_length' by (symmetry; exact Hf). reflexivity.
Qed.

Lemma filter_nonEmpty_full (h : list string) :
  length (List.filter nonEmpty h) = length h -> Forall (fun v => v <> EmptyString) h.
Proof.
  induction h as [|v h IH]; [constructor|].
  cbn [List.filter]. unfold nonEmpty at 1.
  pose proof (length_filter_le nonEmpty h) as Hle.
  destruct (String.eqb_spec v EmptyString) as [->|Hv]; cbn [negb length]; intros Hlen.
  - lia.
  - constructor; [exact Hv | apply IH; lia].
Qed.

(** The header the single-file program reads back is the header written
    exactly when no field is empty. *)
Lemma main_header_returned (h : list string) :
  length h = 7 ->
  padTo 7 EmptyString (List.filter nonEmpty h ++ ["Schedule"; "& No. or Name of House"]) = h
  <-> Forall (fun v => v <> EmptyString) h.
Proof.
  intros Hh. split.
  - intros Heq. apply filter_nonEmpty_full.
    pose proof (length_filter_le nonEmpty h) as Hle.
    destruct (Nat.eq_dec (length (List.filter nonEmpty h)) (length h)) as [E|E]; [exact E|].
    exfalso. apply (f_equal (fun l => length (List.filter nonEmpty l))) in Heq.
    unfold padTo in Heq.
    rewrite take_app, !List.filter_app, filter_nonEmpty_replicate, app_nil_r in Heq.
    rewrite take_ge in Heq by lia.
    rewrite (filter_nonEmpty_id (List.filter nonEmpty h)) in Heq
      by apply Forall_filter_nonEmpty.
    rewrite length_app in Heq.
    destruct (7 - length (List.filter nonEmpty h)) as [|[|n]] eqn:En; [lia| |];
      cbn in Heq; lia.
  - intros Hne. rewrite filter_nonEmpty_id by exact Hne.
    rewrite padTo_app_long by lia. apply padTo_exact, Hh.
Qed.

(** ** Round trips of pages that are partly filled *)

(** X1.  The template package: a page of the declared sizes with stable values,
    written by WriteHTML and read by ParseHTML, returns its rows and its
    footer; of the header it returns the non-empty fields, moved to the
    front.  So the header returns as written exactly when its empty fields
    are the last ones. *)
Theorem header_fields_move_up :
  forall (error FS : Type) (filepathClean : string -> string)
         (osWriteFile : string -> string -> FS -> FS * option error)
         (osOpen : FS -> string -> string + error)
         (h : list string) (rows : list Row) (f : list string)
         (filename : string) (fs fs' : FS),
    (forall name data s s',
        osWriteFile name data s = (s', None) -> osOpen s' (filepathClean name) = inl data) ->
    stablePage h rows f ->
    Template.WriteHTML osWriteFile h rows f filename fs = (fs', None) ->
    Parser.ParseHTML filepathClean (osOpen fs') parseDoc filename
    = (padTo 7 EmptyString (List.filter nonEmpty h), rows, f, None)
    /\ (padTo 7 EmptyString (List.filter nonEmpty h) = h <-> emptyLast h).
Proof.
  intros error FS clean osWriteFile osOpen h rows f filename fs fs' Hfs Hpage Hwrite.
  unfold Template.WriteHTML in Hwrite. apply Hfs in Hwrite.
  split.
  - unfold Parser.ParseHTML, parseDoc. rewrite Hwrite.
    now rewrite (proj1 (decode_stable_page h rows f Hpage)).
  - destruct Hpage as (Hh & _). rewrite <- Hh at 1. apply header_returned.
Qed.

(** X2.  WriteHTML writes as many rows as it is given and ParseHTML returns 25:
    of a longer page the first 25 rows, a shorter page filled up with empty
    rows.  The header has no empty field here, and all values are stable. *)
Theorem rows_cut_or_filled :
  forall (error FS : Type) (filepathClean : string -> string)
         (osWriteFile : string -> string -> FS -> FS * option error)
         (osOpen : FS -> string -> string + error)
         (h : list string) (rows : list Row) (f : list string)
         (filename : string) (fs fs' : FS),
    (forall name data s s',
        osWriteFile name data s = (s', None) -> osOpen s' (filepathClean name) = inl data) ->
    length h = 7 -> Forall (fun r => length (Col r) = 12) rows -> length f = 4 ->
    Forall (fun v => v <> EmptyString) h ->
    Forall stable h -> Forall (fun r => Forall stable (Col r)) rows -> Forall stable f ->
    Template.WriteHTML osWriteFile h rows f filename fs = (fs', None) ->
    Parser.ParseHTML filepathClean (osOpen fs') parseDoc filename
    = (h, take 25 rows ++ replicate (25 - length rows) Parser.zeroRow, f, None).
Proof.
  intros error FS clean osWriteFile osOpen h rows f filename fs fs' Hfs
    Hh Hcols Hf Hne Sh Srows Sf Hwrite.
  unfold Template.WriteHTML in Hwrite. apply Hfs in Hwrite.
  unfold Parser.ParseHTML, parseDoc. rewrite Hwrite.
  rewrite decode_stable_rows by assumption.
  rewrite filter_nonEmpty_id by exact Hne. now rewrite padTo_exact by exact Hh.
Qed.

(** X3.  The single-file program: its page has a second table whose column
    heads No.<br>Schedule and Road, Street, &c;<br>& No. or Name of House
    hold line breaks, and the decoder takes them for header values.  A
    page with stable values, written by writeHTML and read by parseHTML,
    returns its rows and footer; its header returns as written exactly when
    none of the 7 fields is empty, and else the two column heads fill the
    first free slots. *)
Theorem main_round_trip :
  forall (error FS : Type) (filepathClean : string -> string)
         (osWriteFile : string -> string -> FS -> FS * option error)
         (osOpen : FS -> string -> string + error)
         (h : list string) (rows : list Row) (f : list string)
         (filename : string) (fs fs' : FS),
    (forall name data s s',
        osWriteFile name data s = (s', None) -> osOpen s' (filepathClean name) = inl data) ->
    stablePage h rows f ->
    Main.writeHTML osWriteFile h rows f filename fs = (fs', None) ->
    Main.parseHTML filepathClean (osOpen fs') parseDoc filename
    = (padTo 7 EmptyString
         (List.filter nonEmpty h ++ ["Schedule"; "& No. or Name of House"]), rows, f, None)
    /\ (padTo 7 EmptyString
          (List.filter nonEmpty h ++ ["Schedule"; "& No. or Name of House"]) = h
        <-> Forall (fun v => v <> EmptyString) h).
Proof.
  intros error FS clean osWriteFile osOpen h rows f filename fs fs' Hfs Hpage Hwrite.
  unfold Main.writeHTML in Hwrite. apply Hfs in Hwrite.
  split.
  - unfold Main.parseHTML, parseDoc. rewrite Hwrite.
    exact (f_equal (fun d => (d, None)) (proj2 (decode_stable_page h rows f Hpage))).
  - destruct Hpage as (Hh & _). exact (main_header_returned h Hh).
Qed.

(** *** Saving, then loading *)

Lemma ParseHTML_written {error : Type} (clean : string -> string)
    (osOpen : string -> string + error) (htmlParse : string -> Node + error)
    (path file : string) :
  osOpen (clean path) = inl file -> htmlParse file = inl (Html.parse file) ->
  Parser.ParseHTML clean osOpen htmlParse path = (Parser.decodeDoc (Html.parse file), None).
Proof. intros Ho Hp. unfold Parser.ParseHTML. now rewrite Ho, Hp. Qed.

Lemma stablePage_committed {P : Ui.Platform} (m : Ui.model P) :
  sized m -> cursorOK m ->
  Forall stable (Ui.header (committed m)) ->
  Forall (fun r => Forall stable (Col r)) (Ui.rows (committed m)) ->
  Forall stable (Ui.footer (committed m)) ->
  stablePage (Ui.header (committed m)) (Ui.rows (committed m)) (Ui.footer (committed m)).
Proof.
  intros Hs (_ & Hr & _) Sh Sr Sf.
  destruct (sized_committed m Hs Hr) as (L1 & L2 & L3 & L4 & _).
  exact (conj L1 (conj L2 (conj L3 (conj L4 (conj Sh (conj Sr Sf)))))).
Qed.

(** Save and load with an encoder that writes [render] of the data. *)
Lemma save_then_load {P : Ui.Platform}
    (render : list string -> list Row -> list string -> string)
    (m m2 : Ui.model P) (w : Ui.World P) (km : Ui.KeyMsg P)
    (msg : Ui.Msg (Ui.KeyMsg P) (Ui.OtherMsg P)) :
  let writeHTML := fun h r f name => Ui.osWriteFile P name (render h r f) in
  (forall name data s s',
      Ui.osWriteFile P name data s = (s', None) ->
      Ui.osOpen P s' (Ui.filepathClean P name) = inl data) ->
  (forall file, Ui.htmlParse P file = inl (Html.parse file)) ->
  editing (Ui.mode m) = true -> sized m -> cursorOK m ->
  Ui.keyType P km = Ui.KeyCtrlW ->
  Ui.mode m2 = Ui.modePickFile ->
  Ui.fpDidSelectFile P msg (Ui.fpUpdate P msg (Ui.picker m2)).1 = Some "census.html" ->
  exists m1 w1,
    Ui.Update P writeHTML (Ui.KeyPress km) m w = Some (m1, None, w1)
    /\ (Ui.justWrote m1 = true ->
        exists m3,
          Ui.Update P writeHTML msg m2 w1 = Some (m3, None, w1)
          /\ Ui.justRead m3 = true
          /\ data m3
             = Parser.decodeDoc
                 (Html.parse (render (Ui.header (committed m)) (Ui.rows (committed m))
                                (Ui.footer (committed m))))).
Proof.
  intros writeHTML Hfs Hparse He Hs Hc Ek Em2 Hsel.
  pose proof (save_closed P writeHTML m w km He Hs Hc Ek) as Hsave.
  unfold writeHTML at 2 3 in Hsave.
  destruct (Ui.osWriteFile P "census.html"
              (render (Ui.header (committed m)) (Ui.rows (committed m))
                 (Ui.footer (committed m))) (Ui.disk w)) as [d [err|]] eqn:Hw;
    destruct Hsave as (m1 & Hu & _ & Hj & _); cbn [snd] in Hj.
  - eexists m1, _. split; [exact Hu|]. intros Hjt. rewrite Hj in Hjt. discriminate Hjt.
  - exists m1, (Ui.mkWorld P d (Ui.stderr w)). split; [exact Hu|]. intros _.
    pose proof (picker_load P writeHTML m2 (Ui.mkWorld P d (Ui.stderr w)) msg "census.html"
                  Em2 Hsel) as Hload.
    cbn [Ui.disk] in Hload.
    rewrite (ParseHTML_written _ _ _ _ _ (Hfs _ _ _ _ Hw) (Hparse _)) in Hload.
    destruct (Parser.decodeDoc _) as [[h r] f] eqn:Hdec in Hload.
    destruct Hload as (m3 & H3 & Hd3 & _ & _ & _ & Hjr & _).
    exists m3. rewrite Hdec. exact (conj H3 (conj Hjr Hd3)).
Qed.

(** X14.  Package ui: Ctrl-W, and then census.html selected in the picker with
    the files as the save left them.  When the write succeeded and the
    stored values are stable, the load returns the rows and the footer that
    were stored, and the stored header with its non-empty fields moved to
    the front. *)
Theorem ui_save_then_load :
  forall (P : Ui.Platform) (m m2 : Ui.model P) (w : Ui.World P) (km : Ui.KeyMsg P)
         (msg : Ui.Msg (Ui.KeyMsg P) (Ui.OtherMsg P)),
    (forall name data s s',
        Ui.osWriteFile P name data s = (s', None) ->
        Ui.osOpen P s' (Ui.filepathClean P name) = inl data) ->
    (forall file, Ui.htmlParse P file = inl (Html.parse file)) ->
    editing (Ui.mode m) = true -> sized m -> cursorOK m ->
    Ui.keyType P km = Ui.KeyCtrlW ->
    Forall stable (Ui.header (committed m)) ->
    Forall (fun r => Forall stable (Col r)) (Ui.rows (committed m)) ->
    Forall stable (Ui.footer (committed m)) ->
    Ui.mode m2 = Ui.modePickFile ->
    Ui.fpDidSelectFile P msg (Ui.fpUpdate P msg (Ui.picker m2)).1 = Some "census.html" ->
    exists m1 w1,
      Ui.uiUpdate P (Ui.KeyPress km) m w = Some (m1, None, w1)
      /\ (Ui.justWrote m1 = true ->
          exists m3,
            Ui.uiUpdate P msg m2 w1 = Some (m3, None, w1)
            /\ Ui.justRead m3 = true
            /\ data m3
               = (padTo 7 EmptyString (List.filter nonEmpty (Ui.header (committed m))),
                  Ui.rows (committed m), Ui.footer (committed m))).
Proof.
  intros P m m2 w km msg Hfs Hparse He Hs Hc Ek Sh Sr Sf Em2 Hsel.
  pose proof (stablePage_committed m Hs Hc Sh Sr Sf) as Hpage.
  destruct (save_then_load Template.render m m2 w km msg Hfs Hparse He Hs Hc Ek Em2 Hsel)
    as (m1 & w1 & Hu & Hl).
  exists m1, w1. split; [exact Hu|]. intros Hj.
  destruct (Hl Hj) as (m3 & H3 & Hjr & Hd3). exists m3.
  refine (conj H3 (conj Hjr (eq_trans Hd3 _))).
  exact (proj1 (decode_stable_page _ _ _ Hpage)).
Qed.

(** X15.  The single-file program, in the same situation: the load returns the
    stored rows and footer, and the stored header with its non-empty fields
    moved to the front and followed by Schedule and & No. or Name of House
    as far as 7 slots reach. *)
Theorem main_save_then_load :
  forall (P : Ui.Platform) (m m2 : Ui.model P) (w : Ui.World P) (km : Ui.KeyMsg P)
         (msg : Ui.Msg (Ui.KeyMsg P) (Ui.OtherMsg P)),
    (forall name data s s',
        Ui.osWriteFile P name data s = (s', None) ->
        Ui.osOpen P s' (Ui.filepathClean P name) = inl data) ->
    (forall file, Ui.htmlParse P file = inl (Html.parse file)) ->
    editing (Ui.mode m) = true -> sized m -> cursorOK m ->
    Ui.keyType P km = Ui.KeyCtrlW ->
    Forall stable (Ui.header (committed m)) ->
    Forall (fun r => Forall stable (Col r)) (Ui.rows (committed m)) ->
    Forall stable (Ui.footer (committed m)) ->
    Ui.mode m2 = Ui.modePickFile ->
    Ui.fpDidSelectFile P msg (Ui.fpUpdate P msg (Ui.picker m2)).1 = Some "census.html" ->
    exists m1 w1,
      Ui.mainUpdate P (Ui.KeyPress km) m w = Some (m1, None, w1)
      /\ (Ui.justWrote m1 = true ->
          exists m3,
            Ui.mainUpdate P msg m2 w1 = Some (m3, None, w1)
            /\ Ui.justRead m3 = true
            /\ data m3
               = (padTo 7 EmptyString
                    (List.filter nonEmpty (Ui.header (committed m))
                     ++ ["Schedule"; "& No. or Name of House"]),
                  Ui.rows (committed m), Ui.footer (committed m))).
Proof.
  intros P m m2 w km msg Hfs Hparse He Hs Hc Ek Sh Sr Sf Em2 Hsel.
  pose proof (stablePage_committed m Hs Hc Sh Sr Sf) as Hpage.
  destruct (save_then_load Main.render m m2 w km msg Hfs Hparse He Hs Hc Ek Em2 Hsel)
    as (m1 & w1 & Hu & Hl).
  exists m1, w1. split; [exact Hu|]. intros Hj.
  destruct (Hl Hj) as (m3 & H3 & Hjr & Hd3). exists m3.
  refine (conj H3 (conj Hjr (eq_trans Hd3 _))).
  exact (proj2 (decode_stable_page _ _ _ Hpage)).
Qed.

(** ** The theorems at work on a session *)

Lemma toy_files (name data : string) (s s' : Files) :
  writeFile name data s = (s', None) -> openFile s' name = inl data.
Proof. intros [= <-]. cbn [openFile]. now rewrite String.eqb_refl. Qed.

Lemma good_typing : sized (after typing).1 /\ cursorOK (after typing).1.
Proof.
  split.
  - vm_compute. repeat constructor.
  - vm_compute. repeat split; discriminate.
Qed.

Lemma good_saved : sized (after saved).1 /\ cursorOK (after saved).1.
Proof.
  split.
  - vm_compute. repeat constructor.
  - vm_compute. repeat split; discriminate.
Qed.

Lemma good_eighthField : sized (after eighthField).1.
Proof. vm_compute. repeat constructor. Qed.

Lemma stable_typing :
  Forall stable (Ui.header (committed (after typing).1))
  /\ Forall (fun r => Forall stable (Col r)) (Ui.rows (committed (after typing).1))
  /\ Forall stable (Ui.footer (committed (after typing).1)).
Proof.
  split; [|split]; try (apply forallb_stable; vm_compute; reflexivity).
  apply List.Forall_forall. intros r Hin. apply forallb_stable.
  revert r Hin. apply forallb_forall. vm_compute. reflexivity.
Qed.

Lemma gap_page : stablePage gapHeader sampleRows sampleFooter.
Proof.
  destruct sample_sizes as (_ & Hrows & Hcols & Hf).
  destruct sample_stable as (_ & Srows & Sf).
  refine (conj eq_refl (conj Hrows (conj Hcols (conj Hf (conj _ (conj Srows Sf)))))).
  apply forallb_stable. vm_compute. reflexivity.
Qed.

(** X4, on a session.  A key typed in the body. *)
Lemma update_keeps_bounds_witness :
  exists m' cmd w',
    Ui.Update toy (Template.WriteHTML writeFile) (typed "x") (after typing).1 (after typing).2
    = Some (m', cmd, w')
    /\ sized m' /\ cursorOK m' /\ Ui.mode m' <> Ui.modePickFile.
Proof.
  destruct good_typing as [Hs Hc].
  destruct (update_keeps_bounds toy (Template.WriteHTML writeFile) (typed "x")
              (after typing).1 (after typing).2 Hs Hc)
    as (m' & cmd & w' & Hu & S & C & M); [vm_compute; discriminate|].
  exists m', cmd, w'. exact (conj Hu (conj S (conj C (M eq_refl)))).
Defined.

(** X5, on a session.  The typing session, then a save. *)
Lemma session_never_panics_witness :
  exists m' w',
    Ui.handle toy (Template.WriteHTML writeFile) (typing ++ [key Ui.KeyCtrlW])
      (Ui.NewModel toy) emptyWorld = Some (m', w')
    /\ sized m' /\ cursorOK m' /\ Ui.mode m' <> Ui.modePickFile.
Proof.
  apply (session_never_panics toy (Template.WriteHTML writeFile)
           (typing ++ [key Ui.KeyCtrlW]) emptyWorld).
  vm_compute. reflexivity.
Defined.

(** X6, on a session.  Up in the menu that opens on 1861: 1851. *)
Lemma year_menu_witness :
  exists m',
    Ui.Update toy (Template.WriteHTML writeFile) (key Ui.KeyUp) (Ui.NewModel toy) emptyWorld
    = Some (m', None, emptyWorld)
    /\ Ui.yearIdx m' = 1%Z.
Proof.
  destruct (NewModel_good toy) as (Hs & Hc & Hm).
  destruct (year_menu toy (Template.WriteHTML writeFile) (Ui.NewModel toy) emptyWorld
              (Ui.KeyUp, EmptyString) Hm Hs Hc) as (_ & Hup & _).
  destruct (Hup eq_refl) as (m' & Hu & Hy & _).
  exists m'. split; [exact Hu | exact Hy].
Defined.

(** X7, on a session.  Shift-Tab in the first field of the body: the twelfth. *)
Lemma tab_cycles_witness :
  exists m',
    Ui.Update toy (Template.WriteHTML writeFile) (key Ui.KeyShiftTab)
      (after typing).1 (after typing).2
    = Some (m', None, (after typing).2)
    /\ Ui.currCol m' = 11%Z.
Proof.
  destruct good_typing as [Hs Hc].
  assert (He : editing (Ui.mode (after typing).1) = true) by (vm_compute; reflexivity).
  destruct (tab_cycles toy (Template.WriteHTML writeFile) (after typing).1 (after typing).2
              (Ui.KeyShiftTab, EmptyString) He Hs Hc) as (_ & Hst).
  destruct (Hst eq_refl) as (m' & Hu & Hcol & _).
  exists m'. split; [exact Hu|]. rewrite Hcol. vm_compute. reflexivity.
Defined.

(** X8, on a session.  Down on the first row: the row typed is stored, the second row is the
    current one. *)
Lemma row_navigation_witness :
  exists m',
    Ui.Update toy (Template.WriteHTML writeFile) (key Ui.KeyDown)
      (after typing).1 (after typing).2
    = Some (m', None, (after typing).2)
    /\ Ui.currRow m' = 1%Z
    /\ Ui.rows m' !! 0 = Some (mkRow ("12" :: replicate 11 EmptyString)).
Proof.
  destruct good_typing as [Hs Hc].
  assert (Em : Ui.mode (after typing).1 = Ui.modeBody) by (vm_compute; reflexivity).
  destruct (row_navigation toy (Template.WriteHTML writeFile) (after typing).1
              (after typing).2 (Ui.KeyDown, EmptyString) Em Hs Hc 1%Z
              (or_introl (conj eq_refl eq_refl)))
    as (m' & Hu & _ & _ & _ & _ & Hif).
  rewrite decide_True in Hif by (vm_compute; split; [discriminate | reflexivity]).
  destruct Hif as [Hr Hrows].
  exists m'. refine (conj Hu (conj _ _)).
  - rewrite Hr. vm_compute. reflexivity.
  - rewrite Hrows. vm_compute. reflexivity.
Defined.

(** X10, on a session.  Ctrl-W after the typing: census.html is written. *)
Lemma save_writes_committed_witness :
  exists m' w',
    Ui.Update toy (Template.WriteHTML writeFile) (key Ui.KeyCtrlW)
      (after typing).1 (after typing).2
    = Some (m', None, w')
    /\ Ui.justWrote m' = true
    /\ Ui.header m' = ["Leeds"; EmptyString; "North Ward"; EmptyString; EmptyString; EmptyString; EmptyString]
    /\ map fst (Ui.disk w') = ["census.html"].
Proof.
  destruct good_typing as [Hs Hc].
  assert (He : editing (Ui.mode (after typing).1) = true) by (vm_compute; reflexivity).
  destruct (save_writes_committed toy (Template.WriteHTML writeFile) (after typing).1
              (after typing).2 (Ui.KeyCtrlW, EmptyString) He Hs Hc eq_refl)
    as (m' & Hu & Hd & Hj & _).
  eexists m', _. refine (conj Hu (conj _ (conj _ _))).
  - rewrite Hj. vm_compute. reflexivity.
  - refine (eq_trans (f_equal (fun d => d.1.1) Hd) _). vm_compute. reflexivity.
  - vm_compute. reflexivity.
Defined.

(** X11, on a session.  The file saved, selected in the picker: its header is Leeds, North
    Ward, and the header inputs are the old ones. *)
Lemma load_from_picker_witness :
  exists m',
    Ui.Update toy (Template.WriteHTML writeFile) (Ui.Other "census.html")
      (after saved).1 (after saved).2
    = Some (m', None, (after saved).2)
    /\ Ui.header m' = ["Leeds"; "North Ward"; EmptyString; EmptyString; EmptyString; EmptyString; EmptyString]
    /\ values (Ui.headIn m') = ["Leeds"; EmptyString; "North Ward"; EmptyString; EmptyString; EmptyString; EmptyString].
Proof.
  assert (Em : Ui.mode (after saved).1 = Ui.modePickFile) by (vm_compute; reflexivity).
  pose proof (load_from_picker toy (Template.WriteHTML writeFile) (after saved).1
                (after saved).2 (Ui.Other "census.html") "census.html" Em eq_refl) as H.
  match type of H with
  | context [Parser.ParseHTML ?a ?b ?c ?d] => set (X := Parser.ParseHTML a b c d) in H
  end.
  assert (E : X = (X.1.1.1, X.1.1.2, X.1.2, None)) by (vm_compute; reflexivity).
  rewrite E in H. destruct H as (m' & Hu & Hd & _ & _ & _ & _ & _ & Hhi & _).
  exists m'. refine (conj Hu (conj _ _)).
  - refine (eq_trans (f_equal (fun d => d.1.1) Hd) _). vm_compute. reflexivity.
  - rewrite Hhi. vm_compute. reflexivity.
Defined.

(** X12, on a session.  After that load Ctrl-B puts the old header back. *)
Lemma loaded_header_discarded_witness :
  exists m1,
    Ui.Update toy (Template.WriteHTML writeFile) (Ui.Other "census.html")
      (after saved).1 (after saved).2
    = Some (m1, None, (after saved).2)
    /\ Ui.header m1 = ["Leeds"; "North Ward"; EmptyString; EmptyString; EmptyString; EmptyString; EmptyString]
    /\ exists m2 cmd w3,
         Ui.Update toy (Template.WriteHTML writeFile) (key Ui.KeyCtrlB) m1 (after saved).2
         = Some (m2, cmd, w3)
         /\ Ui.header m2 = ["Leeds"; EmptyString; "North Ward"; EmptyString; EmptyString; EmptyString; EmptyString].
Proof.
  destruct good_saved as [Hs Hc].
  assert (Em : Ui.mode (after saved).1 = Ui.modePickFile) by (vm_compute; reflexivity).
  pose (X := Parser.ParseHTML (Ui.filepathClean toy)
               (Ui.osOpen toy (Ui.disk (after saved).2)) (Ui.htmlParse toy) "census.html").
  assert (E : X = (X.1.1.1, X.1.1.2, X.1.2, None)) by (vm_compute; reflexivity).
  destruct (loaded_header_discarded toy (Template.WriteHTML writeFile) (after saved).1
              (after saved).2 (Ui.Other "census.html") "census.html"
              X.1.1.1 X.1.1.2 X.1.2 Em Hs Hc eq_refl E
              (fun i => eq_refl)) as (m1 & Hu & Hh & Hnext).
  exists m1. refine (conj Hu (conj _ _)).
  - rewrite Hh. vm_compute. reflexivity.
  - destruct (Hnext (Ui.KeyCtrlB, EmptyString) (after saved).2) as (m2 & cmd & w3 & H2 & Hh2).
    + cbn. tauto.
    + exists m2, cmd, w3. split; [exact H2|]. rewrite Hh2. vm_compute. reflexivity.
Defined.

(** X13, on a session.  Esc in the picker opened from the eighth field of the body, then a
    letter. *)
Lemma picker_escape_overrun_witness :
  exists m1,
    Ui.Update toy (Template.WriteHTML writeFile) (key Ui.KeyEsc)
      (after eighthField).1 (after eighthField).2
    = Some (m1, None, (after eighthField).2)
    /\ Ui.mode m1 = Ui.modeHeader /\ Ui.currCol m1 = 7%Z
    /\ Ui.Update toy (Template.WriteHTML writeFile) (typed "x") m1 (after eighthField).2
       = None.
Proof.
  assert (Em : Ui.mode (after eighthField).1 = Ui.modePickFile) by (vm_compute; reflexivity).
  assert (Hcol : (7 <= Ui.currCol (after eighthField).1)%Z) by (vm_compute; discriminate).
  destruct (picker_escape_overrun toy (Template.WriteHTML writeFile) (after eighthField).1
              (after eighthField).2 (Ui.KeyEsc, EmptyString) Em good_eighthField Hcol
              (or_introl eq_refl) eq_refl) as (m1 & Hu & Hm & Hc1 & _ & Hnext).
  exists m1. refine (conj Hu (conj Hm (conj _ _))).
  - rewrite Hc1. vm_compute. reflexivity.
  - apply (Hnext (Ui.KeyOther, "x")). cbn. tauto.
Defined.

(** X9, on a session.  Ctrl-F in the body: the footer, first field. *)
Lemma mode_switch_witness :
  exists m',
    Ui.Update toy (Template.WriteHTML writeFile) (key Ui.KeyCtrlF)
      (after typing).1 (after typing).2
    = Some (m', None, (after typing).2)
    /\ Ui.mode m' = Ui.modeFooter /\ Ui.currCol m' = 0%Z
    /\ Ui.rows m' !! 0 = Some (mkRow ("12" :: replicate 11 EmptyString)).
Proof.
  destruct good_typing as [Hs Hc].
  assert (He : editing (Ui.mode (after typing).1) = true) by (vm_compute; reflexivity).
  destruct (mode_switch toy (Template.WriteHTML writeFile) (after typing).1 (after typing).2
              (Ui.KeyCtrlF, EmptyString) Ui.modeFooter He Hs Hc
              (or_intror (or_intror (conj eq_refl eq_refl))))
    as (m' & Hu & Hm & Hcol & _ & Hd).
  exists m'. refine (conj Hu (conj Hm (conj Hcol _))).
  refine (eq_trans (f_equal (fun d => d.1.2 !! 0) Hd) _). vm_compute. reflexivity.
Defined.

(** X14, on a session.  Package ui: the page typed is saved and loaded again; North Ward has
    moved from the third header field to the second. *)
Lemma ui_save_then_load_witness :
  exists m1 w1 m3,
    Ui.uiUpdate toy (key Ui.KeyCtrlW) (after typing).1 (after typing).2 = Some (m1, None, w1)
    /\ Ui.uiUpdate toy (Ui.Other "census.html") (after saved).1 w1 = Some (m3, None, w1)
    /\ Ui.header m3 = ["Leeds"; "North Ward"; EmptyString; EmptyString; EmptyString; EmptyString; EmptyString]
    /\ Ui.rows m3 !! 0 = Some (mkRow ("12" :: replicate 11 EmptyString)).
Proof.
  destruct good_typing as [Hs Hc]. destruct stable_typing as (Sh & Sr & Sf).
  assert (He : editing (Ui.mode (after typing).1) = true) by (vm_compute; reflexivity).
  assert (Em : Ui.mode (after saved).1 = Ui.modePickFile) by (vm_compute; reflexivity).
  destruct (ui_save_then_load toy (after typing).1 (after saved).1 (after typing).2
              (Ui.KeyCtrlW, EmptyString) (Ui.Other "census.html")
              toy_files (fun file => eq_refl) He Hs Hc eq_refl Sh Sr Sf Em eq_refl)
    as (m1 & w1 & Hu & Hl).
  assert (Hj : Ui.justWrote m1 = true).
  { match type of Hu with
    | ?L = _ =>
        assert (Hv : option_map (fun r => Ui.justWrote r.1.1) L = Some true)
          by (vm_compute; reflexivity)
    end.
    rewrite Hu in Hv. now injection Hv. }
  destruct (Hl Hj) as (m3 & H3 & _ & Hd).
  exists m1, w1, m3. refine (conj Hu (conj H3 (conj _ _))).
  - refine (eq_trans (f_equal (fun d => d.1.1) Hd) _). vm_compute. reflexivity.
  - refine (eq_trans (f_equal (fun d => d.1.2 !! 0) Hd) _). vm_compute. reflexivity.
Defined.

(** X15, on a session.  The single-file program on the same page: the two column heads are
    read as the third and the fourth header field. *)
Lemma main_save_then_load_witness :
  exists m1 w1 m3,
    Ui.mainUpdate toy (key Ui.KeyCtrlW) (after typing).1 (after typing).2
    = Some (m1, None, w1)
    /\ Ui.mainUpdate toy (Ui.Other "census.html") (after saved).1 w1 = Some (m3, None, w1)
    /\ Ui.header m3
       = ["Leeds"; "North Ward"; "Schedule"; "& No. or Name of House"; EmptyString; EmptyString; EmptyString].
Proof.
  destruct good_typing as [Hs Hc]. destruct stable_typing as (Sh & Sr & Sf).
  assert (He : editing (Ui.mode (after typing).1) = true) by (vm_compute; reflexivity).
  assert (Em : Ui.mode (after saved).1 = Ui.modePickFile) by (vm_compute; reflexivity).
  destruct (main_save_then_load toy (after typing).1 (after saved).1 (after typing).2
              (Ui.KeyCtrlW, EmptyString) (Ui.Other "census.html")
              toy_files (fun file => eq_refl) He Hs Hc eq_refl Sh Sr Sf Em eq_refl)
    as (m1 & w1 & Hu & Hl).
  assert (Hj : Ui.justWrote m1 = true).
  { match type of Hu with
    | ?L = _ =>
        assert (Hv : option_map (fun r => Ui.justWrote r.1.1) L = Some true)
          by (vm_compute; reflexivity)
    end.
    rewrite Hu in Hv. now injection Hv. }
  destruct (Hl Hj) as (m3 & H3 & _ & Hd).
  exists m1, w1, m3. refine (conj Hu (conj H3 _)).
  refine (eq_trans (f_equal (fun d => d.1.1) Hd) _). vm_compute. reflexivity.
Defined.

(** X1, on a session.  A header with its second field empty: North Ward returns in the second
    field. *)
Lemma header_fields_move_up_witness :
  Parser.ParseHTML (fun p => p)
    (openFile (Template.WriteHTML writeFile gapHeader sampleRows sampleFooter
                 "census.html" []).1)
    (parseDoc (error := unit)) "census.html"
  = (["Leeds"; "North Ward"; EmptyString; EmptyString; EmptyString; EmptyString; EmptyString], sampleRows, sampleFooter, None).
Proof.
  exact (proj1 (header_fields_move_up unit Files (fun p => p) writeFile openFile
                  gapHeader sampleRows sampleFooter "census.html" [] _
                  toy_files gap_page eq_refl)).
Defined.

(** X2, on a session.  Two rows written: they return, with 23 empty rows after them. *)
Lemma rows_cut_or_filled_witness :
  Parser.ParseHTML (fun p => p)
    (openFile (Template.WriteHTML writeFile sampleHeader (take 2 sampleRows) sampleFooter
                 "census.html" []).1)
    (parseDoc (error := unit)) "census.html"
  = (sampleHeader, take 2 sampleRows ++ replicate 23 Parser.zeroRow, sampleFooter, None).
Proof.
  destruct sample_sizes as (Hh & _ & Hcols & Hf).
  destruct sample_stable as (Sh & Srows & Sf).
  exact (rows_cut_or_filled unit Files (fun p => p) writeFile openFile
           sampleHeader (take 2 sampleRows) sampleFooter "census.html" [] _
           toy_files Hh (Forall_take _ 2 _ Hcols) Hf (proj1 sample_nonempty) Sh
           (Forall_take _ 2 _ Srows) Sf eq_refl).
Defined.

(** X3, on a session.  The single-file program on the header with its second field empty. *)
Lemma main_round_trip_witness :
  Main.parseHTML (fun p => p)
    (openFile (Main.writeHTML writeFile gapHeader sampleRows sampleFooter
                 "census.html" []).1)
    (parseDoc (error := unit)) "census.html"
  = (["Leeds"; "North Ward"; "Schedule"; "& No. or Name of House"; EmptyString; EmptyString; EmptyString],
     sampleRows, sampleFooter, None).
Proof.
  exact (proj1 (main_round_trip unit Files (fun p => p) writeFile openFile
                  gapHeader sampleRows sampleFooter "census.html" [] _
                  toy_files gap_page eq_refl)).
Defined.

(** X16, on a session.  The page typed, and Ctrl-B: no file is there. *)
Lemma only_save_writes_witness :
  exists m' cmd w',
    Ui.Update toy (Template.WriteHTML writeFile) (key Ui.KeyCtrlB)
      (after typing).1 (after typing).2 = Some (m', cmd, w')
    /\ Ui.disk w' = [].
Proof.
  destruct good_typing as [Hs Hc].
  destruct (Update_safe (P := toy) (Template.WriteHTML writeFile) (key Ui.KeyCtrlB)
              (after typing).1 (after typing).2 Hs Hc)
    as (m' & cmd & w' & Hu & _); [vm_compute; discriminate|].
  exists m', cmd, w'. split; [exact Hu|].
  refine (eq_trans (only_save_writes toy (Template.WriteHTML writeFile) (key Ui.KeyCtrlB)
                      (after typing).1 m' (after typing).2 w' cmd Hu _) _).
  - vm_compute. reflexivity.
  - vm_compute. reflexivity.
Defined.

(** X17, on a session.  A letter typed in the body after the typing session: the first row of
    the data is still empty. *)
Lemma typing_keeps_data_witness :
  exists m' cmd w',
    Ui.Update toy (Template.WriteHTML writeFile) (typed "x")
      (after typing).1 (after typing).2 = Some (m', cmd, w')
    /\ Ui.rows m' !! 0 = Some Parser.zeroRow.
Proof.
  destruct good_typing as [Hs Hc].
  destruct (Update_safe (P := toy) (Template.WriteHTML writeFile) (typed "x")
              (after typing).1 (after typing).2 Hs Hc)
    as (m' & cmd & w' & Hu & _); [vm_compute; discriminate|].
  exists m', cmd, w'. split; [exact Hu|].
  refine (eq_trans (f_equal (fun d => d.1.2 !! 0)
                      (typing_keeps_data toy (Template.WriteHTML writeFile) (typed "x")
                         (after typing).1 m' (after typing).2 w' cmd Hu _ _)) _).
  - vm_compute. discriminate.
  - reflexivity.
  - vm_compute. reflexivity.
Defined.
